(** * The SQL type system of go-mysql-server ([sql/type.go])

    A shallow embedding of the [sql] package's type catalogue: the eight
    built-in descriptors ([Null], [Integer], [BigInteger],
    [TimestampWithTimezone], [String], [Boolean], [Float], [Blob]), the
    [Column] and [Schema] row validation, and the fail-fast helper
    [MustConvert], followed by theorems about conversion, comparison,
    serialisation and row checking.

    Conventions.
    - A Go [interface{}] is a [value]: one constructor per dynamic type the
      code switches on, [VNil] for the nil interface, and [VOther] and
      [VFaulty] for every other dynamic type: [VOther] carries the text its
      [String()] method returns, if it has the method, [VFaulty] is a value
      whose [String()] method panics when called (a nil [*time.Time], whose
      method dereferences its receiver).
    - Fixed-width integers are [Z] with the wrap-around of Go's conversions
      written out ([wrap_signed]).  Go's [int] and [uint] are 64 bits wide,
      as on amd64 and arm64.
    - A Go call either returns, returns a non-nil [error], or panics:
      [outcome] has one constructor for each.
    - The functions of Go's standard library that the code calls are
      modelled in modules named after their packages ([strconv], [strings],
      [bytes], [time], [reflect]), and those of vitess in [sqltypes]. *)

From Stdlib Require Import ZArith List String Ascii Bool Lia.
From Stdlib Require Import Strings.Byte Floats.SpecFloat.
Import ListNotations.

Local Open Scope string_scope.
Local Open Scope list_scope.
Local Open Scope Z_scope.

(** ** Machine integers *)

Definition intSize : Z := 64.

Definition wrap_signed (w z : Z) : Z :=
  (z + 2 ^ (w - 1)) mod 2 ^ w - 2 ^ (w - 1).

Definition in_signed (w z : Z) : Prop := - 2 ^ (w - 1) <= z < 2 ^ (w - 1).
Definition in_unsigned (w z : Z) : Prop := 0 <= z < 2 ^ w.

(** Go's conversions [int32(x)] and [int64(x)] from any integer type. *)
Definition int32 (z : Z) : Z := wrap_signed 32 z.
Definition int64 (z : Z) : Z := wrap_signed 64 z.

(** ** Timestamps: the data of a [time.Time] *)

Inductive Location : Set :=
| UTC
| Local
| FixedZone (name : string) (offset : Z).

(** [sec] counts seconds since January 1 of year 1, 00:00:00 UTC (what
    [t.sec()] returns), [nsec] the nanoseconds within the second, [mono]
    the monotonic clock reading when the value carries one. *)
Record Time : Set := mkTime {
  sec : Z;
  nsec : Z;
  mono : option Z;
  loc : Location
}.

(** ** Dynamic values *)

Inductive value : Set :=
| VNil
| VInt (n : Z)
| VInt8 (n : Z)
| VInt16 (n : Z)
| VInt32 (n : Z)
| VInt64 (n : Z)
| VUint (n : Z)
| VUint8 (n : Z)
| VUint16 (n : Z)
| VUint32 (n : Z)
| VUint64 (n : Z)
| VFloat32 (f : spec_float)
| VFloat64 (f : spec_float)
| VString (s : string)
| VBool (b : bool)
| VBytes (b : list byte)
| VTime (t : Time)
| VOther (typ : string) (stringer : option string)
| VFaulty (typ : string).

(** A value is well formed when its payload fits its dynamic type. *)
Definition wf_value (v : value) : Prop :=
  match v with
  | VInt n => in_signed intSize n
  | VInt8 n => in_signed 8 n
  | VInt16 n => in_signed 16 n
  | VInt32 n => in_signed 32 n
  | VInt64 n => in_signed 64 n
  | VUint n => in_unsigned intSize n
  | VUint8 n => in_unsigned 8 n
  | VUint16 n => in_unsigned 16 n
  | VUint32 n => in_unsigned 32 n
  | VUint64 n => in_unsigned 64 n
  | VFloat32 f => valid_binary 24 128 f = true
  | VFloat64 f => valid_binary 53 1024 f = true
  | VTime t => 0 <= nsec t < 1000000000
  | _ => True
  end.

(** ** Errors, panics and outcomes *)

Inductive error : Set :=
| ErrInvalidType
| ErrValueNotNil (v : value)
| ErrOverflows (v : value) (target : string)
| ErrCantConvert (v : value) (target : string)
| ErrExpectedValues (expected got : nat)
| ErrUnexpectedType (idx : nat) (typ : string).

Inductive panic : Set :=
| NilDereference
| IndexOutOfRange (idx : nat)
| InterfaceConversion (v : value) (want : string)
| PanicError (e : error)
| MethodPanic (typ : string).

Inductive outcome (A : Type) : Type :=
| Ret (a : A)
| Fail (e : error)
| Panic (p : panic).

Arguments Ret {A} a.
Arguments Fail {A} e.
Arguments Panic {A} p.

Definition bind {A B} (m : outcome A) (k : A -> outcome B) : outcome B :=
  match m with
  | Ret a => k a
  | Fail e => Fail e
  | Panic p => Panic p
  end.

Notation "x <- m ;; k" := (bind m (fun x => k))
  (at level 61, m at next level, right associativity).

Definition returns {A} (m : outcome A) : Prop := exists a, m = Ret a.
Definition fails {A} (m : outcome A) : Prop := exists e, m = Fail e.
Definition panics {A} (m : outcome A) : Prop := exists p, m = Panic p.

(** An overflow error is one built by [fmt.Errorf("value %d overflows ...")]. *)
Definition fails_with_overflow {A} (m : outcome A) : Prop :=
  exists v t, m = Fail (ErrOverflows v t).

(** ** Type assertions [v.(T)]: they panic on any other dynamic type *)

Definition assert_int (v : value) : outcome Z :=
  match v with VInt n => Ret n | _ => Panic (InterfaceConversion v "int") end.
Definition assert_int8 (v : value) : outcome Z :=
  match v with VInt8 n => Ret n | _ => Panic (InterfaceConversion v "int8") end.
Definition assert_int16 (v : value) : outcome Z :=
  match v with VInt16 n => Ret n | _ => Panic (InterfaceConversion v "int16") end.
Definition assert_int32 (v : value) : outcome Z :=
  match v with VInt32 n => Ret n | _ => Panic (InterfaceConversion v "int32") end.
Definition assert_int64 (v : value) : outcome Z :=
  match v with VInt64 n => Ret n | _ => Panic (InterfaceConversion v "int64") end.
Definition assert_uint (v : value) : outcome Z :=
  match v with VUint n => Ret n | _ => Panic (InterfaceConversion v "uint") end.
Definition assert_uint8 (v : value) : outcome Z :=
  match v with VUint8 n => Ret n | _ => Panic (InterfaceConversion v "uint8") end.
Definition assert_uint16 (v : value) : outcome Z :=
  match v with VUint16 n => Ret n | _ => Panic (InterfaceConversion v "uint16") end.
Definition assert_uint32 (v : value) : outcome Z :=
  match v with VUint32 n => Ret n | _ => Panic (InterfaceConversion v "uint32") end.
Definition assert_uint64 (v : value) : outcome Z :=
  match v with VUint64 n => Ret n | _ => Panic (InterfaceConversion v "uint64") end.
Definition assert_float32 (v : value) : outcome spec_float :=
  match v with VFloat32 f => Ret f | _ => Panic (InterfaceConversion v "float32") end.
Definition assert_float64 (v : value) : outcome spec_float :=
  match v with VFloat64 f => Ret f | _ => Panic (InterfaceConversion v "float64") end.
Definition assert_string (v : value) : outcome string :=
  match v with VString s => Ret s | _ => Panic (InterfaceConversion v "string") end.
Definition assert_bool (v : value) : outcome bool :=
  match v with VBool b => Ret b | _ => Panic (InterfaceConversion v "bool") end.
Definition assert_bytes (v : value) : outcome (list byte) :=
  match v with VBytes b => Ret b | _ => Panic (InterfaceConversion v "[]uint8") end.
Definition assert_Time (v : value) : outcome Time :=
  match v with VTime t => Ret t | _ => Panic (InterfaceConversion v "time.Time") end.

(** The comma-ok form [_, ok := v.(T)] never panics. *)
Definition ok {A} (m : outcome A) : bool :=
  match m with Ret _ => true | _ => false end.

(** ** Bytes and decimal digits *)

Definition code (c : ascii) : Z := Z.of_N (N_of_ascii c).

Definition isDigit (c : ascii) : bool := (48 <=? code c) && (code c <=? 57).

Definition digit_val (c : ascii) : Z := code c - 48.

Definition digit_char (d : Z) : ascii := ascii_of_N (Z.to_N (48 + d)).

(** Decimal digits of [u >= 0], most significant first, zero padded on the
    left to [width] characters. *)
Fixpoint utoa (fuel : nat) (u : Z) (width : nat) (acc : string) : string :=
  match fuel with
  | O => acc
  | S f =>
      if (u =? 0) && Nat.eqb width 0 then acc
      else utoa f (u / 10) (Nat.pred width) (String (digit_char (u mod 10)) acc)
  end.

Definition pad_uint (u : Z) (width : nat) : string :=
  utoa (width + Z.to_nat (Z.log2_up (u + 1)) + 1) u width "".

(** Lexicographic three-way comparison of byte sequences, given by their
    codes: the result of Go's [==] and [<] on strings and of [bytes.Compare]. *)
Fixpoint lex_compare (a b : list N) : Z :=
  match a, b with
  | [], [] => 0
  | [], _ :: _ => -1
  | _ :: _, [] => 1
  | x :: a', y :: b' =>
      match N.compare x y with
      | Lt => -1
      | Gt => 1
      | Eq => lex_compare a' b'
      end
  end.

Definition string_codes (s : string) : list N :=
  List.map N_of_ascii (list_ascii_of_string s).

Definition bytes_codes (b : list byte) : list N := List.map Byte.to_N b.

(** *** Package [strconv] *)

Module strconv.

Fixpoint digits (s : string) (acc : Z) : option Z :=
  match s with
  | EmptyString => Some acc
  | String c r =>
      if isDigit c then digits r (acc * 10 + digit_val c) else None
  end.

(** [Atoi(s)]: an optional sign and one or more decimal digits, in the
    range of [int]; [None] stands for a non-nil error (syntax or range). *)
Definition Atoi (s : string) : option Z :=
  match s with
  | EmptyString => None
  | String c r =>
      let neg := Ascii.eqb c "-" in
      let body := if neg || Ascii.eqb c "+" then r else s in
      match body with
      | EmptyString => None
      | _ =>
          match digits body 0 with
          | None => None
          | Some un =>
              let n := if neg then - un else un in
              if (- 2 ^ (intSize - 1) <=? n) && (n <? 2 ^ (intSize - 1))
              then Some n else None
          end
      end
  end.

(** [FormatInt(n, 10)]. *)
Definition FormatInt (n : Z) : string :=
  if n <? 0 then String "-" (pad_uint (- n) 1) else pad_uint n 1.

End strconv.

(** *** Package [strings] *)

Module strings.
Definition Compare (a b : string) : Z :=
  lex_compare (string_codes a) (string_codes b).
End strings.

(** *** Package [bytes] *)

Module bytes.
Definition Compare (a b : list byte) : Z :=
  lex_compare (bytes_codes a) (bytes_codes b).
End bytes.




(** ** What the embedding takes from the Go runtime

    Three library results the code reaches but whose details no property
    below depends on: the offset of the system zone [time.Local] at an
    instant (Unix seconds), the text of [Time.String()], and the text of
    [strconv.FormatFloat(f, 'g', -1, 64)]. *)
Class Runtime : Type := {
  local_offset : Z -> Z;
  Time_String : Time -> string;
  FormatFloat64 : spec_float -> string
}.

(** *** Package [time] *)

Module time.

Definition unixToInternal : Z := 62135596800.
Definition secondsPerDay : Z := 86400.

(** The zero value [time.Time{}]: January 1, year 1, 00:00:00 UTC. *)
Definition zero : Time := mkTime 0 0 None UTC.

(** [Unix(sec, nsec)]: the local [Time] of a Unix time; the internal
    seconds are an [int64]. *)
Definition Unix (s ns : Z) : Time :=
  mkTime (int64 (s + ns / 1000000000 + unixToInternal))
         (ns mod 1000000000) None Local.

(** [t.Before(u)] and [t.After(u)]: on the monotonic readings when both
    values carry one, on the wall clock otherwise. *)
Definition Before (t u : Time) : bool :=
  match mono t, mono u with
  | Some mt, Some mu => mt <? mu
  | _, _ => (sec t <? sec u) || ((sec t =? sec u) && (nsec t <? nsec u))
  end.

Definition After (t u : Time) : bool :=
  match mono t, mono u with
  | Some mt, Some mu => mt >? mu
  | _, _ => (sec t >? sec u) || ((sec t =? sec u) && (nsec t >? nsec u))
  end.

(** **** The proleptic Gregorian calendar *)

Definition isLeap (year : Z) : bool :=
  (year mod 4 =? 0) && (negb (year mod 100 =? 0) || (year mod 400 =? 0)).

Definition daysBefore : list Z :=
  [0; 31; 59; 90; 120; 151; 181; 212; 243; 273; 304; 334; 365].

Definition daysBefore_at (m : Z) : Z := nth (Z.to_nat m) daysBefore 0.

Definition daysIn (m year : Z) : Z :=
  if (m =? 2) && isLeap year then 29
  else daysBefore_at m - daysBefore_at (m - 1).

(** Days from January 1 of year 1 to the given civil date. *)
Definition daysSinceYear1 (year month day : Z) : Z :=
  let y := year - 1 in
  365 * y + y / 4 - y / 100 + y / 400
  + daysBefore_at (month - 1)
  + (if isLeap year && (3 <=? month) then 1 else 0)
  + (day - 1).

(** [Date(year, month, day, hour, min, sec, nsec, UTC)] on fields that
    are in range (no normalisation is needed then). *)
Definition Date_UTC (year month day hour min s ns : Z) : Time :=
  mkTime (daysSinceYear1 year month day * secondsPerDay
          + hour * 3600 + min * 60 + s)
         ns None UTC.

(** The civil date [(year, month, day)] of a day count since January 1
    of year 1, by 400-, 100-, 4- and 1-year cycles as [absDate] does from
    its own epoch. *)
Definition civil (days : Z) : Z * Z * Z :=
  let n400 := days / 146097 in
  let d := days mod 146097 in
  let n100 := (let n := d / 36524 in n - n / 4) in
  let d := d - 36524 * n100 in
  let n4 := d / 1461 in
  let d := d - 1461 * n4 in
  let n1 := (let n := d / 365 in n - n / 4) in
  let yday := d - 365 * n1 in
  let year := 400 * n400 + 100 * n100 + 4 * n4 + n1 + 1 in
  if isLeap year && (yday =? 31 + 29 - 1) then (year, 2, 29)
  else
    let day := if isLeap year && (yday >? 31 + 29 - 1) then yday - 1 else yday in
    let m := day / 31 in
    let e := daysBefore_at (m + 1) in
    if day >=? e then (year, m + 2, day - e + 1)
    else (year, m + 1, day - daysBefore_at m + 1).

(** The offset east of UTC, in seconds, in force at [t] in its location. *)
Definition offset `{Runtime} (t : Time) : Z :=
  match loc t with
  | UTC => 0
  | Local => local_offset (sec t - unixToInternal)
  | FixedZone _ o => o
  end.

(** **** Layouts

    A layout is kept as the sequence of chunks that [nextStdChunk] cuts it
    into: literal text and the standard fields the two layouts of this
    package use. *)
Inductive chunk : Set :=
| Lit (text : string)
| stdLongYear
| stdZeroMonth
| stdZeroDay
| stdHour
| stdZeroMinute
| stdZeroSecond
| stdFracSecond0 (ndigits : nat).

Definition appendInt (x : Z) (width : nat) : string :=
  if x <? 0 then String "-" (pad_uint (- x) width) else pad_uint x width.

Definition formatNano (nanosec : Z) (n : nat) : string :=
  String "." (substring 0 (Nat.min n 9) (pad_uint nanosec 9)).

(** [Format] counts seconds from the absolute epoch, January 1 of
    [absoluteZeroYear], a year that opens a 400-year cycle as year 1
    does; [internalToAbsolute] is the distance from there to year 1. *)
Definition absoluteZeroYear : Z := -292277022399.
Definition internalToAbsolute : Z := 9223371966579724800.

(** [t.locabs()]: the seconds since the absolute epoch on the clock of
    the zone of [t], a [uint64]. *)
Definition locabs `{Runtime} (t : Time) : Z :=
  (sec t + offset t + internalToAbsolute) mod 2 ^ 64.

(** [absDate(abs, true)]: the civil date of an absolute time. *)
Definition absDate (abs : Z) : Z * Z * Z :=
  let '(y, month, day) := civil (abs / secondsPerDay) in
  (y - 1 + absoluteZeroYear, month, day).

(** [t.Format(layout)]. *)
Definition Format `{Runtime} (t : Time) (layout : list chunk) : string :=
  let abs := locabs t in
  let '(year, month, day) := absDate abs in
  let r := abs mod secondsPerDay in
  let field (c : chunk) : string :=
    match c with
    | Lit text => text
    | stdLongYear => appendInt year 4
    | stdZeroMonth => appendInt month 2
    | stdZeroDay => appendInt day 2
    | stdHour => appendInt (r / 3600) 2
    | stdZeroMinute => appendInt (r mod 3600 / 60) 2
    | stdZeroSecond => appendInt (r mod 60) 2
    | stdFracSecond0 n => formatNano (nsec t) n
    end in
  String.concat "" (List.map field layout).

(** **** Parsing, as [time.Parse] does it (Go 1.17 and later)

    [None] stands for a non-nil [*ParseError]. *)

Fixpoint cutspace (s : string) : string :=
  match s with
  | String c r => if Ascii.eqb c " " then cutspace r else s
  | EmptyString => s
  end.

(** [skip(value, prefix)]: a run of spaces in the prefix matches any run
    of spaces in the value, other characters match themselves. *)
Fixpoint skip_loop (fuel : nat) (value prefix : string) : option string :=
  match fuel with
  | O => None
  | S fuel' =>
      match prefix with
      | EmptyString => Some value
      | String p0 prefix' =>
          if Ascii.eqb p0 " " then
            match value with
            | String v0 _ =>
                if negb (Ascii.eqb v0 " ") then None
                else skip_loop fuel' (cutspace value) (cutspace prefix)
            | EmptyString => skip_loop fuel' (cutspace value) (cutspace prefix)
            end
          else
            match value with
            | String v0 value' =>
                if Ascii.eqb v0 p0 then skip_loop fuel' value' prefix' else None
            | EmptyString => None
            end
      end
  end.

Definition skip (value prefix : string) : option string :=
  skip_loop (S (String.length prefix)) value prefix.

(** [getnum(s, fixed)]: one or two leading digits ([fixed] forces two). *)
Definition getnum (s : string) (fixed : bool) : option (Z * string) :=
  match s with
  | String c0 r0 =>
      if isDigit c0 then
        match r0 with
        | String c1 r1 =>
            if isDigit c1 then Some (digit_val c0 * 10 + digit_val c1, r1)
            else if fixed then None else Some (digit_val c0, r0)
        | EmptyString => if fixed then None else Some (digit_val c0, r0)
        end
      else None
  | EmptyString => None
  end.

Fixpoint leadingInt (s : string) (x : Z) : option (Z * string) :=
  match s with
  | String c r =>
      if isDigit c then
        if x >? 2 ^ 63 / 10 then None
        else
          let x' := x * 10 + digit_val c in
          if x' >? 2 ^ 63 then None else leadingInt r x'
      else Some (x, s)
  | EmptyString => Some (x, s)
  end.

(** The package's own [atoi]: an optional sign, then digits only. *)
Definition atoi (s : string) : option Z :=
  let '(neg, body) :=
    match s with
    | String c r =>
        if Ascii.eqb c "-" || Ascii.eqb c "+" then (Ascii.eqb c "-", r)
        else (false, s)
    | EmptyString => (false, s)
    end in
  match leadingInt body 0 with
  | Some (q, EmptyString) =>
      let x := int64 q in Some (if neg then int64 (- x) else x)
  | _ => None
  end.

Definition commaOrPeriod (c : ascii) : bool :=
  Ascii.eqb c "." || Ascii.eqb c ",".

(** [parseNanoseconds(value, nbytes)]; the callers make sure that [value]
    has [nbytes] bytes at least. *)
Definition parseNanoseconds (value : string) (nbytes : nat) : option Z :=
  match value with
  | String c _ =>
      if commaOrPeriod c then
        let nbytes := Nat.min nbytes 10 in
        match atoi (substring 1 (nbytes - 1) value) with
        | Some ns =>
            if ns <? 0 then None else Some (ns * 10 ^ Z.of_nat (10 - nbytes))
        | None => None
        end
      else None
  | EmptyString => None
  end.

Record fields : Set := mkFields {
  f_year : Z; f_month : Z; f_day : Z;
  f_hour : Z; f_min : Z; f_sec : Z; f_nsec : Z
}.

Definition fields0 : fields := mkFields 0 1 1 0 0 0 0.

Fixpoint nextStd (layout : list chunk) : option chunk :=
  match layout with
  | [] => None
  | Lit _ :: rest => nextStd rest
  | c :: _ => Some c
  end.

Fixpoint digitsFrom (n : nat) (value : string) : nat :=
  match value with
  | String c r => if isDigit c then digitsFrom (S n) r else n
  | EmptyString => n
  end.

(** One field of the layout read off the front of [value]; [rest] is the
    layout that follows (the seconds look ahead in it). *)
Definition parse_chunk (c : chunk) (rest : list chunk) (f : fields)
    (value : string) : option (fields * string) :=
  match c with
  | Lit text =>
      match skip value text with
      | Some value' => Some (f, value')
      | None => None
      end
  | stdLongYear =>
      match value with
      | String c0 _ =>
          if (String.length value <? 4)%nat || negb (isDigit c0) then None
          else
            match atoi (substring 0 4 value) with
            | Some y =>
                Some (mkFields y (f_month f) (f_day f) (f_hour f) (f_min f)
                               (f_sec f) (f_nsec f),
                      substring 4 (String.length value - 4) value)
            | None => None
            end
      | EmptyString => None
      end
  | stdZeroMonth =>
      match getnum value true with
      | Some (m, value') =>
          if (m <=? 0) || (12 <? m) then None
          else Some (mkFields (f_year f) m (f_day f) (f_hour f) (f_min f)
                              (f_sec f) (f_nsec f), value')
      | None => None
      end
  | stdZeroDay =>
      match getnum value true with
      | Some (d, value') =>
          Some (mkFields (f_year f) (f_month f) d (f_hour f) (f_min f)
                         (f_sec f) (f_nsec f), value')
      | None => None
      end
  | stdHour =>
      match getnum value false with
      | Some (h, value') =>
          if (h <? 0) || (24 <=? h) then None
          else Some (mkFields (f_year f) (f_month f) (f_day f) h (f_min f)
                              (f_sec f) (f_nsec f), value')
      | None => None
      end
  | stdZeroMinute =>
      match getnum value true with
      | Some (m, value') =>
          if (m <? 0) || (60 <=? m) then None
          else Some (mkFields (f_year f) (f_month f) (f_day f) (f_hour f) m
                              (f_sec f) (f_nsec f), value')
      | None => None
      end
  | stdZeroSecond =>
      match getnum value true with
      | Some (s, value') =>
          if (s <? 0) || (60 <=? s) then None
          else
            let f' := mkFields (f_year f) (f_month f) (f_day f) (f_hour f)
                               (f_min f) s (f_nsec f) in
            match value' with
            | String v0 (String v1 r) =>
                if commaOrPeriod v0 && isDigit v1 then
                  match nextStd rest with
                  | Some (stdFracSecond0 _) => Some (f', value')
                  | _ =>
                      let n := digitsFrom 2 r in
                      match parseNanoseconds value' n with
                      | Some ns =>
                          Some (mkFields (f_year f) (f_month f) (f_day f)
                                         (f_hour f) (f_min f) s ns,
                                substring n (String.length value' - n) value')
                      | None => None
                      end
                  end
                else Some (f', value')
            | _ => Some (f', value')
            end
      | None => None
      end
  | stdFracSecond0 nd =>
      let ndigit := S nd in
      if (String.length value <? ndigit)%nat then None
      else
        match parseNanoseconds value ndigit with
        | Some ns =>
            Some (mkFields (f_year f) (f_month f) (f_day f) (f_hour f)
                           (f_min f) (f_sec f) ns,
                  substring ndigit (String.length value - ndigit) value)
        | None => None
        end
  end.

Fixpoint parse_loop (layout : list chunk) (f : fields) (value : string)
    : option (fields * string) :=
  match layout with
  | [] => Some (f, value)
  | c :: rest =>
      match parse_chunk c rest f value with
      | Some (f', value') => parse_loop rest f' value'
      | None => None
      end
  end.

(** [Parse(layout, value)]: every chunk in turn, no text left over, the
    day within its month; the result is in UTC. *)
Definition Parse (layout : list chunk) (value : string) : option Time :=
  match parse_loop layout fields0 value with
  | Some (f, EmptyString) =>
      if (f_day f <? 1) || (f_day f >? daysIn (f_month f) (f_year f)) then None
      else Some (Date_UTC (f_year f) (f_month f) (f_day f)
                          (f_hour f) (f_min f) (f_sec f) (f_nsec f))
  | _ => None
  end.

End time.



(** *** Package [reflect] *)

Module reflect.

Inductive Kind : Set :=
| Interface | Int32 | Int64 | Struct | String | Bool | Float64.

(** [TypeOf(v)], a type being known by its name; [None] is the nil
    [reflect.Type] that [TypeOf] returns for the nil interface. *)
Definition TypeOf (v : value) : option string :=
  match v with
  | VNil => None
  | VInt _ => Some "int"
  | VInt8 _ => Some "int8"
  | VInt16 _ => Some "int16"
  | VInt32 _ => Some "int32"
  | VInt64 _ => Some "int64"
  | VUint _ => Some "uint"
  | VUint8 _ => Some "uint8"
  | VUint16 _ => Some "uint16"
  | VUint32 _ => Some "uint32"
  | VUint64 _ => Some "uint64"
  | VFloat32 _ => Some "float32"
  | VFloat64 _ => Some "float64"
  | VString _ => Some "string"
  | VBool _ => Some "bool"
  | VBytes _ => Some "[]uint8"
  | VTime _ => Some "time.Time"
  | VOther typ _ => Some typ
  | VFaulty typ => Some typ
  end.

(** The method call [t.String()] on a [reflect.Type]: a nil interface
    has no method to call. *)
Definition Type_String (t : option string) : outcome string :=
  match t with
  | Some name => Ret name
  | None => Panic NilDereference
  end.

End reflect.

(** *** Packages [query] and [sqltypes] of vitess *)

Module query.
Inductive Type_ : Set :=
| Null_TYPE | Int32 | Int64 | Float64 | Timestamp | Text | Blob | Bit.
End query.

Module sqltypes.

Record Value : Set := mkValue { typ : query.Type_; val : list byte }.

Definition Null := query.Null_TYPE.
Definition Int32 := query.Int32.
Definition Int64 := query.Int64.
Definition Float64 := query.Float64.
Definition Timestamp := query.Timestamp.
Definition Text := query.Text.
Definition Blob := query.Blob.
Definition Bit := query.Bit.

Definition NULL : Value := mkValue query.Null_TYPE [].

Definition MakeTrusted (t : query.Type_) (v : list byte) : Value :=
  mkValue t v.

Definition NewInt32 (v : Z) : Value :=
  MakeTrusted Int32 (list_byte_of_string (strconv.FormatInt v)).

Definition NewInt64 (v : Z) : Value :=
  MakeTrusted Int64 (list_byte_of_string (strconv.FormatInt v)).

Definition NewFloat64 `{Runtime} (v : spec_float) : Value :=
  MakeTrusted Float64 (list_byte_of_string (FormatFloat64 v)).

End sqltypes.

(** [fmt.Stringer]: the dynamic types with a [String() string] method,
    and what the call [v.(fmt.Stringer).String()] does: it returns a text
    or panics. *)
Definition Stringer `{Runtime} (v : value) : option (outcome string) :=
  match v with
  | VTime t => Some (Ret (Time_String t))
  | VOther _ (Some s) => Some (Ret s)
  | VFaulty typ => Some (Panic (MethodPanic typ))
  | _ => None
  end.

Definition is_nil (v : value) : bool :=
  match v with VNil => true | _ => false end.

(** Go's [<] and [>] on [float32]: false whenever an operand is NaN. *)
Definition float_lt (a b : spec_float) : bool := SFltb a b.
Definition float_gt (a b : spec_float) : bool := SFltb b a.

(** * Package [sql] *)

Module sql.

Definition Row : Set := list value.

(** The interface [Type].  [Type_tag] is its method [Type()]. *)
Record Type_ : Type := mkType {
  Name : string;
  InternalType : reflect.Kind;
  Check : value -> outcome bool;
  Convert : value -> outcome value;
  Compare : value -> value -> outcome Z;
  Native : value -> outcome value;
  Default : value;
  Type_tag : query.Type_;
  SQL : value -> outcome sqltypes.Value
}.

(** [MustConvert(t, v)].  The one method of [t] it calls is [t.Convert],
    which is what the embedding passes. *)
Definition MustConvert (t_Convert : value -> outcome value) (v : value)
    : outcome value :=
  match t_Convert v with
  | Ret c => Ret c
  | Fail err => Panic (PanicError err)
  | Panic p => Panic p
  end.

(** ** The shared check, convert and compare functions *)

Definition checkString (v : value) : outcome bool :=
  Ret (ok (assert_string v)).

Definition convertToString `{Runtime} (v : value) : outcome value :=
  match v with
  | VString _ => s <- assert_string v ;; Ret (VString s)
  | _ =>
      match Stringer v with
      | Some call => s <- call ;; Ret (VString s)
      | None => Fail ErrInvalidType
      end
  end.

Definition compareString (a b : value) : outcome Z :=
  av <- assert_string a ;;
  bv <- assert_string b ;;
  Ret (strings.Compare av bv).

Definition checkInt32 (v : value) : outcome bool :=
  Ret (ok (assert_int32 v)).

Definition convertToInt32 (v : value) : outcome value :=
  match v with
  | VInt _ => i <- assert_int v ;; Ret (VInt32 (int32 i))
  | VInt8 _ => i <- assert_int8 v ;; Ret (VInt32 (int32 i))
  | VInt16 _ => i <- assert_int16 v ;; Ret (VInt32 (int32 i))
  | VInt32 _ => i <- assert_int32 v ;; Ret (VInt32 i)
  | VInt64 _ =>
      i64 <- assert_int64 v ;;
      if (i64 >? 2 ^ 31 - 1) || (i64 <? - 2 ^ 31)
      then Fail (ErrOverflows v "int32")
      else Ret (VInt32 (int32 i64))
  | VUint8 _ => u <- assert_uint8 v ;; Ret (VInt32 (int32 u))
  | VUint16 _ => u <- assert_uint16 v ;; Ret (VInt32 (int32 u))
  | VUint _ =>
      u <- assert_uint v ;;
      if u >? 2 ^ 31 - 1 then Fail (ErrOverflows v "int32")
      else Ret (VInt32 (int32 u))
  | VUint32 _ =>
      u <- assert_uint32 v ;;
      if u >? 2 ^ 31 - 1 then Fail (ErrOverflows v "int32")
      else Ret (VInt32 (int32 u))
  | VUint64 _ =>
      u <- assert_uint64 v ;;
      if u >? 2 ^ 31 - 1 then Fail (ErrOverflows v "int32")
      else Ret (VInt32 (int32 u))
  | VString _ =>
      s <- assert_string v ;;
      match strconv.Atoi s with
      | None => Fail (ErrCantConvert v "int32")
      | Some i => Ret (VInt32 (int32 i))
      end
  | _ => Fail ErrInvalidType
  end.

Definition compareInt32 (a b : value) : outcome Z :=
  av <- assert_int32 a ;;
  bv <- assert_int32 b ;;
  if av <? bv then Ret (-1)
  else if av >? bv then Ret 1
  else Ret 0.

Definition checkInt64 (v : value) : outcome bool :=
  Ret (ok (assert_int64 v)).

Definition convertToInt64 (v : value) : outcome value :=
  match v with
  | VInt _ => i <- assert_int v ;; Ret (VInt64 (int64 i))
  | VInt8 _ => i <- assert_int8 v ;; Ret (VInt64 (int64 i))
  | VInt16 _ => i <- assert_int16 v ;; Ret (VInt64 (int64 i))
  | VInt32 _ => i <- assert_int32 v ;; Ret (VInt64 (int64 i))
  | VInt64 _ => i <- assert_int64 v ;; Ret (VInt64 i)
  | VUint _ => u <- assert_uint v ;; Ret (VInt64 (int64 u))
  | VUint8 _ => u <- assert_uint8 v ;; Ret (VInt64 (int64 u))
  | VUint16 _ => u <- assert_uint16 v ;; Ret (VInt64 (int64 u))
  | VUint32 _ => u <- assert_uint32 v ;; Ret (VInt64 (int64 u))
  | VUint64 _ =>
      u <- assert_uint64 v ;;
      if u >=? 2 ^ 63 then Fail (ErrOverflows v "int64")
      else Ret (VInt64 (int64 u))
  | VString _ =>
      s <- assert_string v ;;
      match strconv.Atoi s with
      | None => Fail (ErrCantConvert v "int64")
      | Some i => Ret (VInt64 (int64 i))
      end
  | _ => Fail ErrInvalidType
  end.

Definition compareInt64 (a b : value) : outcome Z :=
  av <- assert_int64 a ;;
  bv <- assert_int64 b ;;
  if av <? bv then Ret (-1)
  else if av >? bv then Ret 1
  else Ret 0.

Definition checkBoolean (v : value) : outcome bool :=
  Ret (ok (assert_bool v)).

Definition convertToBool (v : value) : outcome value :=
  match v with
  | VBool _ => b <- assert_bool v ;; Ret (VBool b)
  | _ => Fail ErrInvalidType
  end.

Definition compareBool (a b : value) : outcome Z :=
  av <- assert_bool a ;;
  bv <- assert_bool b ;;
  if Bool.eqb av bv then Ret 0
  else if Bool.eqb av false then Ret (-1)
  else Ret 1.

Definition checkFloat64 (v : value) : outcome bool :=
  Ret (ok (assert_float32 v)).

Definition convertToFloat64 (v : value) : outcome value :=
  match v with
  | VFloat32 _ => f <- assert_float32 v ;; Ret (VFloat32 f)
  | _ => Fail ErrInvalidType
  end.

Definition compareFloat64 (a b : value) : outcome Z :=
  av <- assert_float32 a ;;
  bv <- assert_float32 b ;;
  if float_lt av bv then Ret (-1)
  else if float_gt av bv then Ret 1
  else Ret 0.

Definition checkTimestamp (v : value) : outcome bool :=
  Ret (ok (assert_Time v)).

(** The layout ["2006-01-02 15:04:05.000000"]. *)
Definition timestampLayout : list time.chunk :=
  [time.stdLongYear; time.Lit "-"; time.stdZeroMonth; time.Lit "-";
   time.stdZeroDay; time.Lit " "; time.stdHour; time.Lit ":";
   time.stdZeroMinute; time.Lit ":"; time.stdZeroSecond;
   time.stdFracSecond0 6].

Definition compareTimestamp (a b : value) : outcome Z :=
  av <- assert_Time a ;;
  bv <- assert_Time b ;;
  if time.Before av bv then Ret (-1)
  else if time.After av bv then Ret 1
  else Ret 0.

(** ** The built-in types *)

Module nullType.
Definition Name : string := "null".
Definition Type_tag : query.Type_ := sqltypes.Null.
Definition SQL (_ : value) : outcome sqltypes.Value := Ret sqltypes.NULL.
Definition InternalType : reflect.Kind := reflect.Interface.
Definition Check (v : value) : outcome bool := Ret (is_nil v).
Definition Convert (v : value) : outcome value :=
  if negb (is_nil v) then Fail (ErrValueNotNil v) else Ret VNil.
Definition Compare (a b : value) : outcome Z := Ret 0.
Definition Native (v : value) : outcome value := Ret VNil.
Definition Default : value := VNil.
End nullType.

Definition Null : Type_ :=
  mkType nullType.Name nullType.InternalType nullType.Check
         nullType.Convert nullType.Compare nullType.Native
         nullType.Default nullType.Type_tag nullType.SQL.

Module integerType.
Definition Name : string := "integer".
Definition Type_tag : query.Type_ := sqltypes.Int32.
Definition InternalType : reflect.Kind := reflect.Int32.
Definition Check (v : value) : outcome bool := checkInt32 v.
Definition Convert (v : value) : outcome value := convertToInt32 v.
Definition SQL (v : value) : outcome sqltypes.Value :=
  c <- MustConvert Convert v ;;
  i <- assert_int32 c ;;
  Ret (sqltypes.NewInt32 i).
Definition Compare (a b : value) : outcome Z := compareInt32 a b.
Definition Native (v : value) : outcome value :=
  if is_nil v then Ret VNil
  else i <- assert_int32 v ;; Ret (VInt64 (int64 i)).
Definition Default : value := VInt32 0.
End integerType.

Definition Integer : Type_ :=
  mkType integerType.Name integerType.InternalType integerType.Check
         integerType.Convert integerType.Compare integerType.Native
         integerType.Default integerType.Type_tag integerType.SQL.

Module bigIntegerType.
Definition Name : string := "biginteger".
Definition Type_tag : query.Type_ := sqltypes.Int64.
Definition InternalType : reflect.Kind := reflect.Int64.
Definition Check (v : value) : outcome bool := checkInt64 v.
Definition Convert (v : value) : outcome value := convertToInt64 v.
Definition SQL (v : value) : outcome sqltypes.Value :=
  c <- MustConvert Convert v ;;
  i <- assert_int64 c ;;
  Ret (sqltypes.NewInt64 i).
Definition Compare (a b : value) : outcome Z := compareInt64 a b.
Definition Native (v : value) : outcome value :=
  if is_nil v then Ret VNil
  else i <- assert_int64 v ;; Ret (VInt64 i).
Definition Default : value := VInt64 0.
End bigIntegerType.

Definition BigInteger : Type_ :=
  mkType bigIntegerType.Name bigIntegerType.InternalType
         bigIntegerType.Check bigIntegerType.Convert
         bigIntegerType.Compare bigIntegerType.Native
         bigIntegerType.Default bigIntegerType.Type_tag bigIntegerType.SQL.

Definition convertToTimestamp (v : value) : outcome value :=
  match v with
  | VTime value => Ret (VTime value)
  | VString value =>
      match time.Parse timestampLayout value with
      | None => Fail (ErrCantConvert v "time.Time")
      | Some t => Ret (VTime t)
      end
  | _ =>
      checked <- Check BigInteger v ;;
      if negb checked then Fail ErrInvalidType
      else
        match Convert BigInteger v with
        | Ret bi => i <- assert_int64 bi ;; Ret (VTime (time.Unix i 0))
        | Fail _ => Fail ErrInvalidType
        | Panic p => Panic p
        end
  end.

Module timestampWithTimeZoneType.
Definition Name : string := "timestamp with timezone".
Definition Type_tag : query.Type_ := sqltypes.Timestamp.
Definition InternalType : reflect.Kind := reflect.Struct.
Definition Check (v : value) : outcome bool := checkTimestamp v.
Definition Convert (v : value) : outcome value := convertToTimestamp v.
(** The layout ["2006-01-02 15:04:05"] of [SQL]. *)
Definition sqlLayout : list time.chunk :=
  [time.stdLongYear; time.Lit "-"; time.stdZeroMonth; time.Lit "-";
   time.stdZeroDay; time.Lit " "; time.stdHour; time.Lit ":";
   time.stdZeroMinute; time.Lit ":"; time.stdZeroSecond].
Definition SQL `{Runtime} (v : value) : outcome sqltypes.Value :=
  c <- MustConvert Convert v ;;
  t <- assert_Time c ;;
  Ret (sqltypes.MakeTrusted sqltypes.Timestamp
         (list_byte_of_string (time.Format t sqlLayout))).
Definition Compare (a b : value) : outcome Z := compareTimestamp a b.
Definition Native (v : value) : outcome value :=
  if is_nil v then Ret VNil
  else t <- assert_Time v ;; Ret (VTime t).
Definition Default : value := VTime time.zero.
End timestampWithTimeZoneType.

Definition TimestampWithTimezone `{Runtime} : Type_ :=
  mkType timestampWithTimeZoneType.Name
         timestampWithTimeZoneType.InternalType
         timestampWithTimeZoneType.Check
         timestampWithTimeZoneType.Convert
         timestampWithTimeZoneType.Compare
         timestampWithTimeZoneType.Native
         timestampWithTimeZoneType.Default
         timestampWithTimeZoneType.Type_tag
         timestampWithTimeZoneType.SQL.

Module stringType.
Definition Name : string := "string".
Definition Type_tag : query.Type_ := sqltypes.Text.
Definition InternalType : reflect.Kind := reflect.String.
Definition Check (v : value) : outcome bool := checkString v.
Definition Convert `{Runtime} (v : value) : outcome value :=
  convertToString v.
Definition SQL `{Runtime} (v : value) : outcome sqltypes.Value :=
  c <- MustConvert Convert v ;;
  s <- assert_string c ;;
  Ret (sqltypes.MakeTrusted sqltypes.Text (list_byte_of_string s)).
Definition Compare (a b : value) : outcome Z := compareString a b.
Definition Native (v : value) : outcome value :=
  if is_nil v then Ret VNil
  else s <- assert_string v ;; Ret (VString s).
Definition Default : value := VString "".
End stringType.

Module booleanType.
Definition Name : string := "boolean".
Definition Type_tag : query.Type_ := sqltypes.Bit.
Definition InternalType : reflect.Kind := reflect.Bool.
Definition Check (v : value) : outcome bool := checkBoolean v.
Definition Convert (v : value) : outcome value := convertToBool v.
Definition SQL (v : value) : outcome sqltypes.Value :=
  c <- MustConvert Convert v ;;
  b <- assert_bool c ;;
  Ret (sqltypes.MakeTrusted sqltypes.Bit
         (if b then list_byte_of_string "1" else list_byte_of_string "0")).
Definition Compare (a b : value) : outcome Z := compareBool a b.
Definition Native (v : value) : outcome value :=
  if is_nil v then Ret VNil
  else b <- assert_bool v ;; Ret (VBool b).
Definition Default : value := VBool false.
End booleanType.

Definition Boolean : Type_ :=
  mkType booleanType.Name booleanType.InternalType booleanType.Check
         booleanType.Convert booleanType.Compare booleanType.Native
         booleanType.Default booleanType.Type_tag booleanType.SQL.

Module floatType.
Definition Name : string := "float".
Definition InternalType : reflect.Kind := reflect.Float64.
Definition Type_tag : query.Type_ := sqltypes.Float64.
Definition Check (v : value) : outcome bool := checkFloat64 v.
Definition Convert (v : value) : outcome value := convertToFloat64 v.
Definition SQL `{Runtime} (v : value) : outcome sqltypes.Value :=
  c <- MustConvert Convert v ;;
  f <- assert_float64 c ;;
  Ret (sqltypes.NewFloat64 f).
Definition Compare (a b : value) : outcome Z := compareFloat64 a b.
Definition Native (v : value) : outcome value :=
  if is_nil v then Ret VNil
  else f <- assert_float64 v ;; Ret (VFloat64 f).
Definition Default : value := VFloat64 (S754_zero false).
End floatType.

Definition Float `{Runtime} : Type_ :=
  mkType floatType.Name floatType.InternalType floatType.Check
         floatType.Convert floatType.Compare floatType.Native
         floatType.Default floatType.Type_tag floatType.SQL.

Module blobType.
Definition Name : string := "blob".
Definition InternalType : reflect.Kind := reflect.String.
Definition Type_tag : query.Type_ := sqltypes.Blob.
Definition Check (v : value) : outcome bool := Ret (ok (assert_bytes v)).
Definition Convert `{Runtime} (v : value) : outcome value :=
  match v with
  | VBytes value => Ret (VBytes value)
  | VString value => Ret (VBytes (list_byte_of_string value))
  | _ =>
      match Stringer v with
      | Some call => s <- call ;; Ret (VBytes (list_byte_of_string s))
      | None => Fail ErrInvalidType
      end
  end.
Definition SQL `{Runtime} (v : value) : outcome sqltypes.Value :=
  c <- MustConvert Convert v ;;
  b <- assert_bytes c ;;
  Ret (sqltypes.MakeTrusted sqltypes.Blob b).
Definition Compare (a b : value) : outcome Z :=
  av <- assert_bytes a ;;
  bv <- assert_bytes b ;;
  Ret (bytes.Compare av bv).
Definition Native (v : value) : outcome value :=
  if is_nil v then Ret VNil
  else b <- assert_bytes v ;; Ret (VBytes b).
Definition Default : value := VBytes [].
End blobType.

Definition Blob `{Runtime} : Type_ :=
  mkType blobType.Name blobType.InternalType blobType.Check
         blobType.Convert blobType.Compare blobType.Native
         blobType.Default blobType.Type_tag blobType.SQL.

(** ** Columns and schemas *)

Module Column.

(** A column; [Type_] is its field [Type]. *)
Record t : Type := mk {
  Name : string;
  Type_ : sql.Type_;
  Default : value;
  Nullable : bool
}.

Definition Check (c : t) (v : value) : outcome bool :=
  if is_nil v then Ret (Nullable c)
  else sql.Check (Type_ c) v.

End Column.

Module Schema.

(** A schema, [[]*Column] in the source.  The columns are taken to be
    set: no nil pointer among them and a [Type] in each. *)
Definition t : Type := list Column.t.

(** The indexing [row[idx]]. *)
Definition index (row : Row) (idx : nat) : outcome value :=
  match nth_error row idx with
  | Some v => Ret v
  | None => Panic (IndexOutOfRange idx)
  end.

(** The loop of [CheckRow], from position [idx] on. *)
Fixpoint CheckRow_from (idx : nat) (s : t) (row : Row) : outcome unit :=
  match s with
  | [] => Ret tt
  | f :: s' =>
      v <- index row idx ;;
      passed <- Column.Check f v ;;
      if passed then CheckRow_from (S idx) s' row
      else
        typ <- reflect.Type_String (reflect.TypeOf v) ;;
        Fail (ErrUnexpectedType idx typ)
  end.

(** [s.CheckRow(row)]; [Ret tt] is the nil error. *)
Definition CheckRow (s : t) (row : Row) : outcome unit :=
  let expected := List.length s in
  let got := List.length row in
  if negb (Nat.eqb expected got) then Fail (ErrExpectedValues expected got)
  else CheckRow_from 0 s row.

End Schema.

(** [String] is declared last: from here on the name hides the
    constructor of [string]. *)
Definition String `{Runtime} : Type_ :=
  mkType stringType.Name stringType.InternalType stringType.Check
         stringType.Convert stringType.Compare stringType.Native
         stringType.Default stringType.Type_tag stringType.SQL.

(** The catalogue. *)
Definition builtin `{Runtime} : list Type_ :=
  [Null; Integer; BigInteger; TimestampWithTimezone; String; Boolean;
   Float; Blob].

End sql.

(** * The vocabulary of the properties *)

(** ** Canonical values *)

(** What [Check] accepts: exactly one dynamic type per built-in type. *)
Definition canonical_form {R : Runtime} (T : sql.Type_) (v : value) : Prop :=
  (T = sql.Null /\ v = VNil)
  \/ (T = sql.Integer /\ exists n, v = VInt32 n)
  \/ (T = sql.BigInteger /\ exists n, v = VInt64 n)
  \/ (T = sql.TimestampWithTimezone /\ exists t, v = VTime t)
  \/ (T = sql.String /\ exists s, v = VString s)
  \/ (T = sql.Boolean /\ exists b, v = VBool b)
  \/ (T = sql.Float /\ exists f, v = VFloat32 f)
  \/ (T = sql.Blob /\ exists b, v = VBytes b).

(** ** Numbers *)

(** The numeric value of an integer of any width. *)
Definition int_value (v : value) : option Z :=
  match v with
  | VInt n | VInt8 n | VInt16 n | VInt32 n | VInt64 n
  | VUint n | VUint8 n | VUint16 n | VUint32 n | VUint64 n => Some n
  | _ => None
  end.

Definition is_int (v : value) : bool :=
  match v with VInt _ => true | _ => false end.

(** Every finite [float32] is a whole multiple of 2^-149; [scaled32] is
    that multiple.  Infinities and NaN have none. *)
Definition magnitude32 (m : positive) (e : Z) : Z := Z.pos m * 2 ^ (e + 149).

Definition scaled32 (f : spec_float) : option Z :=
  match f with
  | S754_zero _ => Some 0
  | S754_finite s m e =>
      Some (if s then - magnitude32 m e else magnitude32 m e)
  | _ => None
  end.

(** ** Rows *)

(** A value passes a column when the column's [Check] returns true. *)
Definition passes (c : sql.Column.t) (v : value) : Prop :=
  sql.Column.Check c v = Ret true.

(** Every column of the schema has one of the built-in types. *)
Definition typed_by_catalogue {R : Runtime} (s : sql.Schema.t) : Prop :=
  Forall (fun c => In (sql.Column.Type_ c) sql.builtin) s.

(** ** Orders *)

(** The lexicographic order on byte sequences, as a relation. *)
Inductive lex_lt : list N -> list N -> Prop :=
| lex_lt_nil : forall y ys, lex_lt [] (y :: ys)
| lex_lt_head : forall x xs y ys, (x < y)%N -> lex_lt (x :: xs) (y :: ys)
| lex_lt_tail : forall x xs ys, lex_lt xs ys -> lex_lt (x :: xs) (x :: ys).

(** Chronological order.  With monotonic readings on both sides these
    decide; otherwise the instants do, in nanoseconds. *)
Definition instant (t : Time) : Z := sec t * 1000000000 + nsec t.

Definition earlier (t u : Time) : Prop :=
  match mono t, mono u with
  | Some mt, Some mu => mt < mu
  | _, _ => instant t < instant u
  end.

(** What result [c] of a comparison says about two canonical values of one
    type: the order it reflects. *)
Definition ordered_as (a b : value) (c : Z) : Prop :=
  match a, b with
  | VNil, VNil => c = 0
  | VInt32 x, VInt32 y | VInt64 x, VInt64 y =>
      (c < 0 <-> x < y) /\ (c = 0 <-> x = y) /\ (c > 0 <-> y < x)
  | VFloat32 x, VFloat32 y =>
      (c < 0 <-> SFltb x y = true) /\ (c > 0 <-> SFltb y x = true)
      /\ (forall p q, scaled32 x = Some p -> scaled32 y = Some q ->
                      (c < 0 <-> p < q) /\ (c = 0 <-> p = q) /\ (c > 0 <-> q < p))
  | VString x, VString y =>
      (c < 0 <-> lex_lt (string_codes x) (string_codes y))
      /\ (c = 0 <-> x = y)
      /\ (c > 0 <-> lex_lt (string_codes y) (string_codes x))
  | VBytes x, VBytes y =>
      (c < 0 <-> lex_lt (bytes_codes x) (bytes_codes y))
      /\ (c = 0 <-> x = y)
      /\ (c > 0 <-> lex_lt (bytes_codes y) (bytes_codes x))
  | VBool x, VBool y =>
      (c < 0 <-> x = false /\ y = true) /\ (c = 0 <-> x = y)
      /\ (c > 0 <-> x = true /\ y = false)
  | VTime x, VTime y =>
      (c < 0 <-> earlier x y) /\ (c > 0 <-> earlier y x)
  | _, _ => False
  end.

(** ** Timestamp text *)

(** [n] written with exactly [w] decimal digits. *)
Fixpoint fixed_digits (w : nat) (n : Z) : string :=
  match w with
  | O => ""
  | S w' => (fixed_digits w' (n / 10) ++ String (digit_char (n mod 10)) "")%string
  end.

(** The fields of a date and time of day, with microseconds. *)
Definition valid_fields (y mo d h mi s us : Z) : Prop :=
  0 <= y <= 9999 /\ 1 <= mo <= 12 /\ 1 <= d <= time.daysIn mo y
  /\ 0 <= h <= 23 /\ 0 <= mi <= 59 /\ 0 <= s <= 59 /\ 0 <= us <= 999999.

(** The text [YYYY-MM-DD HH:MM:SS.ffffff] of such fields. *)
Definition timestamp_text (y mo d h mi s us : Z) : string :=
  (fixed_digits 4 y ++ "-" ++ fixed_digits 2 mo ++ "-" ++ fixed_digits 2 d
   ++ " " ++ fixed_digits 2 h ++ ":" ++ fixed_digits 2 mi ++ ":"
   ++ fixed_digits 2 s ++ "." ++ fixed_digits 6 us)%string.

(** The dynamic types that [convertToTimestamp] converts. *)
Definition is_timestamp_source (v : value) : bool :=
  match v with
  | VTime _ | VString _ | VInt64 _ => true
  | _ => false
  end.

(** ** Timestamp text as the parser admits it *)

(** A run of [n] spaces. *)
Fixpoint spaces (n : nat) : string :=
  match n with
  | O => ""
  | S k => String " " (spaces k)
  end.

(** The hour, written with two digits or, below ten, with one. *)
Definition hour_text (h : Z) (t : string) : Prop :=
  t = fixed_digits 2 h \/ (h <= 9 /\ t = fixed_digits 1 h).

(** The fraction of a second, in microseconds: a point or a comma, then
    six digits, or a sign and five digits; the only fraction with a minus
    sign is zero. *)
Definition fraction_text (us : Z) (t : string) : Prop :=
  exists sep : ascii,
    (sep = "."%char \/ sep = ","%char)
    /\ ((0 <= us <= 999999 /\ t = String sep (fixed_digits 6 us))
        \/ (0 <= us <= 99999
            /\ t = String sep (String "+" (fixed_digits 5 us)))
        \/ (us = 0 /\ t = String sep "-00000")).

(** The texts of a date and time of day that [time.Parse] admits under
    the layout of [convertToTimestamp]: the format
    [YYYY-MM-DD HH:MM:SS.ffffff], in which the space may be a run of
    spaces, the hour may have one digit, and the fraction is as above. *)
Definition admitted_text (y mo d h mi s us : Z) (text : string) : Prop :=
  0 <= y <= 9999 /\ 1 <= mo <= 12 /\ 1 <= d <= time.daysIn mo y
  /\ 0 <= h <= 23 /\ 0 <= mi <= 59 /\ 0 <= s <= 59
  /\ exists (n : nat) (ht fr : string),
       hour_text h ht /\ fraction_text us fr
       /\ text = (fixed_digits 4 y ++ "-" ++ fixed_digits 2 mo ++ "-"
                  ++ fixed_digits 2 d ++ spaces (S n) ++ ht ++ ":"
                  ++ fixed_digits 2 mi ++ ":" ++ fixed_digits 2 s ++ fr)%string.

Fixpoint all_digits (s : string) : bool :=
  match s with
  | EmptyString => true
  | String c r => isDigit c && all_digits r
  end.

(** ** The catalogue, by method *)

(** The six types whose [SQL] converts its argument with [MustConvert] and
    asserts the canonical type of the result. *)
Definition converting_types {R : Runtime} : list sql.Type_ :=
  [sql.Integer; sql.BigInteger; sql.TimestampWithTimezone; sql.String;
   sql.Boolean; sql.Blob].

(** The dynamic types of a [driver.Value]: nil, [int64], [float64],
    [bool], [[]byte], [string] and [time.Time]. *)
Definition is_driver_value (v : value) : bool :=
  match v with
  | VNil | VInt64 _ | VFloat64 _ | VBool _ | VBytes _ | VString _ | VTime _ => true
  | _ => false
  end.

(** ** The calendar, in two steps *)

(** Days from January 1 of year 1 to January 1 of [year]. *)
Definition yearStart (year : Z) : Z :=
  let y := year - 1 in 365 * y + y / 4 - y / 100 + y / 400.

(** Days from January 1 of the year to the given month and day. *)
Definition dayOfYear (year month day : Z) : Z :=
  time.daysBefore_at (month - 1)
  + (if time.isLeap year && (3 <=? month) then 1 else 0)
  + (day - 1).

Definition daysInYear (year : Z) : Z := if time.isLeap year then 366 else 365.

(** The year and the day within it, as [time.civil] finds them. *)
Definition year_yday (days : Z) : Z * Z :=
  let n400 := days / 146097 in
  let d := days mod 146097 in
  let n100 := (let n := d / 36524 in n - n / 4) in
  let d := d - 36524 * n100 in
  let n4 := d / 1461 in
  let d := d - 1461 * n4 in
  let n1 := (let n := d / 365 in n - n / 4) in
  let yday := d - 365 * n1 in
  (400 * n400 + 100 * n100 + 4 * n4 + n1 + 1, yday).

(** The month and the day of a day within a year, as [time.civil] finds
    them. *)
Definition month_day (leap : bool) (yday : Z) : Z * Z :=
  if leap && (yday =? 31 + 29 - 1) then (2, 29)
  else
    let day := if leap && (yday >? 31 + 29 - 1) then yday - 1 else yday in
    let m := day / 31 in
    let e := time.daysBefore_at (m + 1) in
    if day >=? e then (m + 2, day - e + 1)
    else (m + 1, day - time.daysBefore_at m + 1).

(** The text [YYYY-MM-DD HH:MM:SS] of the fields of a date and time. *)
Definition datetime_text (y mo d h mi s : Z) : string :=
  (fixed_digits 4 y ++ "-" ++ fixed_digits 2 mo ++ "-" ++ fixed_digits 2 d
   ++ " " ++ fixed_digits 2 h ++ ":" ++ fixed_digits 2 mi ++ ":"
   ++ fixed_digits 2 s)%string.

(** The five types whose wire bytes hold the whole canonical value. *)
Definition exact_wire_types {R : Runtime} : list sql.Type_ :=
  [sql.Integer; sql.BigInteger; sql.String; sql.Boolean; sql.Blob].

(** ** A runtime to evaluate with *)

(** A host whose local zone is UTC.  The texts of [Time.String()] and of
    [FormatFloat] are not evaluated by any instance below and are left
    empty. *)
Definition utc_host : Runtime :=
  {| local_offset := fun _ => 0;
     Time_String := fun _ => "";
     FormatFloat64 := fun _ => "" |}.


(** * Properties *)

(** ** The library models on examples *)

Example Atoi_42 : strconv.Atoi "42" = Some 42.
Proof. reflexivity. Qed.

Example Atoi_neg : strconv.Atoi "-2147483649" = Some (-2147483649).
Proof. reflexivity. Qed.

Example Atoi_bad : strconv.Atoi "4 2" = None /\ strconv.Atoi "-" = None
  /\ strconv.Atoi "" = None /\ strconv.Atoi "9223372036854775808" = None.
Proof. repeat split; reflexivity. Qed.

Example FormatInt_ex : strconv.FormatInt (-120) = "-120" /\ strconv.FormatInt 0 = "0"
  /\ pad_uint 7 2 = "07" /\ pad_uint 2023 4 = "2023" /\ pad_uint 12345 4 = "12345".
Proof. repeat split; vm_compute; reflexivity. Qed.

Example strings_Compare_ex :
  strings.Compare "abc" "abd" = -1 /\ strings.Compare "b" "abc" = 1
  /\ strings.Compare "ab" "ab" = 0 /\ strings.Compare "ab" "abc" = -1.
Proof. repeat split; reflexivity. Qed.

Example civil_epoch : time.civil (time.unixToInternal / 86400) = (1970, 1, 1).
Proof. vm_compute. reflexivity. Qed.

Example civil_leap_day :
  time.civil (time.daysSinceYear1 2024 2 29) = (2024, 2, 29)
  /\ time.civil (time.daysSinceYear1 2023 12 31) = (2023, 12, 31)
  /\ time.civil (time.daysSinceYear1 2000 3 1) = (2000, 3, 1)
  /\ time.civil (time.daysSinceYear1 1900 2 28 + 1) = (1900, 3, 1)
  /\ time.civil 0 = (1, 1, 1) /\ time.civil (-1) = (0, 12, 31).
Proof. repeat split; vm_compute; reflexivity. Qed.

(** [Format] counts from the absolute epoch in a [uint64]: the earliest
    [int64] Unix time wraps around to a year far ahead. *)
Example Format_wraps_around :
  @time.Format utc_host (time.Unix (- 2 ^ 63) 0)
    sql.timestampWithTimeZoneType.sqlLayout
  = "292277026596-12-04 15:30:08"
  /\ @time.Format utc_host (time.Unix 0 0)
       sql.timestampWithTimeZoneType.sqlLayout
     = "1970-01-01 00:00:00"
  /\ @time.Format utc_host (mkTime (-1) 0 None UTC)
       sql.timestampWithTimeZoneType.sqlLayout
     = "0000-12-31 23:59:59".
Proof. repeat split; vm_compute; reflexivity. Qed.

Example unix_epoch_days : time.daysSinceYear1 1970 1 1 * 86400 = time.unixToInternal.
Proof. vm_compute. reflexivity. Qed.

Example Parse_skips_space_runs :
  time.skip "   15" " " = Some "15" /\ time.skip "15" " " = None
  /\ time.skip "-01" "-" = Some "01".
Proof. repeat split; reflexivity. Qed.


(** ** Machine integers *)

Lemma int32_in_range (z : Z) : in_signed 32 z -> int32 z = z.
Proof.
  unfold in_signed, int32, wrap_signed. intros Hz.
  rewrite Z.mod_small; lia.
Qed.

Lemma int64_in_range (z : Z) : in_signed 64 z -> int64 z = z.
Proof.
  unfold in_signed, int64, wrap_signed. intros Hz.
  rewrite Z.mod_small; lia.
Qed.

Lemma wrap_signed_range (w z : Z) : 0 < w -> in_signed w (wrap_signed w z).
Proof.
  intros Hw. unfold in_signed, wrap_signed.
  assert (Hp : 2 ^ w = 2 * 2 ^ (w - 1)).
  { replace w with (Z.succ (w - 1)) at 1 by lia. apply Z.pow_succ_r. lia. }
  assert (Hpos : 0 < 2 ^ (w - 1)) by (apply Z.pow_pos_nonneg; lia).
  pose proof (Z.mod_pos_bound (z + 2 ^ (w - 1)) (2 ^ w)) as Hm.
  lia.
Qed.

(** ** Outcomes *)

Lemma returns_not_panics {A} (m : outcome A) : returns m -> ~ panics m.
Proof. intros [a ->] [p Hp]. discriminate. Qed.

Lemma fails_not_panics {A} (m : outcome A) : fails m -> ~ panics m.
Proof. intros [e ->] [p Hp]. discriminate. Qed.

Lemma outcome_cases {A} (m : outcome A) : returns m \/ fails m \/ panics m.
Proof.
  destruct m as [a | e | p].
  - left. now exists a.
  - right. left. now exists e.
  - right. right. now exists p.
Qed.

(** [MustConvert] turns an error into a panic and changes nothing else. *)
Lemma MustConvert_Ret (cv : value -> outcome value) (v c : value) :
  cv v = Ret c -> sql.MustConvert cv v = Ret c.
Proof. unfold sql.MustConvert. now intros ->. Qed.

Lemma MustConvert_Fail (cv : value -> outcome value) (v : value) (e : error) :
  cv v = Fail e -> sql.MustConvert cv v = Panic (PanicError e).
Proof. unfold sql.MustConvert. now intros ->. Qed.

Lemma MustConvert_Panic (cv : value -> outcome value) (v : value) (p : panic) :
  cv v = Panic p -> sql.MustConvert cv v = Panic p.
Proof. unfold sql.MustConvert. now intros ->. Qed.

Lemma MustConvert_never_fails (cv : value -> outcome value) (v : value) :
  ~ fails (sql.MustConvert cv v).
Proof.
  unfold sql.MustConvert. intros [e He].
  destruct (cv v); discriminate.
Qed.

(** ** The catalogue, case by case *)

Section Catalogue.

Context {R : Runtime}.

Lemma builtin_cases (T : sql.Type_) :
  In T sql.builtin ->
  T = sql.Null \/ T = sql.Integer \/ T = sql.BigInteger
  \/ T = sql.TimestampWithTimezone \/ T = sql.String \/ T = sql.Boolean
  \/ T = sql.Float \/ T = sql.Blob.
Proof.
  unfold sql.builtin. simpl.
  intros [H | [H | [H | [H | [H | [H | [H | [H | []]]]]]]]]; subst T; tauto.
Qed.


Lemma Check_canonical_form (T : sql.Type_) (v : value) :
  In T sql.builtin -> sql.Check T v = Ret true -> canonical_form T v.
Proof.
  intros HT Hc. unfold canonical_form.
  destruct (builtin_cases T HT) as [-> | [-> | [-> | [-> | [-> | [-> | [-> | ->]]]]]]];
    destruct v; simpl in Hc; try discriminate Hc; eauto 20.
Qed.

(** [Check] of a built-in type returns a boolean on every input. *)
Lemma Check_returns (T : sql.Type_) (v : value) :
  In T sql.builtin -> returns (sql.Check T v).
Proof.
  intros HT.
  destruct (builtin_cases T HT) as [-> | [-> | [-> | [-> | [-> | [-> | [-> | ->]]]]]]];
    simpl; eexists; reflexivity.
Qed.

End Catalogue.

(** Case analysis on whatever an outcome equation still branches on. *)
Ltac split_outcome H :=
  repeat match type of H with
         | context [match ?x with _ => _ end] => destruct x eqn:?
         | context [if ?b then _ else _] => destruct b eqn:?
         end.

(** Case analysis on a value, down to whether it has a [String()] method. *)
Ltac each_value v :=
  destruct v as [ | | | | | | | | | | | | | | | | | ? [ ? | ] | ? ].

Section Conversion.

Context {R : Runtime}.

(** [Convert] of a built-in type returns a value or an error, with one
    exception: [String] and [Blob] call the [String()] method of a value
    that has one, and panic when the method does.  Inside each case of a
    type switch the assertion on the same type cannot fail. *)
Lemma Convert_panics_iff (T : sql.Type_) (v : value) :
  In T sql.builtin ->
  panics (sql.Convert T v)
  <-> (T = sql.String \/ T = sql.Blob) /\ exists typ, v = VFaulty typ.
Proof.
  intros HT. split.
  - intros [p Hp].
    destruct (builtin_cases T HT) as [-> | [-> | [-> | [-> | [-> | [-> | [-> | ->]]]]]]];
      each_value v; cbn in Hp; split_outcome Hp; try discriminate Hp;
      (split; [tauto | eexists; reflexivity]).
  - intros [[-> | ->] [typ ->]]; cbn; eexists; reflexivity.
Qed.

(** On every value whose [String()] method does not panic, [Convert]
    returns a value or an error. *)
Lemma Convert_never_panics (T : sql.Type_) (v : value) :
  In T sql.builtin -> (forall typ, v <> VFaulty typ) ->
  ~ panics (sql.Convert T v).
Proof.
  intros HT Hv Hp. apply (Convert_panics_iff T v HT) in Hp.
  destruct Hp as [_ [typ ->]]. exact (Hv typ eq_refl).
Qed.

(** C3. Idempotence: for every built-in type [T] and every value [v]
    that [T.Check] accepts, [T.Convert(v)] succeeds and returns [v]
    itself. *)
Theorem Convert_idempotent_on_checked (T : sql.Type_) (v : value) :
  In T sql.builtin ->
  sql.Check T v = Ret true ->
  sql.Convert T v = Ret v.
Proof.
  intros HT Hc.
  destruct (Check_canonical_form T v HT Hc)
    as [[-> ->] | [[-> [n ->]] | [[-> [n ->]] | [[-> [t ->]]
       | [[-> [s ->]] | [[-> [b ->]] | [[-> [f ->]] | [-> [b ->]]]]]]]]];
    reflexivity.
Qed.

(** C9. [Float.SQL] panics on every input.  [Float.Convert] accepts a
    [float32] only and returns it as a [float32], which the assertion to
    [float64] in [SQL] rejects; on every other input, a [float64]
    included, [Convert] fails and [MustConvert] panics. *)
Theorem Float_SQL_always_panics (v : value) :
  panics (sql.SQL sql.Float v)
  /\ (forall f, sql.Convert sql.Float (VFloat64 f) = Fail ErrInvalidType)
  /\ (forall f, sql.Convert sql.Float (VFloat32 f) = Ret (VFloat32 f))
  /\ (forall c, sql.Convert sql.Float v = Ret c ->
                exists f, c = VFloat32 f
                          /\ sql.SQL sql.Float v
                             = Panic (InterfaceConversion c "float64"))
  /\ (forall e, sql.Convert sql.Float v = Fail e ->
                sql.SQL sql.Float v = Panic (PanicError e)).
Proof.
  repeat split.
  - destruct v; cbn; eexists; reflexivity.
  - intros c Hc. destruct v; cbn in Hc; try discriminate Hc.
    injection Hc as <-. exists f. split; reflexivity.
  - intros e He. destruct v; cbn in He; try discriminate He;
      injection He as <-; reflexivity.
Qed.

End Conversion.

(** [Float.Native] asserts [float64] too, so it panics on the canonical
    [float32] values; [Float.Default] is a [float64], which [Float.Check]
    does not accept. *)
Example Float_Native_and_Default (f : spec_float) :
  sql.floatType.Native (VFloat32 f)
  = Panic (InterfaceConversion (VFloat32 f) "float64")
  /\ sql.floatType.Check sql.floatType.Default = Ret false.
Proof. split; reflexivity. Qed.

(** C10. [Null.Compare] returns 0 whatever its two arguments are. *)
Theorem Null_Compare_always_zero (a b : value) :
  sql.Compare sql.Null a b = Ret 0.
Proof. reflexivity. Qed.

(** ** Integer overflow *)


Ltac unfold_ranges :=
  unfold wf_value, in_signed, in_unsigned, intSize in *.

(** X6.  On every integer type but [int], [Integer.Convert] checks the range:
    inside it the value comes back as an [int32], outside it the
    conversion fails with an overflow error. *)
Lemma Integer_Convert_sized (v : value) (n : Z) :
  wf_value v -> int_value v = Some n -> is_int v = false ->
  (in_signed 32 n -> sql.Convert sql.Integer v = Ret (VInt32 n))
  /\ (~ in_signed 32 n -> fails_with_overflow (sql.Convert sql.Integer v)).
Proof.
  intros Hwf Hn Hint.
  destruct v; try discriminate; injection Hn as ->; cbn in Hwf; split; intros Hr;
    cbn -[Z.pow int32]; unfold_ranges.
  all: try (rewrite int32_in_range by (unfold in_signed; lia)).
  all: try reflexivity.
  all: try lia.
  all: match goal with
       | |- context [if ?b then _ else _] => destruct b eqn:E
       end.
  all: try reflexivity.
  all: try (eexists; eexists; reflexivity).
  all: try (apply orb_true_iff in E).
  all: try (apply orb_false_iff in E).
  all: lia.
Qed.

(** An [int] is converted without any check: whatever its value, the
    conversion succeeds and keeps the low 32 bits. *)
Lemma Integer_Convert_int (n : Z) :
  sql.Convert sql.Integer (VInt n) = Ret (VInt32 (int32 n)).
Proof. reflexivity. Qed.

(** Decimal text goes through [strconv.Atoi] and the same unchecked
    conversion. *)
Lemma Integer_Convert_text (s : string) (n : Z) :
  strconv.Atoi s = Some n ->
  sql.Convert sql.Integer (VString s) = Ret (VInt32 (int32 n)).
Proof. intros Hs. cbn. now rewrite Hs. Qed.

(** C1, at the inputs where the code departs from it.  The [int]
    2147483648 is a well-formed value outside [-2^31, 2^31-1], and so is
    the number the text "2147483648" denotes; [Integer.Convert] reports no
    overflow on either and returns the [int32] -2147483648.  The same
    number as an [int64] is refused, and 42 is converted at every width. *)
Theorem Integer_Convert_misses_int_overflow :
  wf_value (VInt 2147483648)
  /\ ~ in_signed 32 2147483648
  /\ sql.Convert sql.Integer (VInt 2147483648) = Ret (VInt32 (-2147483648))
  /\ strconv.Atoi "2147483648" = Some 2147483648
  /\ sql.Convert sql.Integer (VString "2147483648") = Ret (VInt32 (-2147483648))
  /\ sql.Convert sql.Integer (VInt64 2147483648)
     = Fail (ErrOverflows (VInt64 2147483648) "int32")
  /\ Forall (fun v => sql.Convert sql.Integer v = Ret (VInt32 42))
       [VInt 42; VInt8 42; VInt16 42; VInt32 42; VInt64 42; VUint 42;
        VUint8 42; VUint16 42; VUint32 42; VUint64 42; VString "42"].
Proof.
  split; [ unfold_ranges; lia | ].
  split; [ unfold in_signed; lia | ].
  repeat split; try reflexivity.
  repeat constructor.
Qed.

(** ** BigInteger overflow *)

(** A [uint64] is range checked. *)
Lemma BigInteger_Convert_uint64 (n : Z) :
  in_unsigned 64 n ->
  (n < 2 ^ 63 -> sql.Convert sql.BigInteger (VUint64 n) = Ret (VInt64 n))
  /\ (2 ^ 63 <= n -> fails_with_overflow (sql.Convert sql.BigInteger (VUint64 n))).
Proof.
  unfold in_unsigned. intros Hn. cbn -[Z.pow int64].
  destruct (n >=? 2 ^ 63) eqn:E; split; intros Hr; try lia.
  - eexists; eexists; reflexivity.
  - rewrite int64_in_range by (unfold in_signed; lia). reflexivity.
Qed.

(** The narrower unsigned types cannot hold 2^63. *)
Lemma narrow_unsigned_below_2_63 (v : value) (n : Z) :
  wf_value v -> int_value v = Some n ->
  match v with VUint8 _ | VUint16 _ | VUint32 _ => True | _ => False end ->
  n < 2 ^ 63 /\ sql.Convert sql.BigInteger v = Ret (VInt64 n).
Proof.
  intros Hwf Hn Hk.
  destruct v; try contradiction; injection Hn as ->; cbn in Hwf;
    unfold_ranges; (split; [ lia | ]);
    cbn -[Z.pow int64]; rewrite int64_in_range by (unfold in_signed; lia);
    reflexivity.
Qed.

(** A [uint] is converted without any check. *)
Lemma BigInteger_Convert_uint (n : Z) :
  sql.Convert sql.BigInteger (VUint n) = Ret (VInt64 (int64 n)).
Proof. reflexivity. Qed.

(** C4, at the input where the code departs from it.  The [uint]
    9223372036854775808 = 2^63 is a well-formed unsigned value;
    [BigInteger.Convert] reports no overflow on it and returns the [int64]
    -9223372036854775808.  The same number as a [uint64] is refused. *)
Theorem BigInteger_Convert_misses_uint_overflow :
  wf_value (VUint 9223372036854775808)
  /\ 2 ^ 63 <= 9223372036854775808
  /\ sql.Convert sql.BigInteger (VUint 9223372036854775808)
     = Ret (VInt64 (-9223372036854775808))
  /\ sql.Convert sql.BigInteger (VUint64 9223372036854775808)
     = Fail (ErrOverflows (VUint64 9223372036854775808) "int64").
Proof.
  split; [ unfold_ranges; lia | ].
  split; [ lia | ].
  split; reflexivity.
Qed.

(** ** Row checking *)


Lemma index_app (pre : list value) (v : value) (vs : list value) :
  sql.Schema.index (pre ++ v :: vs) (List.length pre) = Ret v.
Proof.
  unfold sql.Schema.index.
  rewrite nth_error_app2 by apply Nat.le_refl.
  now rewrite Nat.sub_diag.
Qed.

Lemma CheckRow_length_mismatch (s : sql.Schema.t) (row : sql.Row) :
  List.length s <> List.length row ->
  sql.Schema.CheckRow s row
  = Fail (ErrExpectedValues (List.length s) (List.length row)).
Proof.
  intros Hlen. unfold sql.Schema.CheckRow.
  apply Nat.eqb_neq in Hlen. now rewrite Hlen.
Qed.

Lemma shift_prefix (pre : list value) (v : value) (vs : list value) :
  pre ++ v :: vs = (pre ++ [v]) ++ vs
  /\ S (List.length pre) = List.length (pre ++ [v]).
Proof.
  split.
  - now rewrite <- app_assoc.
  - rewrite length_app. simpl. now rewrite Nat.add_1_r.
Qed.

Lemma CheckRow_from_all_pass (s : sql.Schema.t) :
  forall pre vs,
    Forall2 passes s vs ->
    sql.Schema.CheckRow_from (List.length pre) s (pre ++ vs) = Ret tt.
Proof.
  induction s as [| c s IH]; intros pre vs Hall; inversion Hall; subst.
  - reflexivity.
  - cbn [sql.Schema.CheckRow_from]. rewrite index_app. cbn [bind].
    match goal with H : passes c _ |- _ => rewrite H end. cbn [bind].
    destruct (shift_prefix pre y l') as [-> ->]. apply IH. assumption.
Qed.

Lemma CheckRow_from_ok_inv (s : sql.Schema.t) :
  forall pre vs,
    List.length s = List.length vs ->
    sql.Schema.CheckRow_from (List.length pre) s (pre ++ vs) = Ret tt ->
    Forall2 passes s vs.
Proof.
  induction s as [| c s IH]; intros pre [| v vs] Hlen Hrun;
    try discriminate Hlen.
  - constructor.
  - cbn [sql.Schema.CheckRow_from] in Hrun. rewrite index_app in Hrun.
    cbn [bind] in Hrun.
    destruct (sql.Column.Check c v) as [[|] | e | p] eqn:Hc;
      cbn [bind] in Hrun; try discriminate Hrun.
    + constructor; [ exact Hc | ].
      destruct (shift_prefix pre v vs) as [E1 E2].
      rewrite E1, E2 in Hrun. apply (IH _ _ (eq_add_S _ _ Hlen) Hrun).
    + destruct (reflect.TypeOf v); discriminate Hrun.
Qed.

Lemma CheckRow_from_first_failure (s1 : sql.Schema.t) :
  forall pre c s2 vs1 v vs2,
    Forall2 passes s1 vs1 ->
    sql.Column.Check c v = Ret false ->
    sql.Schema.CheckRow_from (List.length pre) (s1 ++ c :: s2)
                             (pre ++ vs1 ++ v :: vs2)
    = (typ <- reflect.Type_String (reflect.TypeOf v) ;;
       Fail (ErrUnexpectedType (List.length pre + List.length s1) typ)).
Proof.
  induction s1 as [| c1 s1 IH]; intros pre c s2 vs1 v vs2 Hall Hc;
    inversion Hall; subst.
  - cbn [app sql.Schema.CheckRow_from]. rewrite index_app. cbn [bind].
    rewrite Hc. cbn [bind List.length]. now rewrite Nat.add_0_r.
  - cbn [app sql.Schema.CheckRow_from]. rewrite index_app. cbn [bind].
    match goal with H : passes c1 _ |- _ => rewrite H end. cbn [bind].
    destruct (shift_prefix pre y (l' ++ v :: vs2)) as [-> ->].
    rewrite IH by assumption.
    rewrite length_app. cbn [List.length].
    now rewrite <- Nat.add_assoc.
Qed.

(** [CheckRow] succeeds exactly when the row has the schema's length and
    every position passes its column. *)
Lemma CheckRow_succeeds_iff (s : sql.Schema.t) (row : sql.Row) :
  sql.Schema.CheckRow s row = Ret tt <-> Forall2 passes s row.
Proof.
  unfold sql.Schema.CheckRow. split.
  - destruct (Nat.eqb (List.length s) (List.length row)) eqn:E;
      cbn [negb]; intros Hrun; try discriminate Hrun.
    apply Nat.eqb_eq in E. exact (CheckRow_from_ok_inv s [] row E Hrun).
  - intros Hall. rewrite (Forall2_length Hall), Nat.eqb_refl. cbn [negb].
    exact (CheckRow_from_all_pass s [] row Hall).
Qed.

(** At the first position whose [Check] is false, [CheckRow] names the
    position and the dynamic type of the value when there is one, and
    dereferences the nil [reflect.Type] when the value is nil. *)
Lemma CheckRow_first_failure (s1 s2 : sql.Schema.t) (c : sql.Column.t)
    (vs1 vs2 : list value) (v : value) :
  Forall2 passes s1 vs1 ->
  List.length s2 = List.length vs2 ->
  sql.Column.Check c v = Ret false ->
  sql.Schema.CheckRow (s1 ++ c :: s2) (vs1 ++ v :: vs2)
  = match reflect.TypeOf v with
    | Some typ => Fail (ErrUnexpectedType (List.length s1) typ)
    | None => Panic NilDereference
    end.
Proof.
  intros Hall Hlen Hc. unfold sql.Schema.CheckRow.
  assert (Hl : List.length (s1 ++ c :: s2) = List.length (vs1 ++ v :: vs2)).
  { rewrite !length_app. cbn [List.length].
    now rewrite (Forall2_length Hall), Hlen. }
  rewrite Hl, Nat.eqb_refl. cbn [negb].
  pose proof (CheckRow_from_first_failure s1 [] c s2 vs1 v vs2 Hall Hc) as Hrun.
  cbn [app List.length Nat.add] in Hrun. rewrite Hrun.
  destruct (reflect.TypeOf v); reflexivity.
Qed.

Lemma TypeOf_nil_iff (v : value) : reflect.TypeOf v = None <-> v = VNil.
Proof. destruct v; simpl; split; intros H; congruence. Qed.

Section RowPanics.

Context {R : Runtime}.


Lemma Column_Check_returns (c : sql.Column.t) (v : value) :
  In (sql.Column.Type_ c) sql.builtin -> returns (sql.Column.Check c v).
Proof.
  intros HT. unfold sql.Column.Check.
  destruct (is_nil v).
  - eexists; reflexivity.
  - now apply Check_returns.
Qed.

Lemma CheckRow_from_panic (s : sql.Schema.t) :
  forall pre vs p,
    typed_by_catalogue s ->
    List.length s = List.length vs ->
    sql.Schema.CheckRow_from (List.length pre) s (pre ++ vs) = Panic p ->
    p = NilDereference
    /\ exists i c, nth_error s i = Some c /\ nth_error vs i = Some VNil
                   /\ sql.Column.Check c VNil = Ret false.
Proof.
  induction s as [| c s IH]; intros pre [| v vs] p Hty Hlen Hrun;
    try discriminate Hlen; try discriminate Hrun.
  inversion Hty as [| c' s' Hc Hs]; subst.
  cbn [sql.Schema.CheckRow_from] in Hrun. rewrite index_app in Hrun.
  cbn [bind] in Hrun.
  destruct (Column_Check_returns c v Hc) as [[|] Hb];
    rewrite Hb in Hrun; cbn [bind] in Hrun.
  - destruct (shift_prefix pre v vs) as [E1 E2]. rewrite E1, E2 in Hrun.
    destruct (IH _ _ _ Hs (eq_add_S _ _ Hlen) Hrun) as [Hp [i [c0 [H1 [H2 H3]]]]].
    split; [ exact Hp | ]. exists (S i), c0. auto.
  - destruct (reflect.TypeOf v) eqn:Et; cbn in Hrun; try discriminate Hrun.
    apply TypeOf_nil_iff in Et. subst v. injection Hrun as <-.
    split; [ reflexivity | ]. exists 0%nat, c. auto.
Qed.

(** With columns of built-in types, the only panic of [CheckRow] is the
    nil dereference, and it takes a nil value in a position whose column
    rejects nil. *)
Lemma CheckRow_panics_only_on_nil (s : sql.Schema.t) (row : sql.Row) (p : panic) :
  typed_by_catalogue s ->
  sql.Schema.CheckRow s row = Panic p ->
  p = NilDereference
  /\ exists i c, nth_error s i = Some c /\ nth_error row i = Some VNil
                 /\ sql.Column.Check c VNil = Ret false.
Proof.
  intros Hty. unfold sql.Schema.CheckRow.
  destruct (Nat.eqb (List.length s) (List.length row)) eqn:E;
    cbn [negb]; intros Hrun; try discriminate Hrun.
  apply Nat.eqb_eq in E.
  exact (CheckRow_from_panic s [] row p Hty E Hrun).
Qed.

End RowPanics.

(** C2, at the input where the code departs from it.  A one-column schema
    whose column is not nullable and a row holding nil: the lengths agree,
    the column's [Check] returns false, and [CheckRow] panics on the nil
    [reflect.Type] instead of returning an error. *)
Theorem CheckRow_panics_on_nil_in_required_column :
  let id := sql.Column.mk "id" sql.Integer VNil false in
  sql.Column.Check id VNil = Ret false
  /\ reflect.TypeOf VNil = None
  /\ sql.Schema.CheckRow [id] [VNil] = Panic NilDereference.
Proof. repeat split. Qed.

(** C8, at the input where the code departs from it.  Schema and row have
    two positions each; position 0 passes, position 1 holds nil in a column
    that is not nullable.  [CheckRow] returns no error naming position 1:
    it panics. *)
Theorem CheckRow_reports_no_position_for_nil :
  let s := [sql.Column.mk "id" sql.Integer VNil false;
            sql.Column.mk "count" sql.BigInteger VNil false] in
  let row := [VInt32 7; VNil] in
  List.length s = List.length row
  /\ Forall2 passes (firstn 1 s) (firstn 1 row)
  /\ (exists c, nth_error s 1 = Some c /\ sql.Column.Check c VNil = Ret false)
  /\ sql.Schema.CheckRow s row = Panic NilDereference
  /\ ~ fails (sql.Schema.CheckRow s row).
Proof.
  cbn zeta. split; [ reflexivity | ].
  split; [ repeat constructor | ].
  split; [ eexists; split; reflexivity | ].
  split; [ reflexivity | ].
  intros [e He]. discriminate He.
Qed.

(** ** Orders *)


Lemma lex_compare_sign (a : list N) :
  forall b, lex_compare a b = -1 \/ lex_compare a b = 0 \/ lex_compare a b = 1.
Proof.
  induction a as [| x a IH]; intros [| y b]; simpl; auto.
  destruct (N.compare x y); auto.
Qed.

Lemma lex_compare_antisym (a : list N) :
  forall b, lex_compare b a = - lex_compare a b.
Proof.
  induction a as [| x a IH]; intros [| y b]; simpl; try reflexivity.
  rewrite (N.compare_antisym x y).
  destruct (N.compare x y); simpl; auto.
Qed.

Lemma lex_compare_lt_iff (a : list N) :
  forall b, lex_compare a b = -1 <-> lex_lt a b.
Proof.
  induction a as [| x a IH]; intros [| y b]; simpl.
  - split; [ discriminate | inversion 1 ].
  - split; [ constructor | reflexivity ].
  - split; [ discriminate | inversion 1 ].
  - destruct (N.compare x y) eqn:E.
    + apply N.compare_eq in E. subst y. rewrite IH. split.
      * now constructor.
      * inversion 1; subst; [ exfalso; eapply N.lt_irrefl; eassumption | assumption ].
    + split; [ intros _; now apply lex_lt_head | reflexivity ].
    + split; [ discriminate | ].
      apply N.compare_gt_iff in E.
      inversion 1; subst.
      * exfalso. eapply N.lt_asymm; eassumption.
      * exfalso. eapply N.lt_irrefl; eassumption.
Qed.

Lemma lex_compare_eq_iff (a : list N) :
  forall b, lex_compare a b = 0 <-> a = b.
Proof.
  induction a as [| x a IH]; intros [| y b]; simpl;
    try (split; [ reflexivity | reflexivity ]);
    try (split; discriminate).
  destruct (N.compare x y) eqn:E.
  - apply N.compare_eq in E. subst y. rewrite IH.
    split; [ now intros -> | now injection 1 ].
  - split; [ discriminate | ]. injection 1 as -> _.
    rewrite N.compare_refl in E. discriminate E.
  - split; [ discriminate | ]. injection 1 as -> _.
    rewrite N.compare_refl in E. discriminate E.
Qed.

Lemma string_codes_inj (s : string) : forall t, string_codes s = string_codes t -> s = t.
Proof.
  unfold string_codes.
  induction s as [| c s IH]; intros [| d t]; simpl; intros H;
    try discriminate H; try reflexivity.
  injection H as Hc Hs. f_equal.
  - rewrite <- (ascii_N_embedding c), <- (ascii_N_embedding d). now rewrite Hc.
  - now apply IH.
Qed.

Lemma bytes_codes_inj (a : list byte) : forall b, bytes_codes a = bytes_codes b -> a = b.
Proof.
  unfold bytes_codes.
  induction a as [| x a IH]; intros [| y b]; simpl; intros H;
    try discriminate H; try reflexivity.
  injection H as Hx Ha. f_equal.
  - pose proof (Byte.of_to_N x) as Ex. rewrite Hx, Byte.of_to_N in Ex.
    now injection Ex.
  - now apply IH.
Qed.

(** IEEE comparison: [a < b] and [b < a] exclude each other. *)
Lemma SFcompare_swap (a b : spec_float) :
  SFcompare b a = option_map CompOpp (SFcompare a b).
Proof.
  destruct a as [sa | sa | | sa ma ea], b as [sb | sb | | sb mb eb];
    simpl; try reflexivity;
    try (destruct sa; reflexivity); try (destruct sb; reflexivity);
    try (destruct sa, sb; reflexivity).
  rewrite (Z.compare_antisym ea eb).
  change (Pos.compare_cont Eq mb ma) with (Pos.compare mb ma).
  change (Pos.compare_cont Eq ma mb) with (Pos.compare ma mb).
  rewrite (Pos.compare_antisym ma mb).
  destruct sa, sb; simpl; try reflexivity;
    destruct (Z.compare ea eb); simpl; try reflexivity;
    destruct (Pos.compare ma mb); reflexivity.
Qed.

Lemma SFltb_asym (a b : spec_float) : SFltb a b = true -> SFltb b a = false.
Proof.
  unfold SFltb. rewrite (SFcompare_swap a b).
  destruct (SFcompare a b) as [[| |] |]; simpl; congruence.
Qed.

(** ** The IEEE comparison is the numeric one *)


Lemma digits2_pos_bounds (m : positive) :
  2 ^ (Z.pos (digits2_pos m) - 1) <= Z.pos m < 2 ^ Z.pos (digits2_pos m).
Proof.
  induction m as [p IH | p IH | ]; cbn [digits2_pos].
  - rewrite Pos2Z.inj_succ.
    replace (Z.succ (Z.pos (digits2_pos p)) - 1)
      with (Z.succ (Z.pos (digits2_pos p) - 1)) by lia.
    rewrite !Z.pow_succ_r by lia. lia.
  - rewrite Pos2Z.inj_succ.
    replace (Z.succ (Z.pos (digits2_pos p)) - 1)
      with (Z.succ (Z.pos (digits2_pos p) - 1)) by lia.
    rewrite !Z.pow_succ_r by lia. lia.
  - cbn. lia.
Qed.

(** A valid mantissa and exponent: the exponent is at least -149, the
    mantissa has 24 bits at most, and exactly 24 above the least exponent. *)
Lemma bounded32_shape (m : positive) (e : Z) :
  bounded 24 128 m e = true ->
  -149 <= e /\ Z.pos m < 2 ^ 24 /\ (-149 < e -> 2 ^ 23 <= Z.pos m).
Proof.
  unfold bounded, canonical_mantissa, fexp, emin. intros H.
  apply andb_true_iff in H. destruct H as [Hc _].
  apply Z.eqb_eq in Hc.
  pose proof (digits2_pos_bounds m) as [Hlo Hhi].
  set (d := Z.pos (digits2_pos m)) in *.
  assert (Hd : 1 <= d) by (subst d; lia).
  change (3 - 128 - 24) with (-149) in Hc.
  repeat split.
  - lia.
  - apply Z.lt_le_trans with (1 := Hhi). apply Z.pow_le_mono_r; lia.
  - intros He. assert (d = 24) by lia.
    replace 23 with (d - 1) by lia. exact Hlo.
Qed.

Lemma magnitude32_pos (m : positive) (e : Z) : -149 <= e -> 0 < magnitude32 m e.
Proof.
  intros He. unfold magnitude32.
  apply Z.mul_pos_pos; [ lia | apply Z.pow_pos_nonneg; lia ].
Qed.

Lemma magnitude32_lower_exponent (m1 m2 : positive) (e1 e2 : Z) :
  bounded 24 128 m1 e1 = true -> bounded 24 128 m2 e2 = true ->
  e1 < e2 -> magnitude32 m1 e1 < magnitude32 m2 e2.
Proof.
  intros H1 H2 He.
  destruct (bounded32_shape m1 e1 H1) as (L1 & U1 & _).
  destruct (bounded32_shape m2 e2 H2) as (L2 & _ & N2).
  specialize (N2 ltac:(lia)).
  unfold magnitude32.
  assert (P1 : 0 < 2 ^ (e1 + 149)) by (apply Z.pow_pos_nonneg; lia).
  assert (Hstep : 2 ^ (e2 + 149) = 2 ^ (e2 - e1 - 1) * (2 * 2 ^ (e1 + 149))).
  { rewrite <- Z.pow_succ_r by lia. rewrite <- Z.pow_add_r by lia.
    f_equal. lia. }
  assert (P2 : 1 <= 2 ^ (e2 - e1 - 1)) by (apply Z.lt_pred_le, Z.pow_pos_nonneg; lia).
  rewrite Hstep.
  change (2 ^ 24) with 16777216 in U1. change (2 ^ 23) with 8388608 in N2.
  nia.
Qed.

Lemma magnitude32_compare (m1 m2 : positive) (e1 e2 : Z) :
  bounded 24 128 m1 e1 = true -> bounded 24 128 m2 e2 = true ->
  match Z.compare e1 e2 with
  | Lt => Lt
  | Gt => Gt
  | Eq => Pos.compare_cont Eq m1 m2
  end = Z.compare (magnitude32 m1 e1) (magnitude32 m2 e2).
Proof.
  intros H1 H2. symmetry.
  destruct (Z.compare_spec e1 e2) as [E | E | E].
  - subst e2. unfold magnitude32.
    destruct (bounded32_shape m1 e1 H1) as (L1 & _ & _).
    assert (P : 0 < 2 ^ (e1 + 149)) by (apply Z.pow_pos_nonneg; lia).
    change (Pos.compare_cont Eq m1 m2) with (Pos.compare m1 m2).
    destruct (Pos.compare_spec m1 m2) as [E | E | E].
    + subst m2. apply Z.compare_refl.
    + apply Z.compare_lt_iff. apply Z.mul_lt_mono_pos_r; [ exact P | lia ].
    + apply Z.compare_gt_iff. apply Z.mul_lt_mono_pos_r; [ exact P | lia ].
  - apply Z.compare_lt_iff. now apply magnitude32_lower_exponent.
  - apply Z.compare_gt_iff. now apply magnitude32_lower_exponent.
Qed.

(** On valid [float32] operands with a numeric value, the IEEE comparison
    compares these values. *)
Lemma SFcompare_numeric (a b : spec_float) (p q : Z) :
  valid_binary 24 128 a = true -> valid_binary 24 128 b = true ->
  scaled32 a = Some p -> scaled32 b = Some q ->
  SFcompare a b = Some (Z.compare p q).
Proof.
  intros Va Vb Ha Hb.
  destruct a as [sa | sa | | sa ma ea]; try discriminate Ha;
    destruct b as [sb | sb | | sb mb eb]; try discriminate Hb;
    cbn [valid_binary scaled32] in Va, Vb, Ha, Hb;
    injection Ha as <-; injection Hb as <-.
  - reflexivity.
  - destruct (bounded32_shape mb eb Vb) as (L & _ & _).
    pose proof (magnitude32_pos mb eb L) as P.
    cbn [SFcompare]. destruct sb; f_equal; symmetry;
      [ apply Z.compare_gt_iff | apply Z.compare_lt_iff ]; lia.
  - destruct (bounded32_shape ma ea Va) as (L & _ & _).
    pose proof (magnitude32_pos ma ea L) as P.
    cbn [SFcompare]. destruct sa; f_equal; symmetry;
      [ apply Z.compare_lt_iff | apply Z.compare_gt_iff ]; lia.
  - destruct (bounded32_shape ma ea Va) as (La & _ & _).
    destruct (bounded32_shape mb eb Vb) as (Lb & _ & _).
    pose proof (magnitude32_pos ma ea La) as Pa.
    pose proof (magnitude32_pos mb eb Lb) as Pb.
    pose proof (magnitude32_compare ma mb ea eb Va Vb) as Hc.
    destruct sa, sb; cbn [SFcompare]; f_equal.
    + rewrite Z.compare_opp.
      rewrite (Z.compare_antisym (magnitude32 ma ea) (magnitude32 mb eb)).
      rewrite <- Hc. destruct (Z.compare ea eb); reflexivity.
    + symmetry. apply Z.compare_lt_iff. lia.
    + symmetry. apply Z.compare_gt_iff. lia.
    + exact Hc.
Qed.

Lemma SFltb_numeric (a b : spec_float) (p q : Z) :
  valid_binary 24 128 a = true -> valid_binary 24 128 b = true ->
  scaled32 a = Some p -> scaled32 b = Some q ->
  SFltb a b = true <-> p < q.
Proof.
  intros Va Vb Ha Hb. unfold SFltb.
  rewrite (SFcompare_numeric a b p q Va Vb Ha Hb).
  rewrite <- Z.compare_lt_iff.
  destruct (Z.compare p q); split; congruence.
Qed.


Lemma Before_earlier (t u : Time) :
  0 <= nsec t < 1000000000 -> 0 <= nsec u < 1000000000 ->
  time.Before t u = true <-> earlier t u.
Proof.
  intros Ht Hu. unfold time.Before, earlier, instant.
  destruct (mono t), (mono u);
    rewrite ?orb_true_iff, ?andb_true_iff, ?Z.ltb_lt, ?Z.eqb_eq; lia.
Qed.

Lemma After_Before (t u : Time) : time.After t u = time.Before u t.
Proof.
  unfold time.After, time.Before.
  rewrite !Z.gtb_ltb, (Z.eqb_sym (sec t) (sec u)).
  destruct (mono t), (mono u); try reflexivity.
  now rewrite Z.gtb_ltb.
Qed.

Lemma Before_asym (t u : Time) : time.Before t u = true -> time.Before u t = false.
Proof.
  unfold time.Before.
  destruct (mono t), (mono u); intros H;
    rewrite ?orb_true_iff, ?andb_true_iff, ?Z.ltb_lt, ?Z.eqb_eq in H;
    rewrite ?orb_false_iff, ?andb_false_iff, ?Z.ltb_ge, ?Z.eqb_neq; lia.
Qed.


Lemma lex_compare_ordered (a b : list N) :
  (lex_compare a b < 0 <-> lex_lt a b)
  /\ (lex_compare a b = 0 <-> a = b)
  /\ (lex_compare a b > 0 <-> lex_lt b a).
Proof.
  pose proof (lex_compare_sign a b) as Hs.
  rewrite <- (lex_compare_lt_iff a b), <- (lex_compare_lt_iff b a),
    <- (lex_compare_eq_iff a b), (lex_compare_antisym a b).
  lia.
Qed.

Lemma three_way_float (x y : spec_float) :
  exists c,
    sql.compareFloat64 (VFloat32 x) (VFloat32 y) = Ret c
    /\ (c = -1 \/ c = 0 \/ c = 1)
    /\ sql.compareFloat64 (VFloat32 y) (VFloat32 x) = Ret (- c)
    /\ (c < 0 <-> SFltb x y = true) /\ (c > 0 <-> SFltb y x = true).
Proof.
  cbn. unfold float_lt, float_gt.
  destruct (SFltb x y) eqn:Exy.
  - rewrite (SFltb_asym x y Exy). exists (-1). cbn. repeat split; auto; lia.
  - destruct (SFltb y x) eqn:Eyx.
    + exists 1. cbn. repeat split; auto; try lia; discriminate.
    + exists 0. cbn. repeat split; auto; try lia; discriminate.
Qed.

(** A NaN is neither below nor above anything: it compares as 0. *)
Example compareFloat64_nan (x : spec_float) :
  sql.compareFloat64 (VFloat32 S754_nan) (VFloat32 x) = Ret 0
  /\ sql.compareFloat64 (VFloat32 x) (VFloat32 S754_nan) = Ret 0.
Proof. destruct x as [s | s | | s m e]; split; reflexivity. Qed.

Lemma three_way_time (x y : Time) :
  0 <= nsec x < 1000000000 -> 0 <= nsec y < 1000000000 ->
  exists c,
    sql.compareTimestamp (VTime x) (VTime y) = Ret c
    /\ (c = -1 \/ c = 0 \/ c = 1)
    /\ sql.compareTimestamp (VTime y) (VTime x) = Ret (- c)
    /\ (c < 0 <-> earlier x y) /\ (c > 0 <-> earlier y x).
Proof.
  intros Hx Hy. cbn. rewrite !After_Before.
  pose proof (Before_earlier x y Hx Hy) as Bxy.
  pose proof (Before_earlier y x Hy Hx) as Byx.
  destruct (time.Before x y) eqn:Exy.
  - rewrite (Before_asym x y Exy) in *. exists (-1). cbn.
    repeat split; auto; try lia; try tauto.
    intros H. apply Byx in H. discriminate H.
  - destruct (time.Before y x) eqn:Eyx.
    + exists 1. cbn. repeat split; auto; try lia; try tauto.
      intros H. apply Bxy in H. discriminate H.
    + exists 0. cbn. repeat split; auto; try lia.
      * intros H. apply Bxy in H. discriminate H.
      * intros H. apply Byx in H. discriminate H.
Qed.

Lemma three_way_Z (cmp : value -> value -> outcome Z) (mk : Z -> value) (x y : Z) :
  (forall p q, cmp (mk p) (mk q)
               = if p <? q then Ret (-1) else if p >? q then Ret 1 else Ret 0) ->
  exists c,
    cmp (mk x) (mk y) = Ret c
    /\ (c = -1 \/ c = 0 \/ c = 1)
    /\ cmp (mk y) (mk x) = Ret (- c)
    /\ (c < 0 <-> x < y) /\ (c = 0 <-> x = y) /\ (c > 0 <-> y < x).
Proof.
  intros Hcmp. rewrite !Hcmp.
  destruct (Z.ltb_spec x y) as [Hlt | Hge].
  - exists (-1). destruct (Z.ltb_spec y x); [ lia | ].
    destruct (y >? x) eqn:E; [ | lia ]. repeat split; auto; lia.
  - destruct (x >? y) eqn:E.
    + exists 1. destruct (Z.ltb_spec y x); [ | lia ]. repeat split; auto; lia.
    + exists 0. destruct (Z.ltb_spec y x); [ lia | ].
      destruct (y >? x) eqn:E'; [ lia | ]. repeat split; auto; lia.
Qed.

Section Ordering.

Context {R : Runtime}.

(** C6. On two canonical values [a], [b] of one built-in type, [Compare]
    returns one of -1, 0, 1 (so exactly one of [< 0], [= 0], [> 0] holds),
    [Compare(b, a)] is its opposite, and the sign reflects the order of the
    type: lexicographic on the bytes for String and Blob, numeric for
    Integer, BigInteger and Float (the IEEE comparison, which orders finite
    operands by their values), chronological for timestamps, false before
    true for Boolean. *)
Theorem Compare_total_order (T : sql.Type_) (a b : value) :
  In T sql.builtin ->
  sql.Check T a = Ret true -> sql.Check T b = Ret true ->
  wf_value a -> wf_value b ->
  exists c,
    sql.Compare T a b = Ret c
    /\ (c = -1 \/ c = 0 \/ c = 1)
    /\ sql.Compare T b a = Ret (- c)
    /\ ordered_as a b c.
Proof.
  intros HT Ha Hb Wa Wb.
  destruct (Check_canonical_form T a HT Ha)
    as [[-> ->] | [[-> [x ->]] | [[-> [x ->]] | [[-> [x ->]]
       | [[-> [x ->]] | [[-> [x ->]] | [[-> [x ->]] | [-> [x ->]]]]]]]]];
    destruct b as [ | | | |y|y| | | | | |y| |y|y|y|y| | ];
    try discriminate Hb; clear Ha Hb.
  - exists 0. repeat split; auto.
  - apply (three_way_Z sql.compareInt32 VInt32). reflexivity.
  - apply (three_way_Z sql.compareInt64 VInt64). reflexivity.
  - apply three_way_time; assumption.
  - exists (strings.Compare x y). unfold strings.Compare. cbn.
    pose proof (lex_compare_ordered (string_codes x) (string_codes y)) as [H1 [H2 H3]].
    repeat split; try tauto.
    + apply lex_compare_sign.
    + f_equal. apply lex_compare_antisym.
    + intros H. apply string_codes_inj. tauto.
    + intros ->. tauto.
  - destruct x, y;
      [ exists 0 | exists 1 | exists (-1) | exists 0 ];
      cbn; repeat split; auto; try lia; try discriminate; try tauto.
  - destruct (three_way_float x y) as (c & H1 & H2 & H3 & H4 & H5).
    exists c. split; [ exact H1 | ]. split; [ exact H2 | ].
    split; [ exact H3 | ]. cbn [ordered_as].
    split; [ exact H4 | ]. split; [ exact H5 | ].
    intros p q Hp Hq. cbn [wf_value] in Wa, Wb.
    pose proof (SFltb_numeric x y p q Wa Wb Hp Hq) as Nxy.
    pose proof (SFltb_numeric y x q p Wb Wa Hq Hp) as Nyx.
    assert (Hlt : c < 0 <-> p < q) by tauto.
    assert (Hgt : c > 0 <-> q < p) by tauto.
    repeat split; intros; lia.
  - exists (bytes.Compare x y). unfold bytes.Compare. cbn.
    pose proof (lex_compare_ordered (bytes_codes x) (bytes_codes y)) as [H1 [H2 H3]].
    repeat split; try tauto.
    + apply lex_compare_sign.
    + f_equal. apply lex_compare_antisym.
    + intros H. apply bytes_codes_inj. tauto.
    + intros ->. tauto.
Qed.

End Ordering.

(** ** Strings *)

Lemma string_app_assoc (a b c : string) :
  ((a ++ b) ++ c = a ++ (b ++ c))%string.
Proof. induction a as [| x a IH]; cbn; [ reflexivity | now rewrite IH ]. Qed.

Lemma string_app_empty_r (a : string) : (a ++ "")%string = a.
Proof. induction a as [| x a IH]; cbn; [ reflexivity | now rewrite IH ]. Qed.

Lemma string_length_app (a b : string) :
  String.length (a ++ b) = (String.length a + String.length b)%nat.
Proof. induction a as [| x a IH]; cbn; [ reflexivity | now rewrite IH ]. Qed.

(** ** Timestamps from text *)


Example timestamp_text_ex :
  timestamp_text 2023 1 2 15 4 5 0 = "2023-01-02 15:04:05.000000".
Proof. reflexivity. Qed.

Lemma digit_cases (k : Z) :
  0 <= k <= 9 ->
  k = 0 \/ k = 1 \/ k = 2 \/ k = 3 \/ k = 4 \/ k = 5 \/ k = 6 \/ k = 7
  \/ k = 8 \/ k = 9.
Proof. lia. Qed.

Ltac each_digit k H :=
  destruct (digit_cases k H) as [-> | [-> | [-> | [-> | [-> | [-> | [-> | [-> | [-> | ->]]]]]]]]].

Lemma isDigit_digit_char (k : Z) : 0 <= k <= 9 -> isDigit (digit_char k) = true.
Proof. intros H. each_digit k H; reflexivity. Qed.

Lemma digit_val_digit_char (k : Z) : 0 <= k <= 9 -> digit_val (digit_char k) = k.
Proof. intros H. each_digit k H; reflexivity. Qed.

Lemma digit_char_not_sign (k : Z) :
  0 <= k <= 9 ->
  Ascii.eqb (digit_char k) "-" = false /\ Ascii.eqb (digit_char k) "+" = false
  /\ Ascii.eqb (digit_char k) " " = false.
Proof. intros H. each_digit k H; repeat split; reflexivity. Qed.

Arguments digit_char : simpl never.
Arguments isDigit : simpl never.
Arguments digit_val : simpl never.

Lemma getnum_two_digits (a b : Z) (rest : string) (fixed : bool) :
  0 <= a <= 9 -> 0 <= b <= 9 ->
  time.getnum (String (digit_char a) (String (digit_char b) rest)) fixed
  = Some (a * 10 + b, rest).
Proof.
  intros Ha Hb. unfold time.getnum.
  now rewrite !isDigit_digit_char, !digit_val_digit_char.
Qed.

Lemma skip_space_before_digit (a : Z) (rest : string) :
  0 <= a <= 9 ->
  time.skip (String " " (String (digit_char a) rest)) " "
  = Some (String (digit_char a) rest).
Proof.
  intros Ha. destruct (digit_char_not_sign a Ha) as [_ [_ Hsp]].
  unfold time.skip. cbn. now rewrite Hsp.
Qed.

Ltac decide_gtb :=
  repeat match goal with
         | |- context [?a >? ?b] =>
             destruct (Z.gtb_spec a b); [ exfalso; lia | ]
         end.

Lemma atoi_four_digits (a b c d : Z) :
  0 <= a <= 9 -> 0 <= b <= 9 -> 0 <= c <= 9 -> 0 <= d <= 9 ->
  time.atoi (String (digit_char a) (String (digit_char b)
              (String (digit_char c) (String (digit_char d) ""))))
  = Some (1000 * a + 100 * b + 10 * c + d).
Proof.
  intros Ha Hb Hc Hd. unfold time.atoi.
  destruct (digit_char_not_sign a Ha) as [-> [-> _]]. cbn [orb].
  cbn -[Z.pow Z.div Z.mul Z.add Z.gtb].
  rewrite !isDigit_digit_char, !digit_val_digit_char by assumption.
  change (2 ^ 63 / 10) with 922337203685477580.
  change (2 ^ 63) with 9223372036854775808.
  decide_gtb.
  rewrite int64_in_range by (unfold in_signed; lia).
  f_equal. lia.
Qed.

Lemma parseNanoseconds_six_digits (a b c d e f : Z) :
  0 <= a <= 9 -> 0 <= b <= 9 -> 0 <= c <= 9 -> 0 <= d <= 9 ->
  0 <= e <= 9 -> 0 <= f <= 9 ->
  time.parseNanoseconds
    (String "." (String (digit_char a) (String (digit_char b)
      (String (digit_char c) (String (digit_char d) (String (digit_char e)
        (String (digit_char f) ""))))))) 7
  = Some ((100000 * a + 10000 * b + 1000 * c + 100 * d + 10 * e + f) * 1000).
Proof.
  intros Ha Hb Hc Hd He Hf. unfold time.parseNanoseconds.
  cbn [time.commaOrPeriod Ascii.eqb Bool.eqb orb Nat.min Nat.sub substring].
  unfold time.atoi.
  destruct (digit_char_not_sign a Ha) as [-> [-> _]]. cbn [orb].
  cbn -[Z.pow Z.div Z.mul Z.add Z.gtb Z.ltb Z.of_nat].
  rewrite !isDigit_digit_char, !digit_val_digit_char by assumption.
  change (2 ^ 63 / 10) with 922337203685477580.
  change (2 ^ 63) with 9223372036854775808.
  decide_gtb.
  rewrite int64_in_range by (unfold in_signed; lia).
  match goal with
  | |- context [?x <? 0] => destruct (Z.ltb_spec x 0); [ exfalso; lia | ]
  end.
  f_equal. change (10 ^ Z.of_nat (10 - 7)) with 1000. lia.
Qed.

Arguments time.atoi : simpl never.
Arguments time.getnum : simpl never.
Arguments time.skip : simpl never.
Arguments time.parseNanoseconds : simpl never.
Arguments time.Date_UTC : simpl never.
Arguments time.daysIn : simpl never.

Ltac decide_Z_tests :=
  repeat match goal with
         | |- context [?a <=? ?b] =>
             first [ rewrite (proj2 (Z.leb_le a b)) by lia
                   | rewrite (proj2 (Z.leb_gt a b)) by lia ]
         | |- context [?a <? ?b] =>
             first [ rewrite (proj2 (Z.ltb_lt a b)) by lia
                   | rewrite (proj2 (Z.ltb_ge a b)) by lia ]
         | |- context [?a >? ?b] =>
             rewrite (Z.gtb_ltb a b)
         end.

Lemma skip_dash (rest : string) : time.skip (String "-" rest) "-" = Some rest.
Proof. reflexivity. Qed.

Lemma skip_colon (rest : string) : time.skip (String ":" rest) ":" = Some rest.
Proof. reflexivity. Qed.

(** The parser on twenty digits laid out as the layout asks. *)
Lemma Parse_twenty_digits
    (y1 y2 y3 y4 m1 m2 d1 d2 h1 h2 i1 i2 s1 s2 u1 u2 u3 u4 u5 u6 : Z) :
  Forall (fun k => 0 <= k <= 9)
    [y1; y2; y3; y4; m1; m2; d1; d2; h1; h2; i1; i2; s1; s2;
     u1; u2; u3; u4; u5; u6] ->
  let y := 1000 * y1 + 100 * y2 + 10 * y3 + y4 in
  let mo := m1 * 10 + m2 in
  let d := d1 * 10 + d2 in
  let h := h1 * 10 + h2 in
  let mi := i1 * 10 + i2 in
  let s := s1 * 10 + s2 in
  let us := 100000 * u1 + 10000 * u2 + 1000 * u3 + 100 * u4 + 10 * u5 + u6 in
  1 <= mo <= 12 -> 1 <= d <= time.daysIn mo y -> h <= 23 -> mi <= 59 -> s <= 59 ->
  time.Parse sql.timestampLayout
    (String (digit_char y1) (String (digit_char y2) (String (digit_char y3)
     (String (digit_char y4) (String "-" (String (digit_char m1)
     (String (digit_char m2) (String "-" (String (digit_char d1)
     (String (digit_char d2) (String " " (String (digit_char h1)
     (String (digit_char h2) (String ":" (String (digit_char i1)
     (String (digit_char i2) (String ":" (String (digit_char s1)
     (String (digit_char s2) (String "." (String (digit_char u1)
     (String (digit_char u2) (String (digit_char u3) (String (digit_char u4)
     (String (digit_char u5) (String (digit_char u6) ""))))))))))))))))))))))))))
  = Some (time.Date_UTC y mo d h mi s (us * 1000)).
Proof.
  intros Hall y mo d h mi s us Hmo Hd Hh Hmi Hs.
  subst y mo d h mi s us.
  repeat match goal with
         | H : Forall _ (_ :: _) |- _ => inversion H; subst; clear H
         | H : Forall _ [] |- _ => clear H
         end.
  unfold time.Parse, sql.timestampLayout.
  repeat first
    [ rewrite isDigit_digit_char by assumption
    | rewrite atoi_four_digits by assumption
    | rewrite getnum_two_digits by assumption
    | rewrite skip_dash
    | rewrite skip_colon
    | rewrite skip_space_before_digit by assumption
    | rewrite parseNanoseconds_six_digits by assumption
    | progress decide_Z_tests
    | progress cbn -[Z.mul Z.add Z.leb Z.ltb Z.gtb] ].
  reflexivity.
Qed.

Lemma daysIn_le_31 (m y : Z) : 1 <= m <= 12 -> 28 <= time.daysIn m y <= 31.
Proof.
  intros Hm. unfold time.daysIn.
  assert (Hc : m = 1 \/ m = 2 \/ m = 3 \/ m = 4 \/ m = 5 \/ m = 6 \/ m = 7
               \/ m = 8 \/ m = 9 \/ m = 10 \/ m = 11 \/ m = 12) by lia.
  destruct Hc as [-> | [-> | [-> | [-> | [-> | [-> | [-> | [-> | [-> | [-> | [-> | ->]]]]]]]]]]];
    destruct (time.isLeap y); vm_compute; split; discriminate.
Qed.

Lemma fixed_digits_bounds (n : Z) :
  0 <= n -> 0 <= n mod 10 <= 9 /\ 0 <= n / 10.
Proof. intros Hn. Z.to_euclidean_division_equations. lia. Qed.

(** Text in the layout's format, with fields in range, is parsed to the
    UTC time of these fields. *)
Lemma Parse_timestamp_text (y mo d h mi s us : Z) :
  valid_fields y mo d h mi s us ->
  time.Parse sql.timestampLayout (timestamp_text y mo d h mi s us)
  = Some (time.Date_UTC y mo d h mi s (us * 1000)).
Proof.
  intros (Hy & Hmo & Hd & Hh & Hmi & Hs & Hus).
  pose proof (daysIn_le_31 mo y Hmo) as Hdays.
  unfold timestamp_text. cbn [fixed_digits String.append].
  rewrite Parse_twenty_digits.
  - f_equal. f_equal; Z.to_euclidean_division_equations; lia.
  - repeat constructor; Z.to_euclidean_division_equations; lia.
  - Z.to_euclidean_division_equations; lia.
  - replace (mo / 10 mod 10 * 10 + mo mod 10) with mo
      by (Z.to_euclidean_division_equations; lia).
    replace (1000 * (y / 10 / 10 / 10 mod 10) + 100 * (y / 10 / 10 mod 10)
             + 10 * (y / 10 mod 10) + y mod 10) with y
      by (Z.to_euclidean_division_equations; lia).
    Z.to_euclidean_division_equations; lia.
  - Z.to_euclidean_division_equations; lia.
  - Z.to_euclidean_division_equations; lia.
  - Z.to_euclidean_division_equations; lia.
Qed.


(** ** What the parser admits *)

Lemma isDigit_inv (c : ascii) :
  isDigit c = true -> exists k, 0 <= k <= 9 /\ c = digit_char k.
Proof.
  intros H. exists (digit_val c).
  destruct c as [[] [] [] [] [] [] [] []]; vm_compute in H;
    try discriminate H;
    (split; [ vm_compute; split; discriminate | reflexivity ]).
Qed.

Ltac digits_of_number :=
  cbn [fixed_digits String.append];
  repeat (f_equal; try (Z.to_euclidean_division_equations; lia)).

Lemma fixed_digits_1 (a : Z) :
  0 <= a <= 9 -> fixed_digits 1 a = String (digit_char a) "".
Proof. intros Ha. digits_of_number. Qed.

Lemma fixed_digits_2 (a b : Z) :
  0 <= a <= 9 -> 0 <= b <= 9 ->
  fixed_digits 2 (a * 10 + b) = String (digit_char a) (String (digit_char b) "").
Proof. intros Ha Hb. digits_of_number. Qed.

Lemma fixed_digits_4 (a b c d : Z) :
  0 <= a <= 9 -> 0 <= b <= 9 -> 0 <= c <= 9 -> 0 <= d <= 9 ->
  fixed_digits 4 (1000 * a + 100 * b + 10 * c + d)
  = String (digit_char a) (String (digit_char b)
      (String (digit_char c) (String (digit_char d) ""))).
Proof. intros Ha Hb Hc Hd. digits_of_number. Qed.

Lemma fixed_digits_5 (a b c d e : Z) :
  0 <= a <= 9 -> 0 <= b <= 9 -> 0 <= c <= 9 -> 0 <= d <= 9 -> 0 <= e <= 9 ->
  fixed_digits 5 (10000 * a + 1000 * b + 100 * c + 10 * d + e)
  = String (digit_char a) (String (digit_char b) (String (digit_char c)
      (String (digit_char d) (String (digit_char e) "")))).
Proof. intros Ha Hb Hc Hd He. digits_of_number. Qed.

Lemma fixed_digits_6 (a b c d e f : Z) :
  0 <= a <= 9 -> 0 <= b <= 9 -> 0 <= c <= 9 -> 0 <= d <= 9 -> 0 <= e <= 9 ->
  0 <= f <= 9 ->
  fixed_digits 6 (100000 * a + 10000 * b + 1000 * c + 100 * d + 10 * e + f)
  = String (digit_char a) (String (digit_char b) (String (digit_char c)
      (String (digit_char d) (String (digit_char e) (String (digit_char f) ""))))).
Proof. intros Ha Hb Hc Hd He Hf. digits_of_number. Qed.

(** *** One or two digits *)

Lemma getnum_fixed_inv (v v' : string) (n : Z) :
  time.getnum v true = Some (n, v') ->
  0 <= n <= 99 /\ v = (fixed_digits 2 n ++ v')%string.
Proof.
  unfold time.getnum. intros H.
  destruct v as [| c0 [| c1 r]]; try discriminate H.
  - destruct (isDigit c0); discriminate H.
  - destruct (isDigit c0) eqn:E0; [ | discriminate H ].
    destruct (isDigit c1) eqn:E1; [ | discriminate H ].
    injection H as <- <-.
    destruct (isDigit_inv c0 E0) as [a [Ha ->]].
    destruct (isDigit_inv c1 E1) as [b [Hb ->]].
    rewrite !digit_val_digit_char by assumption.
    split; [ lia | ]. now rewrite fixed_digits_2 by assumption.
Qed.

Lemma getnum_fixed_digits (n : Z) (v : string) (fixed : bool) :
  0 <= n <= 99 ->
  time.getnum (fixed_digits 2 n ++ v) fixed = Some (n, v).
Proof.
  intros Hn. cbn [fixed_digits String.append].
  rewrite getnum_two_digits by (Z.to_euclidean_division_equations; lia).
  f_equal. f_equal. Z.to_euclidean_division_equations; lia.
Qed.

Lemma getnum_free_inv (v v' : string) (n : Z) :
  time.getnum v false = Some (n, v') ->
  (0 <= n <= 99 /\ v = (fixed_digits 2 n ++ v')%string)
  \/ (0 <= n <= 9 /\ v = (fixed_digits 1 n ++ v')%string).
Proof.
  unfold time.getnum. intros H.
  destruct v as [| c0 r0]; [ discriminate H | ].
  destruct (isDigit c0) eqn:E0; [ | discriminate H ].
  destruct (isDigit_inv c0 E0) as [a [Ha ->]].
  assert (Hone : Some (digit_val (digit_char a), r0) = Some (n, v') ->
                 0 <= n <= 9 /\ String (digit_char a) r0
                                = (fixed_digits 1 n ++ v')%string).
  { rewrite digit_val_digit_char by assumption. intros Hs.
    injection Hs as <- <-. split; [ lia | ].
    now rewrite fixed_digits_1 by assumption. }
  destruct r0 as [| c1 r]; [ right; exact (Hone H) | ].
  destruct (isDigit c1) eqn:E1; [ | right; exact (Hone H) ].
  left. injection H as <- <-.
  destruct (isDigit_inv c1 E1) as [b [Hb ->]].
  rewrite !digit_val_digit_char by assumption.
  split; [ lia | ]. now rewrite fixed_digits_2 by assumption.
Qed.

Lemma getnum_one_digit (n : Z) (v : string) :
  0 <= n <= 9 ->
  time.getnum (fixed_digits 1 n ++ String ":" v) false = Some (n, String ":" v).
Proof.
  intros Hn. rewrite fixed_digits_1 by assumption. cbn [String.append].
  unfold time.getnum.
  rewrite isDigit_digit_char, digit_val_digit_char by assumption.
  reflexivity.
Qed.

(** *** Literal text *)

Lemma skip_char_inv (c : ascii) (v v' : string) :
  Ascii.eqb c " " = false ->
  time.skip v (String c "") = Some v' -> v = String c v'.
Proof.
  intros Hc. unfold time.skip. cbn [String.length time.skip_loop].
  rewrite Hc. destruct v as [| v0 r]; [ discriminate | ].
  destruct (Ascii.eqb_spec v0 c) as [-> | _]; [ | discriminate ].
  intros H. now injection H as ->.
Qed.

Lemma parse_Lit_inv (c : ascii) (rest : list time.chunk) (f f' : time.fields)
    (v v' : string) :
  Ascii.eqb c " " = false ->
  time.parse_chunk (time.Lit (String c "")) rest f v = Some (f', v') ->
  f' = f /\ v = String c v'.
Proof.
  intros Hc. cbn [time.parse_chunk].
  destruct (time.skip v (String c "")) as [w |] eqn:E; [ | discriminate ].
  intros H. injection H as <- <-. split; [ reflexivity | ].
  exact (skip_char_inv c v w Hc E).
Qed.

Lemma parse_Lit_char (c : ascii) (rest : list time.chunk) (f : time.fields)
    (v : string) :
  Ascii.eqb c " " = false ->
  time.parse_chunk (time.Lit (String c "")) rest f (String c v) = Some (f, v).
Proof.
  intros Hc. cbn [time.parse_chunk]. unfold time.skip.
  cbn [String.length time.skip_loop]. now rewrite Hc, Ascii.eqb_refl.
Qed.

(** *** Runs of spaces *)

Lemma cutspace_run (r : string) :
  exists n, r = (spaces n ++ time.cutspace r)%string.
Proof.
  induction r as [| c r [n IH]].
  - now exists O.
  - cbn [time.cutspace]. destruct (Ascii.eqb_spec c " ") as [-> | _].
    + exists (S n). cbn [spaces String.append]. now rewrite <- IH.
    + now exists O.
Qed.

Lemma cutspace_spaces (n : nat) (v : string) :
  time.cutspace v = v -> time.cutspace (spaces n ++ v) = v.
Proof.
  intros Hv. induction n as [| n IH]; [ exact Hv | ].
  cbn [spaces String.append time.cutspace]. exact IH.
Qed.

Lemma skip_space_eq (v : string) :
  time.skip v " "
  = match v with
    | String v0 _ =>
        if negb (Ascii.eqb v0 " ") then None else Some (time.cutspace v)
    | EmptyString => Some ""
    end.
Proof. destruct v as [| v0 r]; [ reflexivity | ]. unfold time.skip. cbn.
  destruct (negb _); reflexivity. Qed.

Lemma parse_space_inv (rest : list time.chunk) (f f' : time.fields)
    (v v' : string) :
  time.parse_chunk (time.Lit " ") rest f v = Some (f', v') ->
  f' = f /\ ((v = "" /\ v' = "")
             \/ exists n, v = (spaces (S n) ++ v')%string).
Proof.
  cbn [time.parse_chunk]. rewrite skip_space_eq.
  destruct v as [| v0 r].
  - intros H. injection H as <- <-. split; [ reflexivity | now left ].
  - destruct (Ascii.eqb_spec v0 " ") as [-> | _]; [ | discriminate ].
    cbn [negb time.cutspace Ascii.eqb Bool.eqb andb].
    intros H. injection H as <- <-. split; [ reflexivity | right ].
    destruct (cutspace_run r) as [n Hn]. exists n.
    cbn [spaces String.append]. now rewrite <- Hn.
Qed.

Lemma parse_space_run (rest : list time.chunk) (f : time.fields) (n : nat)
    (v : string) :
  time.cutspace v = v ->
  time.parse_chunk (time.Lit " ") rest f (spaces (S n) ++ v) = Some (f, v).
Proof.
  intros Hv. cbn [time.parse_chunk]. rewrite skip_space_eq.
  cbn [spaces String.append negb Ascii.eqb Bool.eqb andb time.cutspace].
  now rewrite (cutspace_spaces n v Hv).
Qed.

Lemma cutspace_digit (a : Z) (v : string) :
  0 <= a <= 9 ->
  time.cutspace (String (digit_char a) v) = String (digit_char a) v.
Proof.
  intros Ha. destruct (digit_char_not_sign a Ha) as [_ [_ Hsp]].
  cbn [time.cutspace]. now rewrite Hsp.
Qed.

(** *** Numbers with a sign *)

Lemma leadingInt_all_digits (s : string) :
  forall x q, time.leadingInt s x = Some (q, "") -> all_digits s = true.
Proof.
  induction s as [| c r IH]; intros x q H; [ reflexivity | ].
  cbn [time.leadingInt] in H. cbn [all_digits].
  destruct (isDigit c); [ | discriminate H ].
  destruct (x >? 2 ^ 63 / 10); [ discriminate H | ].
  cbv zeta in H.
  destruct (x * 10 + digit_val c >? 2 ^ 63); [ discriminate H | ].
  now rewrite (IH _ _ H).
Qed.

(** [atoi] reads digits only, after one sign at most. *)
Lemma atoi_inv (s : string) (n : Z) :
  time.atoi s = Some n ->
  all_digits s = true
  \/ exists body, all_digits body = true
                  /\ (s = String "+" body \/ s = String "-" body).
Proof.
  unfold time.atoi. intros H.
  assert (Hbody : forall (neg : bool) (body : string),
             match time.leadingInt body 0 with
             | Some (q, EmptyString) =>
                 let x := int64 q in Some (if neg then int64 (- x) else x)
             | _ => None
             end = Some n -> all_digits body = true).
  { intros neg body Hb.
    destruct (time.leadingInt body 0) as [[q rem] |] eqn:E; [ | discriminate Hb ].
    destruct rem; [ | discriminate Hb ].
    exact (leadingInt_all_digits body 0 q E). }
  destruct s as [| c r]; [ now left | ].
  destruct (Ascii.eqb_spec c "-") as [-> | _].
  - right. exists r. split; [ exact (Hbody true r H) | now right ].
  - destruct (Ascii.eqb_spec c "+") as [-> | _].
    + right. exists r. split; [ exact (Hbody false r H) | now left ].
    + left. exact (Hbody false (String c r) H).
Qed.

Lemma atoi_six_digits (a b c d e f : Z) :
  0 <= a <= 9 -> 0 <= b <= 9 -> 0 <= c <= 9 -> 0 <= d <= 9 ->
  0 <= e <= 9 -> 0 <= f <= 9 ->
  time.atoi (String (digit_char a) (String (digit_char b)
      (String (digit_char c) (String (digit_char d) (String (digit_char e)
        (String (digit_char f) ""))))))
  = Some (100000 * a + 10000 * b + 1000 * c + 100 * d + 10 * e + f).
Proof.
  intros Ha Hb Hc Hd He Hf. unfold time.atoi.
  destruct (digit_char_not_sign a Ha) as [-> [-> _]]. cbn [orb].
  cbn -[Z.pow Z.div Z.mul Z.add Z.gtb].
  rewrite !isDigit_digit_char, !digit_val_digit_char by assumption.
  change (2 ^ 63 / 10) with 922337203685477580.
  change (2 ^ 63) with 9223372036854775808.
  decide_gtb.
  rewrite int64_in_range by (unfold in_signed; lia).
  f_equal. lia.
Qed.

Lemma atoi_signed_five_digits (neg : bool) (a b c d e : Z) :
  0 <= a <= 9 -> 0 <= b <= 9 -> 0 <= c <= 9 -> 0 <= d <= 9 -> 0 <= e <= 9 ->
  time.atoi (String (if neg then "-"%char else "+"%char)
      (String (digit_char a) (String (digit_char b)
      (String (digit_char c) (String (digit_char d) (String (digit_char e) ""))))))
  = Some (let n := 10000 * a + 1000 * b + 100 * c + 10 * d + e in
          if neg then - n else n).
Proof.
  intros Ha Hb Hc Hd He. unfold time.atoi.
  assert (Hs : forall body : string,
             match String (if neg then "-"%char else "+"%char) body with
             | String c0 r =>
                 if Ascii.eqb c0 "-" || Ascii.eqb c0 "+"
                 then (Ascii.eqb c0 "-", r)
                 else (false, String (if neg then "-"%char else "+"%char) body)
             | EmptyString => (false, String (if neg then "-"%char else "+"%char) body)
             end = (neg, body)) by (intros body; destruct neg; reflexivity).
  rewrite Hs.
  cbn -[Z.pow Z.div Z.mul Z.add Z.gtb Z.opp].
  rewrite !isDigit_digit_char, !digit_val_digit_char by assumption.
  change (2 ^ 63 / 10) with 922337203685477580.
  change (2 ^ 63) with 9223372036854775808.
  decide_gtb.
  rewrite (int64_in_range (_ + e)) by (unfold in_signed; lia).
  destruct neg; [ rewrite int64_in_range by (unfold in_signed; lia) | ];
    f_equal; lia.
Qed.

Ltac digits_of_chars :=
  repeat match goal with
         | H : isDigit ?c = true |- _ =>
             let k := fresh "k" in
             let Hk := fresh "Hk" in
             destruct (isDigit_inv c H) as [k [Hk ->]]; clear H
         end.

Ltac split_all_digits H :=
  cbn [all_digits] in H;
  repeat match type of H with
         | _ && _ = true =>
             let H1 := fresh "Hd" in
             apply andb_true_iff in H; destruct H as [H1 H]
         end.

(** From [Some a = Some n], with [n] a variable, to [a] in place of [n]. *)
Ltac read_number H :=
  match type of H with
  | Some ?a = Some ?n =>
      let Hn := fresh "Hn" in
      assert (Hn : n = a) by congruence; clear H; subst n
  end.

Lemma substring_all (s : string) : substring 0 (String.length s - 0) s = s.
Proof.
  rewrite Nat.sub_0_r.
  induction s as [| c s IH]; cbn; [ reflexivity | now rewrite IH ].
Qed.

Lemma substring_none (s : string) : substring 0 0 s = "".
Proof. destruct s; reflexivity. Qed.

(** *** The fields, one by one *)

Lemma parse_year_inv (rest : list time.chunk) (f f' : time.fields)
    (v v' : string) :
  time.parse_chunk time.stdLongYear rest f v = Some (f', v') ->
  exists y, 0 <= y <= 9999 /\ v = (fixed_digits 4 y ++ v')%string
            /\ f' = time.mkFields y (time.f_month f) (time.f_day f)
                      (time.f_hour f) (time.f_min f) (time.f_sec f)
                      (time.f_nsec f).
Proof.
  cbn [time.parse_chunk]. intros H.
  destruct v as [| c0 [| c1 [| c2 [| c3 r]]]];
    cbn [String.length Nat.ltb Nat.leb orb] in H; try discriminate H.
  destruct (isDigit c0) eqn:E0; cbn [negb] in H; [ | discriminate H ].
  cbn [substring String.length Nat.sub] in H.
  rewrite substring_all, substring_none in H.
  destruct (time.atoi _) as [y |] eqn:Ey; [ | discriminate H ].
  injection H as <- <-. exists y.
  destruct (atoi_inv _ _ Ey) as [Hall | [body [_ [Hs | Hs]]]].
  - split_all_digits Hall. clear E0. digits_of_chars.
    rewrite atoi_four_digits in Ey by assumption. read_number Ey.
    split; [ lia | ]. split; [ | reflexivity ].
    now rewrite fixed_digits_4 by assumption.
  - injection Hs as -> _. discriminate E0.
  - injection Hs as -> _. discriminate E0.
Qed.

Lemma parse_year_digits (rest : list time.chunk) (f : time.fields) (y : Z)
    (v : string) :
  0 <= y <= 9999 ->
  time.parse_chunk time.stdLongYear rest f (fixed_digits 4 y ++ v)
  = Some (time.mkFields y (time.f_month f) (time.f_day f) (time.f_hour f)
            (time.f_min f) (time.f_sec f) (time.f_nsec f), v).
Proof.
  intros Hy. cbn [fixed_digits String.append time.parse_chunk].
  cbn [String.length Nat.ltb Nat.leb orb substring Nat.sub].
  rewrite substring_all, substring_none.
  rewrite isDigit_digit_char by (Z.to_euclidean_division_equations; lia).
  cbn [negb].
  rewrite atoi_four_digits by (Z.to_euclidean_division_equations; lia).
  f_equal. f_equal. f_equal. Z.to_euclidean_division_equations; lia.
Qed.

Ltac read_range H :=
  repeat match type of H with
         | context [?a <=? ?b] => destruct (Z.leb_spec a b)
         | context [?a <? ?b] => destruct (Z.ltb_spec a b)
         end;
  cbn [orb] in H; try discriminate H.

Lemma parse_month_inv (rest : list time.chunk) (f f' : time.fields)
    (v v' : string) :
  time.parse_chunk time.stdZeroMonth rest f v = Some (f', v') ->
  exists m, 1 <= m <= 12 /\ v = (fixed_digits 2 m ++ v')%string
            /\ f' = time.mkFields (time.f_year f) m (time.f_day f)
                      (time.f_hour f) (time.f_min f) (time.f_sec f)
                      (time.f_nsec f).
Proof.
  cbn [time.parse_chunk]. intros H.
  destruct (time.getnum v true) as [[m w] |] eqn:E; [ | discriminate H ].
  apply getnum_fixed_inv in E as [Hm ->].
  read_range H. injection H as <- <-. exists m.
  split; [ lia | ]. split; reflexivity.
Qed.

Lemma parse_day_inv (rest : list time.chunk) (f f' : time.fields)
    (v v' : string) :
  time.parse_chunk time.stdZeroDay rest f v = Some (f', v') ->
  exists d, 0 <= d <= 99 /\ v = (fixed_digits 2 d ++ v')%string
            /\ f' = time.mkFields (time.f_year f) (time.f_month f) d
                      (time.f_hour f) (time.f_min f) (time.f_sec f)
                      (time.f_nsec f).
Proof.
  cbn [time.parse_chunk]. intros H.
  destruct (time.getnum v true) as [[d w] |] eqn:E; [ | discriminate H ].
  apply getnum_fixed_inv in E as [Hd ->].
  injection H as <- <-. exists d.
  split; [ lia | ]. split; reflexivity.
Qed.

Lemma parse_hour_inv (rest : list time.chunk) (f f' : time.fields)
    (v v' : string) :
  time.parse_chunk time.stdHour rest f v = Some (f', v') ->
  exists h ht, 0 <= h <= 23 /\ hour_text h ht /\ v = (ht ++ v')%string
               /\ f' = time.mkFields (time.f_year f) (time.f_month f)
                         (time.f_day f) h (time.f_min f) (time.f_sec f)
                         (time.f_nsec f).
Proof.
  cbn [time.parse_chunk]. intros H.
  destruct (time.getnum v false) as [[h w] |] eqn:E; [ | discriminate H ].
  read_range H. injection H as <- <-.
  apply getnum_free_inv in E as [[Hh ->] | [Hh ->]].
  - exists h, (fixed_digits 2 h). split; [ lia | ].
    split; [ now left | ]. split; reflexivity.
  - exists h, (fixed_digits 1 h). split; [ lia | ].
    split; [ right; split; [ lia | reflexivity ] | ]. split; reflexivity.
Qed.

Lemma parse_minute_inv (rest : list time.chunk) (f f' : time.fields)
    (v v' : string) :
  time.parse_chunk time.stdZeroMinute rest f v = Some (f', v') ->
  exists m, 0 <= m <= 59 /\ v = (fixed_digits 2 m ++ v')%string
            /\ f' = time.mkFields (time.f_year f) (time.f_month f)
                      (time.f_day f) (time.f_hour f) m (time.f_sec f)
                      (time.f_nsec f).
Proof.
  cbn [time.parse_chunk]. intros H.
  destruct (time.getnum v true) as [[m w] |] eqn:E; [ | discriminate H ].
  apply getnum_fixed_inv in E as [Hm ->].
  read_range H. injection H as <- <-. exists m.
  split; [ lia | ]. split; reflexivity.
Qed.

(** Before a fraction that the layout asks for, the seconds are read as
    any other field. *)
Lemma parse_second_eq (n : nat) (rest : list time.chunk) (f : time.fields)
    (v : string) :
  time.parse_chunk time.stdZeroSecond (time.stdFracSecond0 n :: rest) f v
  = match time.getnum v true with
    | Some (s, v') =>
        if (s <? 0) || (60 <=? s) then None
        else Some (time.mkFields (time.f_year f) (time.f_month f)
                     (time.f_day f) (time.f_hour f) (time.f_min f) s
                     (time.f_nsec f), v')
    | None => None
    end.
Proof.
  cbn [time.parse_chunk time.nextStd].
  destruct (time.getnum v true) as [[s w] |]; [ | reflexivity ].
  destruct ((s <? 0) || (60 <=? s)); [ reflexivity | ].
  destruct w as [| v0 [| v1 r]]; try reflexivity.
  destruct (time.commaOrPeriod v0 && isDigit v1); reflexivity.
Qed.

Lemma parse_second_inv (n : nat) (rest : list time.chunk) (f f' : time.fields)
    (v v' : string) :
  time.parse_chunk time.stdZeroSecond (time.stdFracSecond0 n :: rest) f v
  = Some (f', v') ->
  exists s, 0 <= s <= 59 /\ v = (fixed_digits 2 s ++ v')%string
            /\ f' = time.mkFields (time.f_year f) (time.f_month f)
                      (time.f_day f) (time.f_hour f) (time.f_min f) s
                      (time.f_nsec f).
Proof.
  rewrite parse_second_eq. intros H.
  destruct (time.getnum v true) as [[s w] |] eqn:E; [ | discriminate H ].
  apply getnum_fixed_inv in E as [Hs ->].
  read_range H. injection H as <- <-. exists s.
  split; [ lia | ]. split; reflexivity.
Qed.

(** The fraction: seven bytes, of which the last six are read as a number
    with [atoi], sign and all. *)
Lemma parse_fraction_inv (rest : list time.chunk) (f f' : time.fields)
    (v v' : string) :
  time.parse_chunk (time.stdFracSecond0 6) rest f v = Some (f', v') ->
  exists us fr, fraction_text us fr /\ v = (fr ++ v')%string
                /\ f' = time.mkFields (time.f_year f) (time.f_month f)
                          (time.f_day f) (time.f_hour f) (time.f_min f)
                          (time.f_sec f) (us * 1000).
Proof.
  cbn [time.parse_chunk]. intros H.
  destruct v as [| c0 [| c1 [| c2 [| c3 [| c4 [| c5 [| c6 r]]]]]]];
    cbn [String.length Nat.ltb Nat.leb] in H; try discriminate H.
  unfold time.parseNanoseconds in H.
  destruct (time.commaOrPeriod c0) eqn:Esep; [ | discriminate H ].
  cbn [Nat.min Nat.sub substring String.length] in H.
  rewrite substring_all, substring_none in H.
  destruct (time.atoi _) as [ns |] eqn:Ens; [ | discriminate H ].
  destruct (Z.ltb_spec ns 0) as [ | Hns]; [ discriminate H | ].
  injection H as <- <-.
  change (10 ^ Z.of_nat (10 - 7)) with 1000.
  assert (Hsep : c0 = "."%char \/ c0 = ","%char).
  { unfold time.commaOrPeriod in Esep. apply orb_true_iff in Esep.
    destruct Esep as [E | E]; apply Ascii.eqb_eq in E; tauto. }
  exists ns.
  destruct (atoi_inv _ _ Ens) as [Hall | [body [Hall [Hs | Hs]]]].
  - split_all_digits Hall. digits_of_chars.
    rewrite atoi_six_digits in Ens by assumption. read_number Ens.
    eexists. split; [ exists c0; split; [ exact Hsep | left; split; [ lia | reflexivity ] ] | ].
    split; [ | reflexivity ].
    now rewrite fixed_digits_6 by assumption.
  - injection Hs as -> <-. split_all_digits Hall. digits_of_chars.
    rewrite (atoi_signed_five_digits false) in Ens by assumption.
    cbv zeta in Ens. read_number Ens.
    eexists. split; [ exists c0; split; [ exact Hsep | right; left; split; [ lia | reflexivity ] ] | ].
    split; [ | reflexivity ].
    now rewrite fixed_digits_5 by assumption.
  - injection Hs as -> <-. split_all_digits Hall. digits_of_chars.
    rewrite (atoi_signed_five_digits true) in Ens by assumption.
    cbv zeta in Ens. read_number Ens.
    assert (k3 = 0 /\ k2 = 0 /\ k1 = 0 /\ k0 = 0 /\ k = 0) as (-> & -> & -> & -> & ->)
      by lia.
    eexists. split; [ exists c0; split; [ exact Hsep | right; right; split; reflexivity ] | ].
    split; reflexivity.
Qed.

Lemma parse_fraction_text (rest : list time.chunk) (f : time.fields) (us : Z)
    (fr : string) :
  fraction_text us fr ->
  time.parse_chunk (time.stdFracSecond0 6) rest f fr
  = Some (time.mkFields (time.f_year f) (time.f_month f) (time.f_day f)
            (time.f_hour f) (time.f_min f) (time.f_sec f) (us * 1000), "").
Proof.
  intros [sep [Hsep Hfr]].
  assert (Hcp : time.commaOrPeriod sep = true)
    by (destruct Hsep as [-> | ->]; reflexivity).
  cbn [time.parse_chunk].
  destruct Hfr as [[Hus ->] | [[Hus ->] | [-> ->]]].
  - cbn [fixed_digits String.append String.length Nat.ltb Nat.leb].
    unfold time.parseNanoseconds. rewrite Hcp.
    cbn [Nat.min Nat.sub substring String.length].
    rewrite atoi_six_digits by (Z.to_euclidean_division_equations; lia).
    match goal with
    | |- context [?x <? 0] =>
        destruct (Z.ltb_spec x 0);
        [ exfalso; Z.to_euclidean_division_equations; lia | ]
    end.
    change (10 ^ Z.of_nat (10 - 7)) with 1000.
    f_equal. f_equal. f_equal. f_equal.
    Z.to_euclidean_division_equations; lia.
  - cbn [fixed_digits String.append String.length Nat.ltb Nat.leb].
    unfold time.parseNanoseconds. rewrite Hcp.
    cbn [Nat.min Nat.sub substring String.length].
    rewrite (atoi_signed_five_digits false)
      by (Z.to_euclidean_division_equations; lia).
    cbv zeta.
    match goal with
    | |- context [?x <? 0] =>
        destruct (Z.ltb_spec x 0);
        [ exfalso; Z.to_euclidean_division_equations; lia | ]
    end.
    change (10 ^ Z.of_nat (10 - 7)) with 1000.
    f_equal. f_equal. f_equal. f_equal.
    Z.to_euclidean_division_equations; lia.
  - cbn [String.length Nat.ltb Nat.leb].
    unfold time.parseNanoseconds. rewrite Hcp. reflexivity.
Qed.

(** *** The whole layout *)

Lemma parse_loop_cons_inv (c : time.chunk) (rest : list time.chunk)
    (f : time.fields) (v : string) (r : time.fields * string) :
  time.parse_loop (c :: rest) f v = Some r ->
  exists f' v', time.parse_chunk c rest f v = Some (f', v')
                /\ time.parse_loop rest f' v' = Some r.
Proof.
  cbn [time.parse_loop].
  destruct (time.parse_chunk c rest f v) as [[f' v'] |]; [ | discriminate ].
  intros H. now exists f', v'.
Qed.

Lemma parse_loop_cons (c : time.chunk) (rest : list time.chunk)
    (f f' : time.fields) (v v' : string) (r : option (time.fields * string)) :
  time.parse_chunk c rest f v = Some (f', v') ->
  time.parse_loop rest f' v' = r ->
  time.parse_loop (c :: rest) f v = r.
Proof. intros Hc Hr. cbn [time.parse_loop]. now rewrite Hc. Qed.

Ltac read_fields Hf f :=
  cbn [time.f_year time.f_month time.f_day time.f_hour time.f_min
       time.f_sec time.f_nsec time.fields0] in Hf;
  subst f.

(** Whatever [time.Parse] accepts under the layout is an admitted text,
    and the time is that of its fields. *)
Lemma Parse_admitted (text : string) (t : Time) :
  time.Parse sql.timestampLayout text = Some t ->
  exists y mo d h mi s us,
    admitted_text y mo d h mi s us text
    /\ t = time.Date_UTC y mo d h mi s (us * 1000).
Proof.
  unfold time.Parse. intros H.
  destruct (time.parse_loop _ _ _) as [[f v] |] eqn:E; [ | discriminate H ].
  destruct v; [ | discriminate H ].
  destruct (_ || _) eqn:Hday; [ discriminate H | ]. injection H as <-.
  unfold sql.timestampLayout in E.
  apply parse_loop_cons_inv in E as (f1 & v1 & C & E).
  apply parse_year_inv in C as (y & Hy & -> & Hf). read_fields Hf f1.
  apply parse_loop_cons_inv in E as (f2 & v2 & C & E).
  apply parse_Lit_inv in C as [-> ->]; [ | reflexivity ].
  apply parse_loop_cons_inv in E as (f3 & v3 & C & E).
  apply parse_month_inv in C as (mo & Hmo & -> & Hf). read_fields Hf f3.
  apply parse_loop_cons_inv in E as (f4 & v4 & C & E).
  apply parse_Lit_inv in C as [-> ->]; [ | reflexivity ].
  apply parse_loop_cons_inv in E as (f5 & v5 & C & E).
  apply parse_day_inv in C as (d & Hd & -> & Hf). read_fields Hf f5.
  apply parse_loop_cons_inv in E as (f6 & v6 & C & E).
  apply parse_space_inv in C as [-> Hsp].
  apply parse_loop_cons_inv in E as (f7 & v7 & C & E).
  apply parse_hour_inv in C as (h & ht & Hh & Hht & Hv6 & Hf).
  read_fields Hf f7.
  destruct Hsp as [[_ ->] | [n ->]].
  { exfalso. destruct Hht as [-> | [_ ->]]; discriminate Hv6. }
  subst v6.
  apply parse_loop_cons_inv in E as (f8 & v8 & C & E).
  apply parse_Lit_inv in C as [-> ->]; [ | reflexivity ].
  apply parse_loop_cons_inv in E as (f9 & v9 & C & E).
  apply parse_minute_inv in C as (mi & Hmi & -> & Hf). read_fields Hf f9.
  apply parse_loop_cons_inv in E as (f10 & v10 & C & E).
  apply parse_Lit_inv in C as [-> ->]; [ | reflexivity ].
  apply parse_loop_cons_inv in E as (f11 & v11 & C & E).
  apply parse_second_inv in C as (s & Hs & -> & Hf). read_fields Hf f11.
  apply parse_loop_cons_inv in E as (f12 & v12 & C & E).
  apply parse_fraction_inv in C as (us & fr & Hfr & -> & Hf).
  read_fields Hf f12.
  cbn [time.parse_loop] in E. injection E as <- ->.
  cbn [time.f_year time.f_month time.f_day time.f_hour time.f_min
       time.f_sec time.f_nsec] in Hday |- *.
  apply orb_false_iff in Hday as [Hd1 Hd2].
  apply Z.ltb_ge in Hd1. rewrite Z.gtb_ltb in Hd2. apply Z.ltb_ge in Hd2.
  exists y, mo, d, h, mi, s, us. split; [ | reflexivity ].
  repeat (split; [ lia | ]).
  exists n, ht, fr. split; [ exact Hht | ]. split; [ exact Hfr | ].
  now rewrite string_app_empty_r.
Qed.

Lemma cutspace_hour_text (h : Z) (ht v : string) :
  0 <= h <= 23 -> hour_text h ht ->
  time.cutspace (ht ++ v) = (ht ++ v)%string.
Proof.
  intros Hh [-> | [H9 ->]]; cbn [fixed_digits String.append];
    apply cutspace_digit; Z.to_euclidean_division_equations; lia.
Qed.

Lemma getnum_hour_text (h : Z) (ht v : string) :
  0 <= h <= 23 -> hour_text h ht ->
  time.getnum (ht ++ String ":" v) false = Some (h, String ":" v).
Proof.
  intros Hh [-> | [H9 ->]].
  - apply getnum_fixed_digits. lia.
  - apply getnum_one_digit. lia.
Qed.

(** Every admitted text is parsed, to the UTC time of its fields. *)
Lemma admitted_Parse (y mo d h mi s us : Z) (text : string) :
  admitted_text y mo d h mi s us text ->
  time.Parse sql.timestampLayout text
  = Some (time.Date_UTC y mo d h mi s (us * 1000)).
Proof.
  intros (Hy & Hmo & Hd & Hh & Hmi & Hs & n & ht & fr & Hht & Hfr & ->).
  pose proof (daysIn_le_31 mo y Hmo) as H31.
  unfold time.Parse, sql.timestampLayout.
  assert (Hloop :
    time.parse_loop
      [time.stdLongYear; time.Lit "-"; time.stdZeroMonth; time.Lit "-";
       time.stdZeroDay; time.Lit " "; time.stdHour; time.Lit ":";
       time.stdZeroMinute; time.Lit ":"; time.stdZeroSecond;
       time.stdFracSecond0 6] time.fields0
      (fixed_digits 4 y ++ "-" ++ fixed_digits 2 mo ++ "-"
       ++ fixed_digits 2 d ++ spaces (S n) ++ ht ++ ":"
       ++ fixed_digits 2 mi ++ ":" ++ fixed_digits 2 s ++ fr)%string
    = Some (time.mkFields y mo d h mi s (us * 1000), "")).
  { cbn [String.append].
    eapply parse_loop_cons; [ apply parse_year_digits; lia | ].
    eapply parse_loop_cons; [ apply parse_Lit_char; reflexivity | ].
    eapply parse_loop_cons.
    { cbn [time.parse_chunk]. rewrite getnum_fixed_digits by lia.
      decide_Z_tests. cbn [orb]. reflexivity. }
    eapply parse_loop_cons; [ apply parse_Lit_char; reflexivity | ].
    eapply parse_loop_cons.
    { cbn [time.parse_chunk]. rewrite getnum_fixed_digits by lia.
      reflexivity. }
    eapply parse_loop_cons.
    { apply parse_space_run. exact (cutspace_hour_text h ht _ Hh Hht). }
    eapply parse_loop_cons.
    { cbn [time.parse_chunk]. rewrite (getnum_hour_text h ht _ Hh Hht).
      decide_Z_tests. cbn [orb]. reflexivity. }
    eapply parse_loop_cons; [ apply parse_Lit_char; reflexivity | ].
    eapply parse_loop_cons.
    { cbn [time.parse_chunk]. rewrite getnum_fixed_digits by lia.
      decide_Z_tests. cbn [orb]. reflexivity. }
    eapply parse_loop_cons; [ apply parse_Lit_char; reflexivity | ].
    eapply parse_loop_cons.
    { rewrite parse_second_eq, getnum_fixed_digits by lia.
      decide_Z_tests. cbn [orb]. reflexivity. }
    eapply parse_loop_cons; [ exact (parse_fraction_text _ _ us fr Hfr) | ].
    reflexivity. }
  rewrite Hloop.
  cbn [time.f_year time.f_month time.f_day time.f_hour time.f_min
       time.f_sec time.f_nsec].
  decide_Z_tests. reflexivity.
Qed.

(** The text of fields in range, in the layout's own format, is admitted. *)
Lemma timestamp_text_admitted (y mo d h mi s us : Z) :
  valid_fields y mo d h mi s us ->
  admitted_text y mo d h mi s us (timestamp_text y mo d h mi s us).
Proof.
  intros (Hy & Hmo & Hd & Hh & Hmi & Hs & Hus).
  repeat (split; [ assumption | ]).
  exists O, (fixed_digits 2 h), (String "." (fixed_digits 6 us)).
  split; [ now left | ].
  split; [ exists "."%char; split; [ now left | left; now split ] | ].
  reflexivity.
Qed.

(** ** Conversion to a timestamp *)


(** The default case lets an [int64] through and nothing else: the guard
    is [BigInteger.Check], which looks at the dynamic type only. *)
Lemma convertToTimestamp_default (v : value) :
  is_timestamp_source v = false ->
  sql.convertToTimestamp v = Fail ErrInvalidType.
Proof. destruct v; intros H; try discriminate H; reflexivity. Qed.

(** Of text, [convertToTimestamp] converts the admitted ones and no
    other. *)
Lemma convertToTimestamp_text (text : string) :
  (forall c,
     sql.convertToTimestamp (VString text) = Ret c
     <-> exists y mo d h mi s us,
           admitted_text y mo d h mi s us text
           /\ c = VTime (time.Date_UTC y mo d h mi s (us * 1000)))
  /\ (sql.convertToTimestamp (VString text)
      = Fail (ErrCantConvert (VString text) "time.Time")
      <-> ~ exists y mo d h mi s us, admitted_text y mo d h mi s us text).
Proof.
  unfold sql.convertToTimestamp.
  destruct (time.Parse sql.timestampLayout text) as [t |] eqn:E.
  - destruct (Parse_admitted text t E)
      as (y & mo & d & h & mi & s & us & Hadm & ->).
    split.
    + intros c. split.
      * intros Hc. injection Hc as <-. now exists y, mo, d, h, mi, s, us.
      * intros (y' & mo' & d' & h' & mi' & s' & us' & Hadm' & ->).
        rewrite (admitted_Parse _ _ _ _ _ _ _ _ Hadm') in E. congruence.
    + split; [ discriminate | ].
      intros Hno. contradiction Hno. now exists y, mo, d, h, mi, s, us.
  - split.
    + intros c. split; [ discriminate | ].
      intros (y & mo & d & h & mi & s & us & Hadm & _).
      rewrite (admitted_Parse _ _ _ _ _ _ _ _ Hadm) in E. discriminate E.
    + split; [ | reflexivity ].
      intros _ (y & mo & d & h & mi & s & us & Hadm).
      rewrite (admitted_Parse _ _ _ _ _ _ _ _ Hadm) in E. discriminate E.
Qed.

(** C5, as the code has it.  [TimestampWithTimezone.Convert] succeeds on
    every timestamp value (returned as it is), on every text
    [YYYY-MM-DD HH:MM:SS.ffffff] whose fields are in range (the UTC time of
    these fields), and on every [int64] (that many seconds since the Unix
    epoch).  Of text it converts exactly what [time.Parse] admits under
    the layout, which is that format and, besides, a one-digit hour, a
    run of spaces for the space, a comma for the point and a fraction
    written as a sign and five digits; on every other text it fails with
    a conversion error.  On every other input it fails with
    [ErrInvalidType], the integers of any other type among them. *)
Theorem Timestamp_Convert_sources :
  (forall t, sql.timestampWithTimeZoneType.Convert (VTime t) = Ret (VTime t))
  /\ (forall y mo d h mi s us,
        valid_fields y mo d h mi s us ->
        sql.timestampWithTimeZoneType.Convert
          (VString (timestamp_text y mo d h mi s us))
        = Ret (VTime (time.Date_UTC y mo d h mi s (us * 1000))))
  /\ (forall n, sql.timestampWithTimeZoneType.Convert (VInt64 n)
                = Ret (VTime (time.Unix n 0)))
  /\ (forall text c,
        sql.timestampWithTimeZoneType.Convert (VString text) = Ret c
        <-> exists y mo d h mi s us,
              admitted_text y mo d h mi s us text
              /\ c = VTime (time.Date_UTC y mo d h mi s (us * 1000)))
  /\ (forall text,
        sql.timestampWithTimeZoneType.Convert (VString text)
        = Fail (ErrCantConvert (VString text) "time.Time")
        <-> ~ exists y mo d h mi s us, admitted_text y mo d h mi s us text)
  /\ (forall v, is_timestamp_source v = false ->
                sql.timestampWithTimeZoneType.Convert v = Fail ErrInvalidType).
Proof.
  unfold sql.timestampWithTimeZoneType.Convert.
  split; [ reflexivity | ].
  split.
  { intros y mo d h mi s us Hv.
    apply (proj1 (convertToTimestamp_text _)).
    exists y, mo, d, h, mi, s, us.
    split; [ exact (timestamp_text_admitted y mo d h mi s us Hv) | reflexivity ]. }
  split; [ reflexivity | ].
  split; [ intros text; exact (proj1 (convertToTimestamp_text text)) | ].
  split; [ intros text; exact (proj2 (convertToTimestamp_text text)) | ].
  exact convertToTimestamp_default.
Qed.

Lemma digit_char_not_plus (n : Z) : digit_char (n mod 10) <> "+"%char.
Proof.
  assert (Hn : 0 <= n mod 10 <= 9) by (Z.to_euclidean_division_equations; lia).
  each_digit (n mod 10) Hn; intros H; vm_compute in H; discriminate H.
Qed.

(** An [int32] is an integer, and it is not converted; a text with a sign
    in its fraction is not in the format [YYYY-MM-DD HH:MM:SS.ffffff],
    and it is converted. *)
Lemma Timestamp_Convert_rejects_int32_admits_sign :
  (wf_value (VInt32 0)
   /\ int_value (VInt32 0) = Some 0
   /\ sql.timestampWithTimeZoneType.Convert (VInt32 0) = Fail ErrInvalidType
   /\ ~ returns (sql.timestampWithTimeZoneType.Convert (VInt32 0)))
  /\ ((forall y mo d h mi s us,
         timestamp_text y mo d h mi s us <> "2023-01-02 15:04:05.+00000")
      /\ sql.timestampWithTimeZoneType.Convert
           (VString "2023-01-02 15:04:05.+00000")
         = Ret (VTime (time.Date_UTC 2023 1 2 15 4 5 0))
      /\ ~ fails (sql.timestampWithTimeZoneType.Convert
                    (VString "2023-01-02 15:04:05.+00000"))).
Proof.
  split.
  - split; [ unfold_ranges; lia | ].
    split; [ reflexivity | ].
    split; [ reflexivity | ].
    intros [c Hc]. discriminate Hc.
  - split.
    + intros y mo d h mi s us H.
      apply (f_equal (String.get 20)) in H.
      unfold timestamp_text in H.
      cbn [fixed_digits String.append String.get] in H.
      injection H as H. exact (digit_char_not_plus _ H).
    + split; [ reflexivity | ].
      intros [e He]. discriminate He.
Qed.

Example Timestamp_Convert_rejects_other_widths :
  Forall (fun v => sql.timestampWithTimeZoneType.Convert v = Fail ErrInvalidType)
    [VInt 0; VInt8 0; VInt16 0; VInt32 0; VUint 0; VUint8 0; VUint16 0;
     VUint32 0; VUint64 0].
Proof. repeat constructor. Qed.

Example Timestamp_Convert_malformed_text :
  Forall (fun s => sql.timestampWithTimeZoneType.Convert (VString s)
                   = Fail (ErrCantConvert (VString s) "time.Time"))
    ["2023-01-02"; "2023-01-02 15:04:05"; "2023-01-02T15:04:05.000000";
     "2023-02-29 15:04:05.000000"; "2023-13-02 15:04:05.000000";
     "2023-01-02 24:04:05.000000"; "2023-01-02 15:04:05.0000000";
     "23-01-02 15:04:05.000000"; "";
     "2023-01-02 15:60:05.000000"; "2023-01-02 15:04:60.000000";
     "2023-01-02 15:04:05.000000Z"; "2023-01-0215:04:05.000000";
     "2023-01-02 15:04:05.-00001"; "2023-01-02 15:04:05.00000";
     "2023-01-02 15:4:05.000000"; "2023-1-02 15:04:05.000000";
     "2023-00-02 15:04:05.000000"; "2023-01-00 15:04:05.000000";
     " 2023-01-02 15:04:05.000000"; "2023-01-02 15:04:05 .000000"].
Proof. repeat constructor. Qed.

(** Text outside the format [YYYY-MM-DD HH:MM:SS.ffffff] that the parser
    admits nevertheless. *)
Example Timestamp_Convert_admitted_text :
  Forall (fun s => sql.timestampWithTimeZoneType.Convert (VString s)
                   = Ret (VTime (time.Date_UTC 2023 1 2 5 4 5 0)))
    ["2023-01-02 5:04:05.000000"; "2023-01-02    05:04:05.000000";
     "2023-01-02 05:04:05,000000"; "2023-01-02 05:04:05.+00000";
     "2023-01-02 05:04:05.-00000"; "2023-01-02  5:04:05,+00000"].
Proof. repeat constructor. Qed.

(** ** Serialising a timestamp *)

Section Serialisation.

Context {R : Runtime}.


End Serialisation.

(** * Further properties of the catalogue *)

Ltac each_builtin HT :=
  destruct (builtin_cases _ HT)
    as [-> | [-> | [-> | [-> | [-> | [-> | [-> | ->]]]]]]].

Section CatalogueMethods.

Context {R : Runtime}.

Lemma Convert_result_checked (T : sql.Type_) (v c : value) :
  In T sql.builtin ->
  sql.Convert T v = Ret c -> sql.Check T c = Ret true.
Proof.
  intros HT Hc.
  each_builtin HT; each_value v; cbn in Hc; split_outcome Hc;
    try discriminate Hc; injection Hc as <-; reflexivity.
Qed.

Lemma canonical_form_checked (T : sql.Type_) (v : value) :
  canonical_form T v -> sql.Check T v = Ret true.
Proof.
  intros [[-> ->] | [[-> [n ->]] | [[-> [n ->]] | [[-> [t ->]]
         | [[-> [s ->]] | [[-> [b ->]] | [[-> [f ->]] | [-> [b ->]]]]]]]]];
    reflexivity.
Qed.

(** X1.  Whatever [Convert] returns is canonical: it passes [Check] of the same
    type, and converting it again returns it unchanged. *)
Theorem Convert_result_canonical (T : sql.Type_) (v c : value) :
  In T sql.builtin ->
  sql.Convert T v = Ret c ->
  sql.Check T c = Ret true /\ sql.Convert T c = Ret c.
Proof.
  intros HT Hc.
  pose proof (Convert_result_checked T v c HT Hc) as Hk.
  split; [ exact Hk | ].
  destruct (Check_canonical_form T c HT Hk)
    as [[-> ->] | [[-> [n ->]] | [[-> [n ->]] | [[-> [t ->]]
       | [[-> [s ->]] | [[-> [b ->]] | [[-> [f ->]] | [-> [b ->]]]]]]]]];
    reflexivity.
Qed.

(** X2.  The default value of every built-in type passes the type's own
    [Check], with one exception: [Float.Default()] is a [float64], which
    [Float.Check] rejects. *)
Theorem Default_canonical_except_Float (T : sql.Type_) :
  In T sql.builtin ->
  (T <> sql.Float -> sql.Check T (sql.Default T) = Ret true)
  /\ (T = sql.Float -> sql.Check T (sql.Default T) = Ret false).
Proof.
  intros HT. split.
  - intros HF. each_builtin HT; try reflexivity. contradiction HF. reflexivity.
  - intros ->. reflexivity.
Qed.

(** X3.  For the six types whose [SQL] goes through [MustConvert] and asserts
    the canonical type, [SQL] never returns an error: it returns a wire
    value exactly when [Convert] succeeds and panics otherwise, that is
    when [Convert] fails, with the error of [Convert] as the panic value,
    and when [Convert] itself panics, with the same panic value.
    [Convert] panics for [String] and [Blob] only, in the [String()]
    method of the value. *)
Theorem SQL_returns_iff_Convert_returns (T : sql.Type_) (v : value) :
  In T converting_types ->
  ~ fails (sql.SQL T v)
  /\ (returns (sql.SQL T v) <-> returns (sql.Convert T v))
  /\ (panics (sql.SQL T v)
      <-> fails (sql.Convert T v) \/ panics (sql.Convert T v))
  /\ (forall e, sql.Convert T v = Fail e ->
                sql.SQL T v = Panic (PanicError e))
  /\ (forall p, sql.Convert T v = Panic p -> sql.SQL T v = Panic p)
  /\ (panics (sql.Convert T v)
      <-> (T = sql.String \/ T = sql.Blob) /\ exists typ, v = VFaulty typ).
Proof.
  intros HT.
  assert (HB : In T sql.builtin).
  { unfold converting_types in HT. unfold sql.builtin. simpl in *. tauto. }
  pose proof (Convert_panics_iff T v HB) as Hpanic.
  destruct (sql.Convert T v) as [c | e | p] eqn:Hc.
  - pose proof (Convert_result_checked T v c HB Hc) as Hk.
    destruct (Check_canonical_form T c HB Hk)
      as [[-> ->] | [[-> [n ->]] | [[-> [n ->]] | [[-> [t ->]]
         | [[-> [s ->]] | [[-> [b ->]] | [[-> [f ->]] | [-> [b ->]]]]]]]]];
      try (exfalso; simpl in HT;
           repeat (destruct HT as [HT | HT]; try discriminate HT); exact HT);
      cbn [sql.SQL sql.Integer sql.BigInteger sql.TimestampWithTimezone
           sql.String sql.Boolean sql.Blob];
      cbn [sql.Convert sql.Integer sql.BigInteger sql.TimestampWithTimezone
           sql.String sql.Boolean sql.Blob] in Hc;
      unfold sql.integerType.SQL, sql.bigIntegerType.SQL,
        sql.timestampWithTimeZoneType.SQL, sql.stringType.SQL,
        sql.booleanType.SQL, sql.blobType.SQL;
      rewrite (MustConvert_Ret _ _ _ Hc); cbn [bind assert_int32 assert_int64
        assert_Time assert_string assert_bool assert_bytes];
      (split; [ intros [e He]; discriminate He | ]);
      (split; [ split; intros _; eexists; reflexivity | ]);
      (split; [ split; [ intros [x Hx]; discriminate Hx
                       | intros [[x Hx] | [x Hx]]; discriminate Hx ] | ]);
      (split; [ intros e He; discriminate He | ]);
      (split; [ intros p Hp; discriminate Hp | exact Hpanic ]).
  - assert (Hs : sql.SQL T v = Panic (PanicError e)).
    { simpl in HT.
      destruct HT as [<- | [<- | [<- | [<- | [<- | [<- | []]]]]]];
        cbn [sql.SQL sql.Integer sql.BigInteger sql.TimestampWithTimezone
             sql.String sql.Boolean sql.Blob];
        cbn [sql.Convert sql.Integer sql.BigInteger sql.TimestampWithTimezone
             sql.String sql.Boolean sql.Blob] in Hc;
        unfold sql.integerType.SQL, sql.bigIntegerType.SQL,
          sql.timestampWithTimeZoneType.SQL, sql.stringType.SQL,
          sql.booleanType.SQL, sql.blobType.SQL;
        rewrite (MustConvert_Fail _ _ _ Hc); reflexivity. }
    rewrite Hs. split; [ intros [x Hx]; discriminate Hx | ].
    split; [ split; intros [x Hx]; discriminate Hx | ].
    split; [ split; [ intros _; left; eexists; reflexivity
                    | intros _; eexists; reflexivity ] | ].
    split; [ intros e' He; injection He as <-; reflexivity | ].
    split; [ intros p Hp; discriminate Hp | exact Hpanic ].
  - assert (Hs : sql.SQL T v = Panic p).
    { simpl in HT.
      destruct HT as [<- | [<- | [<- | [<- | [<- | [<- | []]]]]]];
        cbn [sql.SQL sql.Integer sql.BigInteger sql.TimestampWithTimezone
             sql.String sql.Boolean sql.Blob];
        cbn [sql.Convert sql.Integer sql.BigInteger sql.TimestampWithTimezone
             sql.String sql.Boolean sql.Blob] in Hc;
        unfold sql.integerType.SQL, sql.bigIntegerType.SQL,
          sql.timestampWithTimeZoneType.SQL, sql.stringType.SQL,
          sql.booleanType.SQL, sql.blobType.SQL;
        rewrite (MustConvert_Panic _ _ _ Hc); reflexivity. }
    rewrite Hs. split; [ intros [x Hx]; discriminate Hx | ].
    split; [ split; intros [x Hx]; discriminate Hx | ].
    split; [ split; [ intros _; right; eexists; reflexivity
                    | intros _; eexists; reflexivity ] | ].
    split; [ intros e' He; discriminate He | ].
    split; [ intros p' Hp; injection Hp as <-; reflexivity | exact Hpanic ].
Qed.

End CatalogueMethods.

Section WireAndDriver.

Context {R : Runtime}.

Ltac open_SQL H :=
  cbn [sql.SQL sql.Null sql.Integer sql.BigInteger sql.TimestampWithTimezone
       sql.String sql.Boolean sql.Float sql.Blob] in H;
  unfold sql.nullType.SQL, sql.integerType.SQL, sql.bigIntegerType.SQL,
    sql.timestampWithTimeZoneType.SQL, sql.stringType.SQL,
    sql.booleanType.SQL, sql.floatType.SQL, sql.blobType.SQL in H.

(** X4.  A wire value carries the tag of the type that produced it, and the
    tags (as the names) of the eight types are pairwise distinct. *)
Theorem SQL_carries_type_tag :
  (forall T v x, In T sql.builtin -> sql.SQL T v = Ret x ->
                 sqltypes.typ x = sql.Type_tag T)
  /\ NoDup (List.map sql.Type_tag sql.builtin)
  /\ NoDup (List.map sql.Name sql.builtin).
Proof.
  split.
  - intros T v x HT Hx.
    each_builtin HT; open_SQL Hx;
      try (destruct (sql.MustConvert _ v) as [c | e | p];
           cbn [bind] in Hx; try discriminate Hx;
           destruct c; cbn [bind assert_int32 assert_int64 assert_Time
                            assert_string assert_bool assert_float64
                            assert_bytes] in Hx;
           try discriminate Hx);
      injection Hx as <-; reflexivity.
  - split; cbn; repeat constructor; cbn; intuition discriminate.
Qed.

(** X5.  [Native] hands the driver a value of one of its own types or panics;
    it maps nil to nil for every type, and a canonical value to the same
    value (an [int32] widened to [int64]) for every type but [Float],
    whose [Native] panics on every canonical value. *)
Theorem Native_driver_values (T : sql.Type_) :
  In T sql.builtin ->
  sql.Native T VNil = Ret VNil
  /\ (forall v d, sql.Native T v = Ret d -> is_driver_value d = true)
  /\ (forall v, ~ fails (sql.Native T v))
  /\ (forall v, sql.Check T v = Ret true -> wf_value v ->
        if String.eqb (sql.Name T) "float" then panics (sql.Native T v)
        else sql.Native T v
             = Ret (match v with VInt32 n => VInt64 n | _ => v end)).
Proof.
  intros HT. split; [ each_builtin HT; reflexivity | ].
  split.
  { intros v d Hd.
    each_builtin HT; destruct v; cbn in Hd; try discriminate Hd;
      injection Hd as <-; reflexivity. }
  split.
  { intros v [e He].
    each_builtin HT; destruct v; cbn in He; discriminate He. }
  intros v Hc Hwf.
  destruct (Check_canonical_form T v HT Hc)
    as [[-> ->] | [[-> [n ->]] | [[-> [n ->]] | [[-> [t ->]]
       | [[-> [s ->]] | [[-> [b ->]] | [[-> [f ->]] | [-> [b ->]]]]]]]]];
    cbn -[int64]; try reflexivity.
  - cbn in Hwf. rewrite int64_in_range; [ reflexivity | ].
    unfold in_signed in *. lia.
  - eexists; reflexivity.
Qed.

End WireAndDriver.

(** * Integers and their decimal text *)

Lemma Atoi_in_range (s : string) (n : Z) :
  strconv.Atoi s = Some n -> in_signed 64 n.
Proof.
  unfold strconv.Atoi, intSize. intros H.
  destruct s as [| c r]; [ discriminate H | ].
  destruct (if (Ascii.eqb c "-" || Ascii.eqb c "+")%bool then r else String c r);
    [ discriminate H | ].
  destruct (strconv.digits _ 0) as [un |]; [ | discriminate H ].
  match type of H with
  | (if ?b then _ else _) = _ => destruct b eqn:E; [ | discriminate H ]
  end.
  injection H as <-. apply andb_true_iff in E. unfold in_signed. lia.
Qed.

(** X7.  [BigInteger.Convert] keeps the numeric value of every integer below
    2^63, whatever its type, and of every decimal text [strconv.Atoi]
    reads. *)
Theorem BigInteger_Convert_preserves_value :
  (forall v n, wf_value v -> int_value v = Some n -> n < 2 ^ 63 ->
               sql.Convert sql.BigInteger v = Ret (VInt64 n))
  /\ (forall s n, strconv.Atoi s = Some n ->
                  sql.Convert sql.BigInteger (VString s) = Ret (VInt64 n)).
Proof.
  split.
  - intros v n Hwf Hn Hlt.
    destruct v; try discriminate Hn; injection Hn as ->; cbn in Hwf;
      unfold_ranges; cbn -[Z.pow int64];
      try (rewrite int64_in_range by (unfold in_signed; lia));
      try reflexivity.
    destruct (n >=? 2 ^ 63) eqn:E; [ lia | reflexivity ].
  - intros s n Hs. cbn -[int64]. rewrite Hs.
    now rewrite (int64_in_range n (Atoi_in_range s n Hs)).
Qed.

Lemma digits_app (d : string) :
  forall rest x,
    strconv.digits (d ++ rest) x
    = match strconv.digits d x with
      | Some y => strconv.digits rest y
      | None => None
      end.
Proof.
  induction d as [| c d IH]; intros rest x; cbn [String.append strconv.digits].
  - reflexivity.
  - destruct (isDigit c); [ apply IH | reflexivity ].
Qed.

(** [utoa] with fuel enough writes [u] in decimal in front of [acc]. *)
Lemma utoa_spec (fuel : nat) :
  forall u width acc,
    0 <= u < 10 ^ Z.of_nat fuel -> (width <= fuel)%nat ->
    exists d,
      utoa fuel u width acc = (d ++ acc)%string
      /\ (forall x, strconv.digits d x
                    = Some (x * 10 ^ Z.of_nat (String.length d) + u))
      /\ ((0 < width)%nat -> d <> "").
Proof.
  induction fuel as [| fuel IH]; intros u width acc Hu Hw.
  - exists "". cbn [utoa String.append String.length strconv.digits].
    change (10 ^ Z.of_nat 0) with 1 in *.
    repeat split; [ intros x; f_equal; lia | lia ].
  - cbn [utoa].
    destruct ((u =? 0) && Nat.eqb width 0)%bool eqn:E.
    + apply andb_true_iff in E. destruct E as [E0 Ew].
      apply Z.eqb_eq in E0. apply Nat.eqb_eq in Ew. subst.
      exists "". cbn [String.append String.length strconv.digits].
      change (10 ^ Z.of_nat 0) with 1.
      repeat split; [ intros x; f_equal; lia | lia ].
    + assert (Hdiv : 0 <= u / 10 < 10 ^ Z.of_nat fuel).
      { rewrite Nat2Z.inj_succ, Z.pow_succ_r in Hu by lia.
        split; [ apply Z.div_pos; lia | apply Z.div_lt_upper_bound; lia ]. }
      assert (Hmod : 0 <= u mod 10 <= 9)
        by (pose proof (Z.mod_pos_bound u 10); lia).
      destruct (IH (u / 10) (Nat.pred width)
                   (String (digit_char (u mod 10)) acc) Hdiv ltac:(lia))
        as (d & Hd & Hval & _).
      exists (d ++ String (digit_char (u mod 10)) "")%string.
      split; [ | split ].
      * rewrite Hd. now rewrite string_app_assoc.
      * intros x. rewrite digits_app, Hval.
        cbn [strconv.digits].
        rewrite isDigit_digit_char, digit_val_digit_char by assumption.
        f_equal. rewrite string_length_app. cbn [String.length].
        rewrite Nat.add_1_r, Nat2Z.inj_succ, Z.pow_succ_r by lia.
        pose proof (Z.div_mod u 10). lia.
      * intros _. destruct d; discriminate.
Qed.

Lemma pad_uint_fuel (u : Z) (width : nat) :
  0 <= u ->
  u < 10 ^ Z.of_nat (width + Z.to_nat (Z.log2_up (u + 1)) + 1).
Proof.
  intros Hu.
  pose proof (Z.log2_up_nonneg (u + 1)) as Hl.
  assert (H2 : u + 1 <= 2 ^ Z.log2_up (u + 1)).
  { destruct (Z.le_gt_cases (u + 1) 1) as [H1 | H1].
    - assert (Hp : 0 < 2 ^ Z.log2_up (u + 1)) by (apply Z.pow_pos_nonneg; lia).
      lia.
    - apply Z.log2_up_spec. exact H1. }
  assert (H10 : 2 ^ Z.log2_up (u + 1) <= 10 ^ Z.log2_up (u + 1))
    by (apply Z.pow_le_mono_l; lia).
  assert (Hm : 10 ^ Z.log2_up (u + 1)
               <= 10 ^ Z.of_nat (width + Z.to_nat (Z.log2_up (u + 1)) + 1))
    by (apply Z.pow_le_mono_r; lia).
  lia.
Qed.

(** The decimal text of a natural number: digits only, at least one, and
    read back by [strconv.digits]. *)
Lemma pad_uint_digits (u : Z) :
  0 <= u ->
  exists c r, pad_uint u 1 = String c r /\ isDigit c = true
              /\ strconv.digits (String c r) 0 = Some u.
Proof.
  intros Hu. unfold pad_uint.
  destruct (utoa_spec (1 + Z.to_nat (Z.log2_up (u + 1)) + 1) u 1 ""
              (conj Hu (pad_uint_fuel u 1 Hu)) ltac:(lia))
    as (d & Hd & Hval & Hne).
  rewrite Hd, string_app_empty_r.
  destruct d as [| c r]; [ exfalso; apply Hne; [ lia | reflexivity ] | ].
  exists c, r. split; [ reflexivity | ].
  pose proof (Hval 0) as H0.
  split.
  - cbn [strconv.digits] in H0. destruct (isDigit c); [ reflexivity | discriminate H0 ].
  - rewrite H0. f_equal; lia.
Qed.

Lemma isDigit_not_sign (c : ascii) :
  isDigit c = true -> Ascii.eqb c "-" = false /\ Ascii.eqb c "+" = false.
Proof.
  intros H. split.
  - destruct (Ascii.eqb_spec c "-") as [-> |]; [ discriminate H | reflexivity ].
  - destruct (Ascii.eqb_spec c "+") as [-> |]; [ discriminate H | reflexivity ].
Qed.

(** [strconv.Atoi] reads back what [strconv.FormatInt] writes. *)
Lemma Atoi_FormatInt (n : Z) :
  in_signed 64 n -> strconv.Atoi (strconv.FormatInt n) = Some n.
Proof.
  unfold in_signed. intros Hn. unfold strconv.FormatInt.
  destruct (Z.ltb_spec n 0) as [Hneg | Hpos].
  - destruct (pad_uint_digits (- n) ltac:(lia)) as (c & r & -> & Hc & Hd).
    unfold strconv.Atoi. cbn [Ascii.eqb Bool.eqb orb andb].
    rewrite Hd. unfold intSize.
    replace (- - n) with n by lia.
    destruct (_ && _)%bool eqn:E; [ reflexivity | ].
    apply andb_false_iff in E. lia.
  - destruct (pad_uint_digits n Hpos) as (c & r & -> & Hc & Hd).
    unfold strconv.Atoi.
    destruct (isDigit_not_sign c Hc) as [-> ->]. cbn [orb].
    rewrite Hd. unfold intSize.
    destruct (_ && _)%bool eqn:E; [ reflexivity | ].
    apply andb_false_iff in E. lia.
Qed.

(** X8.  Serialising an [int32] with [Integer.SQL] and converting the text of
    the wire bytes back with [Integer.Convert] gives the same [int32];
    likewise for an [int64] and [BigInteger]. *)
Theorem Integer_SQL_Convert_round_trip (n : Z) :
  (in_signed 32 n ->
   exists bytes,
     sql.SQL sql.Integer (VInt32 n) = Ret (sqltypes.mkValue query.Int32 bytes)
     /\ sql.Convert sql.Integer (VString (string_of_list_byte bytes))
        = Ret (VInt32 n))
  /\ (in_signed 64 n ->
      exists bytes,
        sql.SQL sql.BigInteger (VInt64 n)
        = Ret (sqltypes.mkValue query.Int64 bytes)
        /\ sql.Convert sql.BigInteger (VString (string_of_list_byte bytes))
           = Ret (VInt64 n)).
Proof.
  split; intros Hn.
  - exists (list_byte_of_string (strconv.FormatInt n)).
    split; [ reflexivity | ].
    rewrite string_of_list_byte_of_string.
    cbn -[int32 strconv.FormatInt].
    rewrite Atoi_FormatInt by (unfold in_signed in *; lia).
    now rewrite int32_in_range.
  - exists (list_byte_of_string (strconv.FormatInt n)).
    split; [ reflexivity | ].
    rewrite string_of_list_byte_of_string.
    cbn -[int64 strconv.FormatInt].
    rewrite Atoi_FormatInt by assumption.
    now rewrite int64_in_range.
Qed.

(** * The calendar *)

Lemma civil_in_two_steps (days : Z) :
  time.civil days
  = (let '(year, yday) := year_yday days in
     let '(m, d) := month_day (time.isLeap year) yday in (year, m, d)).
Proof.
  unfold time.civil, year_yday, month_day. cbv zeta.
  repeat match goal with
         | |- context [if ?b then _ else _] => destruct b
         end; reflexivity.
Qed.

Lemma daysSinceYear1_in_two_steps (y m d : Z) :
  time.daysSinceYear1 y m d = yearStart y + dayOfYear y m d.
Proof. unfold time.daysSinceYear1, yearStart, dayOfYear. cbv zeta. lia. Qed.

Lemma div_mod_eq (a b q r : Z) :
  0 <= r < b -> a = b * q + r -> a / b = q /\ a mod b = r.
Proof.
  intros Hr Ha. split.
  - symmetry. apply (Z.div_unique_pos a b q r Hr Ha).
  - symmetry. apply (Z.mod_unique_pos a b q r Hr Ha).
Qed.

(** A year, counted from year 1, in 400-, 100-, 4- and 1-year cycles. *)
Lemma year_cycles (y : Z) :
  exists q b c e,
    y - 1 = 400 * q + 100 * b + 4 * c + e
    /\ 0 <= b <= 3 /\ 0 <= c <= 24 /\ 0 <= e <= 3.
Proof.
  exists ((y - 1) / 400), ((y - 1) mod 400 / 100),
         ((y - 1) mod 400 mod 100 / 4), ((y - 1) mod 400 mod 100 mod 4).
  Z.to_euclidean_division_equations. lia.
Qed.

Lemma yearStart_cycles (y q b c e : Z) :
  y - 1 = 400 * q + 100 * b + 4 * c + e ->
  0 <= b <= 3 -> 0 <= c <= 24 -> 0 <= e <= 3 ->
  yearStart y = 146097 * q + 36524 * b + 1461 * c + 365 * e.
Proof.
  intros Hy Hb Hc He. unfold yearStart. cbv zeta. rewrite Hy.
  destruct (div_mod_eq (400 * q + 100 * b + 4 * c + e) 4 (100 * q + 25 * b + c) e
              ltac:(lia) ltac:(lia)) as [-> _].
  destruct (div_mod_eq (400 * q + 100 * b + 4 * c + e) 100 (4 * q + b) (4 * c + e)
              ltac:(lia) ltac:(lia)) as [-> _].
  destruct (div_mod_eq (400 * q + 100 * b + 4 * c + e) 400 q (100 * b + 4 * c + e)
              ltac:(lia) ltac:(lia)) as [-> _].
  lia.
Qed.

Lemma isLeap_cycles (y q b c e : Z) :
  y - 1 = 400 * q + 100 * b + 4 * c + e ->
  0 <= b <= 3 -> 0 <= c <= 24 -> 0 <= e <= 3 ->
  time.isLeap y = ((e =? 3) && (negb (c =? 24) || (b =? 3)))%bool.
Proof.
  intros Hy Hb Hc He. unfold time.isLeap.
  assert (Ey : y = 400 * q + 100 * b + 4 * c + e + 1) by lia.
  destruct (Z.eqb_spec e 3) as [E3 | E3].
  - subst e.
    destruct (div_mod_eq y 4 (100 * q + 25 * b + c + 1) 0 ltac:(lia) ltac:(lia))
      as [_ ->].
    destruct (Z.eqb_spec c 24) as [Ec | Ec].
    + subst c.
      destruct (div_mod_eq y 100 (4 * q + b + 1) 0 ltac:(lia) ltac:(lia))
        as [_ ->].
      destruct (Z.eqb_spec b 3) as [Eb | Eb].
      * subst b.
        destruct (div_mod_eq y 400 (q + 1) 0 ltac:(lia) ltac:(lia)) as [_ ->].
        reflexivity.
      * destruct (div_mod_eq y 400 q (100 * b + 100) ltac:(lia) ltac:(lia))
          as [_ ->].
        destruct (Z.eqb_spec (100 * b + 100) 0); [ lia | reflexivity ].
    + destruct (div_mod_eq y 100 (4 * q + b) (4 * c + 4) ltac:(lia) ltac:(lia))
        as [_ ->].
      destruct (Z.eqb_spec (4 * c + 4) 0); [ lia | reflexivity ].
  - destruct (div_mod_eq y 4 (100 * q + 25 * b + c) (e + 1) ltac:(lia) ltac:(lia))
      as [_ ->].
    destruct (Z.eqb_spec (e + 1) 0); [ lia | reflexivity ].
Qed.

(** [time.civil] finds the year and the day of the year of every day. *)
Lemma year_yday_spec (y yd : Z) :
  0 <= yd < daysInYear y ->
  year_yday (yearStart y + yd) = (y, yd).
Proof.
  intros Hyd. unfold daysInYear in Hyd.
  destruct (year_cycles y) as (q & b & c & e & Hy & Hb & Hc & He).
  rewrite (yearStart_cycles y q b c e Hy Hb Hc He).
  rewrite (isLeap_cycles y q b c e Hy Hb Hc He) in Hyd.
  assert (Hleap : yd = 365 -> e = 3 /\ (c <> 24 \/ b = 3)).
  { intros ->.
    destruct (Z.eqb_spec e 3), (Z.eqb_spec c 24), (Z.eqb_spec b 3);
      cbn in Hyd; lia. }
  assert (Hyd' : 0 <= yd <= 365)
    by (destruct ((e =? 3) && (negb (c =? 24) || (b =? 3)))%bool; lia).
  clear Hyd.
  unfold year_yday. cbv zeta.
  set (D := 36524 * b + 1461 * c + 365 * e + yd).
  destruct (div_mod_eq (146097 * q + 36524 * b + 1461 * c + 365 * e + yd)
              146097 q D ltac:(subst D; lia) ltac:(subst D; lia)) as [-> ->].
  destruct (Z.eq_dec D 146096) as [HD | HD].
  - assert (b = 3 /\ c = 24 /\ e = 3 /\ yd = 365) as (-> & -> & -> & ->)
      by (subst D; lia).
    rewrite HD. f_equal; Z.to_euclidean_division_equations; lia.
  - assert (Hd2 : 0 <= 1461 * c + 365 * e + yd < 36524) by (subst D; lia).
    destruct (div_mod_eq D 36524 b (1461 * c + 365 * e + yd) Hd2
                ltac:(subst D; lia)) as [-> _].
    rewrite (Z.div_small b 4) by lia. rewrite Z.sub_0_r.
    replace (D - 36524 * b) with (1461 * c + 365 * e + yd) by (subst D; lia).
    destruct (div_mod_eq (1461 * c + 365 * e + yd) 1461 c (365 * e + yd)
                ltac:(lia) ltac:(lia)) as [-> _].
    replace (1461 * c + 365 * e + yd - 1461 * c) with (365 * e + yd) by lia.
    destruct (Z.eq_dec yd 365) as [E | E].
    + destruct (Hleap E) as [-> _]. subst yd.
      f_equal; Z.to_euclidean_division_equations; lia.
    + destruct (div_mod_eq (365 * e + yd) 365 e yd ltac:(lia) ltac:(lia))
        as [-> _].
      rewrite (Z.div_small e 4) by lia. f_equal; lia.
Qed.

Lemma twelve_months (m : Z) :
  1 <= m <= 12 ->
  m = 1 \/ m = 2 \/ m = 3 \/ m = 4 \/ m = 5 \/ m = 6 \/ m = 7 \/ m = 8
  \/ m = 9 \/ m = 10 \/ m = 11 \/ m = 12.
Proof. lia. Qed.

Ltac is_closed t :=
  match t with
  | context [?x] => is_var x; fail 1
  | _ => idtac
  end.

(** Evaluation of the closed table look-ups and tests that a concrete
    month leaves behind. *)
Ltac eval_month_tables :=
  repeat match goal with
         | |- context [time.daysBefore_at ?k] =>
             is_closed k;
             let v := eval vm_compute in (time.daysBefore_at k) in
             change (time.daysBefore_at k) with v
         | H : context [time.daysBefore_at ?k] |- _ =>
             is_closed k;
             let v := eval vm_compute in (time.daysBefore_at k) in
             change (time.daysBefore_at k) with v in H
         | |- context [if ?b then _ else _] =>
             is_closed b;
             let v := eval vm_compute in b in
             change b with v; cbv iota
         | H : context [if ?b then _ else _] |- _ =>
             is_closed b;
             let v := eval vm_compute in b in
             change b with v in H; cbv iota in H
         end.

(** The day of the year stays within the year. *)
Lemma dayOfYear_range (y m d : Z) :
  1 <= m <= 12 -> 1 <= d <= time.daysIn m y ->
  0 <= dayOfYear y m d < daysInYear y.
Proof.
  intros Hm Hd. unfold dayOfYear, daysInYear. unfold time.daysIn in Hd.
  destruct (twelve_months m Hm)
    as [-> | [-> | [-> | [-> | [-> | [-> | [-> | [-> | [-> | [-> | [-> | ->]]]]]]]]]]];
    destruct (time.isLeap y); eval_month_tables; lia.
Qed.

Lemma thirty_one_days (d : Z) :
  1 <= d <= 31 ->
  d = 1 \/ d = 2 \/ d = 3 \/ d = 4 \/ d = 5 \/ d = 6 \/ d = 7 \/ d = 8
  \/ d = 9 \/ d = 10 \/ d = 11 \/ d = 12 \/ d = 13 \/ d = 14 \/ d = 15
  \/ d = 16 \/ d = 17 \/ d = 18 \/ d = 19 \/ d = 20 \/ d = 21 \/ d = 22
  \/ d = 23 \/ d = 24 \/ d = 25 \/ d = 26 \/ d = 27 \/ d = 28 \/ d = 29
  \/ d = 30 \/ d = 31.
Proof. lia. Qed.

(** [time.civil] finds the month and the day of every day of a year. *)
Lemma month_day_spec (y m d : Z) :
  1 <= m <= 12 -> 1 <= d <= time.daysIn m y ->
  month_day (time.isLeap y) (dayOfYear y m d) = (m, d).
Proof.
  intros Hm Hd.
  pose proof (daysIn_le_31 m y Hm) as H31.
  assert (Hcases := thirty_one_days d ltac:(lia)). clear H31.
  unfold dayOfYear. unfold time.daysIn in Hd.
  destruct (twelve_months m Hm)
    as [-> | [-> | [-> | [-> | [-> | [-> | [-> | [-> | [-> | [-> | [-> | ->]]]]]]]]]]];
    destruct (time.isLeap y); eval_month_tables;
    repeat (destruct Hcases as [-> | Hcases]; [ first [ reflexivity | lia ] | ]);
    subst d; first [ reflexivity | lia ].
Qed.

(** [time.civil] inverts [time.daysSinceYear1] on every date. *)
Lemma civil_daysSinceYear1 (y m d : Z) :
  1 <= m <= 12 -> 1 <= d <= time.daysIn m y ->
  time.civil (time.daysSinceYear1 y m d) = (y, m, d).
Proof.
  intros Hm Hd.
  rewrite civil_in_two_steps, daysSinceYear1_in_two_steps.
  rewrite (year_yday_spec y (dayOfYear y m d) (dayOfYear_range y m d Hm Hd)).
  now rewrite (month_day_spec y m d Hm Hd).
Qed.

(** * Timestamps to text *)

Lemma utoa_fixed (w : nat) :
  forall fuel u acc,
    (w <= fuel)%nat -> 0 <= u < 10 ^ Z.of_nat w ->
    utoa fuel u w acc = (fixed_digits w u ++ acc)%string.
Proof.
  induction w as [| w IH]; intros fuel u acc Hf Hu.
  - change (10 ^ Z.of_nat 0) with 1 in Hu. assert (u = 0) by lia. subst u.
    destruct fuel; reflexivity.
  - destruct fuel as [| fuel]; [ lia | ].
    cbn [utoa fixed_digits Nat.eqb andb Nat.pred].
    rewrite andb_false_r.
    rewrite Nat2Z.inj_succ, Z.pow_succ_r in Hu by lia.
    rewrite IH.
    + now rewrite string_app_assoc.
    + lia.
    + split; [ apply Z.div_pos; lia | apply Z.div_lt_upper_bound; lia ].
Qed.

Lemma pad_uint_fixed (u : Z) (w : nat) :
  0 <= u < 10 ^ Z.of_nat w -> pad_uint u w = fixed_digits w u.
Proof.
  intros Hu. unfold pad_uint.
  rewrite utoa_fixed by (try lia; exact Hu).
  apply string_app_empty_r.
Qed.

Lemma appendInt_fixed (x : Z) (w : nat) :
  0 <= x < 10 ^ Z.of_nat w -> time.appendInt x w = fixed_digits w x.
Proof.
  intros Hx. unfold time.appendInt.
  destruct (Z.ltb_spec x 0); [ lia | ]. now apply pad_uint_fixed.
Qed.

(** The calendar repeats every 400 years, which are 146097 days. *)
Lemma isLeap_400 (y k : Z) : time.isLeap (y + 400 * k) = time.isLeap y.
Proof.
  unfold time.isLeap.
  replace (y + 400 * k) with (y + (100 * k) * 4) at 1 by lia.
  replace (y + 400 * k) with (y + (4 * k) * 100) at 1 by lia.
  replace (y + 400 * k) with (y + k * 400) by lia.
  now rewrite !Z.mod_add by lia.
Qed.

Lemma daysIn_400 (m y k : Z) : time.daysIn m (y + 400 * k) = time.daysIn m y.
Proof. unfold time.daysIn. now rewrite isLeap_400. Qed.

Lemma daysSinceYear1_400 (y m d k : Z) :
  time.daysSinceYear1 (y + 400 * k) m d
  = time.daysSinceYear1 y m d + 146097 * k.
Proof.
  unfold time.daysSinceYear1. cbv zeta. rewrite isLeap_400.
  replace (y + 400 * k - 1) with (y - 1 + (100 * k) * 4) at 2 by lia.
  replace (y + 400 * k - 1) with (y - 1 + (4 * k) * 100) at 2 by lia.
  replace (y + 400 * k - 1) with (y - 1 + k * 400) at 2 by lia.
  rewrite !Z.div_add by lia. lia.
Qed.

Lemma daysSinceYear1_bounds (y m d : Z) :
  0 <= y <= 9999 -> 1 <= m <= 12 -> 1 <= d <= time.daysIn m y ->
  -366 <= time.daysSinceYear1 y m d < 3652425.
Proof.
  intros Hy Hm Hd. rewrite daysSinceYear1_in_two_steps.
  pose proof (dayOfYear_range y m d Hm Hd) as Hr.
  unfold daysInYear in Hr. unfold yearStart. cbv zeta.
  destruct (time.isLeap y); Z.to_euclidean_division_equations; lia.
Qed.

(** The date that [absDate] finds at midnight of a civil date. *)
Lemma absDate_daysSinceYear1 (y m d r : Z) :
  1 <= m <= 12 -> 1 <= d <= time.daysIn m y -> 0 <= r < 86400 ->
  time.absDate (time.daysSinceYear1 y m d * 86400 + r
                + time.internalToAbsolute)
  = (y, m, d).
Proof.
  intros Hm Hd Hr. unfold time.absDate, time.secondsPerDay.
  destruct (div_mod_eq (time.daysSinceYear1 y m d * 86400 + r
                        + time.internalToAbsolute) 86400
              (time.daysSinceYear1 (y + 400 * 730692556) m d) r Hr) as [-> _].
  { rewrite daysSinceYear1_400. unfold time.internalToAbsolute. lia. }
  rewrite civil_daysSinceYear1 by (rewrite ?daysIn_400; assumption).
  unfold time.absoluteZeroYear. f_equal. f_equal. lia.
Qed.

Section TimestampText.

Context {R : Runtime}.

(** A UTC time built from fields in range is formatted, under the layout
    of [SQL], as the text of its date and time: the nanoseconds and the
    zone leave no trace. *)
Lemma Format_Date_UTC (y mo d h mi s ns : Z) :
  0 <= y <= 9999 -> 1 <= mo <= 12 -> 1 <= d <= time.daysIn mo y ->
  0 <= h <= 23 -> 0 <= mi <= 59 -> 0 <= s <= 59 ->
  time.Format (time.Date_UTC y mo d h mi s ns)
              sql.timestampWithTimeZoneType.sqlLayout
  = datetime_text y mo d h mi s.
Proof.
  intros Hy Hmo Hd Hh Hmi Hs.
  pose proof (daysIn_le_31 mo y Hmo) as H31.
  pose proof (daysSinceYear1_bounds y mo d Hy Hmo Hd) as Hdays.
  unfold time.Format, time.locabs, time.offset, time.Date_UTC,
    time.secondsPerDay.
  cbn [sec nsec loc].
  set (days := time.daysSinceYear1 y mo d) in *.
  replace ((days * 86400 + h * 3600 + mi * 60 + s + 0
            + time.internalToAbsolute) mod 2 ^ 64)
    with (days * 86400 + (h * 3600 + mi * 60 + s) + time.internalToAbsolute)
    by (rewrite Z.mod_small;
        [ lia | unfold time.internalToAbsolute;
                change (2 ^ 64) with 18446744073709551616; lia ]).
  subst days.
  rewrite (absDate_daysSinceYear1 y mo d (h * 3600 + mi * 60 + s) Hmo Hd)
    by lia.
  destruct (div_mod_eq (time.daysSinceYear1 y mo d * 86400
                        + (h * 3600 + mi * 60 + s) + time.internalToAbsolute)
              86400 (time.daysSinceYear1 y mo d + 106751990353932)
              (h * 3600 + mi * 60 + s) ltac:(lia)
              ltac:(unfold time.internalToAbsolute; lia)) as [_ ->].
  destruct (div_mod_eq (h * 3600 + mi * 60 + s) 3600 h (mi * 60 + s)
              ltac:(lia) ltac:(lia)) as [-> ->].
  destruct (div_mod_eq (mi * 60 + s) 60 mi s ltac:(lia) ltac:(lia)) as [-> _].
  destruct (div_mod_eq (h * 3600 + mi * 60 + s) 60 (h * 60 + mi) s
              ltac:(lia) ltac:(lia)) as [_ ->].
  unfold sql.timestampWithTimeZoneType.sqlLayout, datetime_text.
  cbn [List.map String.concat].
  rewrite !appendInt_fixed
    by (first [ change (10 ^ Z.of_nat 4) with 10000
              | change (10 ^ Z.of_nat 2) with 100 ]; lia).
  reflexivity.
Qed.


End TimestampText.

(** * Text and bytes *)

Lemma bytes_codes_of_string (s : string) :
  bytes_codes (list_byte_of_string s) = string_codes s.
Proof.
  unfold bytes_codes, string_codes, list_byte_of_string.
  rewrite List.map_map. apply List.map_ext. intros c.
  apply Byte.to_of_N. symmetry. apply byte_of_ascii_via_N.
Qed.

Ltac destruct_stringer :=
  match goal with o : option string |- _ => destruct o end.

Section TextAndBytes.

Context {R : Runtime}.

(** X10.  [Blob.Convert] accepts what [String.Convert] accepts, with the bytes
    of the same text as its result, and byte slices besides, which
    [String.Convert] refuses. *)
Theorem Blob_Convert_follows_String (v : value) :
  (forall s, sql.Convert sql.String v = Ret (VString s) ->
             sql.Convert sql.Blob v = Ret (VBytes (list_byte_of_string s)))
  /\ (forall b, v = VBytes b ->
                sql.Convert sql.Blob v = Ret v
                /\ sql.Convert sql.String v = Fail ErrInvalidType)
  /\ (returns (sql.Convert sql.Blob v)
      <-> (exists b, v = VBytes b) \/ returns (sql.Convert sql.String v)).
Proof.
  split; [ | split ].
  - intros s Hs. destruct v; try destruct_stringer; cbn in Hs |- *;
      split_outcome Hs;
      try discriminate Hs; injection Hs as <-; reflexivity.
  - intros b ->. split; reflexivity.
  - split.
    + intros [c Hc]. destruct v; try destruct_stringer; cbn in Hc;
        split_outcome Hc;
        try discriminate Hc;
        first [ left; eexists; reflexivity | right; eexists; reflexivity ].
    + intros [[b ->] | [c Hc]]; [ eexists; reflexivity | ].
      destruct v; try destruct_stringer; cbn in Hc |- *; split_outcome Hc;
        try discriminate Hc;
        eexists; reflexivity.
Qed.

(** X11.  Turning two texts into blobs keeps their order: [Blob.Compare] on the
    converted values is [String.Compare] on the texts. *)
Theorem Blob_order_of_texts (a b : string) :
  exists x y,
    sql.Convert sql.Blob (VString a) = Ret x
    /\ sql.Convert sql.Blob (VString b) = Ret y
    /\ sql.Compare sql.Blob x y = sql.Compare sql.String (VString a) (VString b).
Proof.
  exists (VBytes (list_byte_of_string a)), (VBytes (list_byte_of_string b)).
  split; [ reflexivity | ]. split; [ reflexivity | ].
  cbn. unfold bytes.Compare, strings.Compare.
  now rewrite !bytes_codes_of_string.
Qed.

End TextAndBytes.

(** * Seconds to timestamps *)

(** X12.  Converting [int64] seconds to timestamps keeps their order, as long as
    the seconds leave room for the 62135596800 seconds between year 1 and
    1970: [Compare] on the timestamps is [Compare] on the integers.  Past
    that room the internal seconds wrap, and the latest second of all
    compares as earlier than the epoch. *)
Theorem Timestamp_of_seconds_keeps_order (a b : Z) :
  - 2 ^ 63 <= a < 2 ^ 63 - time.unixToInternal ->
  - 2 ^ 63 <= b < 2 ^ 63 - time.unixToInternal ->
  (exists x y,
     sql.timestampWithTimeZoneType.Convert (VInt64 a) = Ret x
     /\ sql.timestampWithTimeZoneType.Convert (VInt64 b) = Ret y
     /\ sql.timestampWithTimeZoneType.Compare x y
        = sql.bigIntegerType.Compare (VInt64 a) (VInt64 b))
  /\ sql.timestampWithTimeZoneType.Compare
       (VTime (time.Unix (2 ^ 63 - 1) 0)) (VTime (time.Unix 0 0)) = Ret (-1).
Proof.
  intros Ha Hb. split; [ | reflexivity ].
  exists (VTime (time.Unix a 0)), (VTime (time.Unix b 0)).
  split; [ reflexivity | ]. split; [ reflexivity | ].
  unfold sql.timestampWithTimeZoneType.Compare, sql.compareTimestamp,
    sql.bigIntegerType.Compare, sql.compareInt64.
  cbn [bind assert_Time assert_int64].
  rewrite After_Before. unfold time.Before, time.Unix. cbn [mono sec nsec].
  unfold time.unixToInternal in *.
  change (0 / 1000000000) with 0. change (0 mod 1000000000) with 0.
  rewrite !int64_in_range by (unfold in_signed; lia).
  change (0 <? 0) with false. rewrite !andb_false_r, !orb_false_r.
  rewrite Z.gtb_ltb.
  destruct (Z.ltb_spec a b), (Z.ltb_spec b a),
    (Z.ltb_spec (a + 0 + 62135596800) (b + 0 + 62135596800)),
    (Z.ltb_spec (b + 0 + 62135596800) (a + 0 + 62135596800));
    try reflexivity; lia.
Qed.

(** * Columns and rows *)

Section ColumnsAndRows.

Context {R : Runtime}.

(** X14.  A nil value passes a column exactly when the column is nullable,
    whatever its type; any other value passes exactly when it is canonical
    for the column's type.  A column of type [Null] that is not nullable
    therefore accepts no value at all. *)
Theorem Column_Check_spec (c : sql.Column.t) (v : value) :
  In (sql.Column.Type_ c) sql.builtin ->
  (passes c v <->
   (v = VNil /\ sql.Column.Nullable c = true)
   \/ (v <> VNil /\ canonical_form (sql.Column.Type_ c) v))
  /\ (sql.Column.Type_ c = sql.Null -> sql.Column.Nullable c = false ->
      sql.Column.Check c v = Ret false).
Proof.
  intros HT. unfold passes, sql.Column.Check. split.
  - destruct v; cbn [is_nil];
      try (split;
           [ intros Hc; right; split;
             [ discriminate | exact (Check_canonical_form _ _ HT Hc) ]
           | intros [[Hn _] | [_ Hk]];
             [ discriminate Hn | exact (canonical_form_checked _ _ Hk) ] ]).
    split.
    + intros Hc. left. split; [ reflexivity | congruence ].
    + intros [[_ Hn] | [Hn _]]; [ now rewrite Hn | contradiction Hn; reflexivity ].
  - intros HN Hnull. rewrite HN, Hnull. destruct v; reflexivity.
Qed.

Lemma rows_pass_or_first_failure (s : sql.Schema.t) :
  forall row,
    typed_by_catalogue s -> List.length s = List.length row ->
    Forall2 passes s row
    \/ exists s1 c s2 vs1 v vs2,
         s = s1 ++ c :: s2 /\ row = vs1 ++ v :: vs2
         /\ Forall2 passes s1 vs1 /\ List.length s2 = List.length vs2
         /\ sql.Column.Check c v = Ret false.
Proof.
  induction s as [| c s IH]; intros [| v row] Hty Hlen; try discriminate Hlen.
  - left. constructor.
  - inversion Hty as [| c' s' Hc Hs]; subst.
    destruct (Column_Check_returns c v Hc) as [[|] Hb].
    + destruct (IH row Hs (eq_add_S _ _ Hlen))
        as [Hall | (s1 & c1 & s2 & vs1 & v1 & vs2 & -> & -> & Hpre & Hl & Hf)].
      * left. now constructor.
      * right. exists (c :: s1), c1, s2, (v :: vs1), v1, vs2.
        repeat split; try assumption. now constructor.
    + right. exists [], c, s, [], v, row.
      repeat split; try assumption; [ constructor | now injection Hlen ].
Qed.

(** X15.  The verdict of [CheckRow] on a schema of built-in types is one of
    three: the length error with both counts; success, every value passing
    its column; or, at the first position whose value does not pass, the
    error naming that position and the dynamic type of the value, which
    turns into a panic when the value is nil. *)
Theorem CheckRow_verdict (s : sql.Schema.t) (row : sql.Row) :
  typed_by_catalogue s ->
  (List.length s <> List.length row
   /\ sql.Schema.CheckRow s row
      = Fail (ErrExpectedValues (List.length s) (List.length row)))
  \/ (Forall2 passes s row /\ sql.Schema.CheckRow s row = Ret tt)
  \/ (exists s1 c s2 vs1 v vs2,
        s = s1 ++ c :: s2 /\ row = vs1 ++ v :: vs2
        /\ Forall2 passes s1 vs1 /\ sql.Column.Check c v = Ret false
        /\ sql.Schema.CheckRow s row
           = match reflect.TypeOf v with
             | Some typ => Fail (ErrUnexpectedType (List.length s1) typ)
             | None => Panic NilDereference
             end).
Proof.
  intros Hty.
  destruct (Nat.eq_dec (List.length s) (List.length row)) as [Hlen | Hlen].
  - right.
    destruct (rows_pass_or_first_failure s row Hty Hlen)
      as [Hall | (s1 & c & s2 & vs1 & v & vs2 & -> & -> & Hpre & Hl & Hf)].
    + left. split; [ exact Hall | now apply CheckRow_succeeds_iff ].
    + right. exists s1, c, s2, vs1, v, vs2.
      repeat split; try assumption.
      now apply CheckRow_first_failure.
  - left. split; [ exact Hlen | now apply CheckRow_length_mismatch ].
Qed.

(** X16.  A row of converted values is accepted: when every value of the row is
    what the [Convert] of its column's type returned, [CheckRow] succeeds,
    provided the columns of type [Null] are nullable. *)
Theorem CheckRow_of_converted (s : sql.Schema.t) (row : sql.Row) :
  typed_by_catalogue s ->
  Forall (fun c => sql.Column.Type_ c = sql.Null ->
                   sql.Column.Nullable c = true) s ->
  Forall2 (fun c v' => exists v, sql.Convert (sql.Column.Type_ c) v = Ret v')
          s row ->
  sql.Schema.CheckRow s row = Ret tt.
Proof.
  intros Hty Hnull Hconv. apply CheckRow_succeeds_iff.
  induction Hconv as [| c v' s row [v Hv] _ IH]; [ constructor | ].
  inversion Hty as [| c0 s0 HT Hty']; subst.
  inversion Hnull as [| c1 s1 HN Hnull']; subst.
  constructor; [ | now apply IH ].
  pose proof (Convert_result_checked _ v v' HT Hv) as Hk.
  unfold passes, sql.Column.Check.
  destruct v'; cbn [is_nil]; try exact Hk.
  f_equal. apply HN.
  destruct (Check_canonical_form _ _ HT Hk)
    as [[HT0 _] | [[_ [n Hn]] | [[_ [n Hn]] | [[_ [t Hn]]
       | [[_ [x Hn]] | [[_ [b Hn]] | [[_ [f Hn]] | [_ [b Hn]]]]]]]]];
    try discriminate Hn. exact HT0.
Qed.

End ColumnsAndRows.

(** * Wire values tell canonical values apart *)

Lemma FormatInt_inj (a b : Z) :
  in_signed 64 a -> in_signed 64 b ->
  strconv.FormatInt a = strconv.FormatInt b -> a = b.
Proof.
  intros Ha Hb E.
  pose proof (Atoi_FormatInt a Ha) as Pa.
  rewrite E, (Atoi_FormatInt b Hb) in Pa. now injection Pa.
Qed.

Lemma list_byte_of_string_inj (s t : string) :
  list_byte_of_string s = list_byte_of_string t -> s = t.
Proof.
  intros E. rewrite <- (string_of_list_byte_of_string s), E.
  apply string_of_list_byte_of_string.
Qed.

Section WireInjective.

Context {R : Runtime}.

(** X9.  For Integer, BigInteger, String, Boolean and Blob, two canonical
    values with the same [SQL] form are the same value. *)
Theorem SQL_distinguishes_values (T : sql.Type_) (a b : value) :
  In T exact_wire_types ->
  sql.Check T a = Ret true -> sql.Check T b = Ret true ->
  wf_value a -> wf_value b ->
  sql.SQL T a = sql.SQL T b -> a = b.
Proof.
  intros HT Ha Hb Wa Wb E. simpl in HT.
  destruct HT as [<- | [<- | [<- | [<- | [<- | []]]]]];
    destruct a; try discriminate Ha; destruct b; try discriminate Hb;
    cbn -[strconv.FormatInt] in E; cbn in Wa, Wb.
  - injection E as E. apply list_byte_of_string_inj in E.
    f_equal. apply FormatInt_inj; unfold in_signed in *; try lia; exact E.
  - injection E as E. apply list_byte_of_string_inj in E.
    f_equal. now apply FormatInt_inj.
  - injection E as E. f_equal. now apply list_byte_of_string_inj.
  - destruct b0, b; try reflexivity; discriminate E.
  - injection E as E. now f_equal.
Qed.

(** [SQL] of a timestamp keeps whole seconds only: two UTC times that
    differ in their nanoseconds have the same wire value. *)
Example Timestamp_SQL_drops_fraction (y mo d h mi s us : Z) :
  valid_fields y mo d h mi s us ->
  sql.SQL sql.TimestampWithTimezone (VTime (time.Date_UTC y mo d h mi s 0))
  = sql.SQL sql.TimestampWithTimezone
      (VTime (time.Date_UTC y mo d h mi s (us * 1000))).
Proof.
  intros (Hy & Hmo & Hd & Hh & Hmi & Hs & _).
  cbn [sql.SQL sql.TimestampWithTimezone].
  unfold sql.timestampWithTimeZoneType.SQL.
  cbn [sql.MustConvert sql.timestampWithTimeZoneType.Convert
       sql.convertToTimestamp bind assert_Time].
  now rewrite !Format_Date_UTC.
Qed.

End WireInjective.

(** * Concrete instances *)

(** Idempotence at [BigInteger] and the [int64] 7. *)
Lemma Convert_idempotent_on_checked_witness :
  In sql.BigInteger (@sql.builtin utc_host)
  /\ sql.Check sql.BigInteger (VInt64 7) = Ret true
  /\ sql.Convert sql.BigInteger (VInt64 7) = Ret (VInt64 7).
Proof.
  assert (HT : In sql.BigInteger (@sql.builtin utc_host)) by (simpl; tauto).
  split; [ exact HT | ].
  split; [ reflexivity | ].
  apply (@Convert_idempotent_on_checked utc_host sql.BigInteger (VInt64 7) HT).
  reflexivity.
Defined.

(** The order at [String], on "abc" and "abd". *)
Lemma Compare_total_order_witness :
  In (@sql.String utc_host) (@sql.builtin utc_host)
  /\ sql.Check (@sql.String utc_host) (VString "abc") = Ret true
  /\ sql.Check (@sql.String utc_host) (VString "abd") = Ret true
  /\ exists c,
       sql.Compare (@sql.String utc_host) (VString "abc") (VString "abd") = Ret c
       /\ (c = -1 \/ c = 0 \/ c = 1)
       /\ sql.Compare (@sql.String utc_host) (VString "abd") (VString "abc")
          = Ret (- c)
       /\ ordered_as (VString "abc") (VString "abd") c.
Proof.
  assert (HT : In (@sql.String utc_host) (@sql.builtin utc_host))
    by (simpl; tauto).
  split; [ exact HT | ].
  split; [ reflexivity | ].
  split; [ reflexivity | ].
  apply (@Compare_total_order utc_host sql.String (VString "abc")
           (VString "abd") HT); simpl; auto.
Defined.

(** Conversion to a timestamp at the last microsecond of a leap day, at a
    text naming February 29 of a common year, and at a [uint8]. *)
Lemma Timestamp_Convert_sources_witness :
  valid_fields 2024 2 29 23 59 59 999999
  /\ sql.timestampWithTimeZoneType.Convert
       (VString (timestamp_text 2024 2 29 23 59 59 999999))
     = Ret (VTime (time.Date_UTC 2024 2 29 23 59 59 (999999 * 1000)))
  /\ admitted_text 2023 1 2 5 4 5 42 "2023-01-02  5:04:05,+00042"
  /\ sql.timestampWithTimeZoneType.Convert
       (VString "2023-01-02  5:04:05,+00042")
     = Ret (VTime (time.Date_UTC 2023 1 2 5 4 5 (42 * 1000)))
  /\ ~ (exists y mo d h mi s us,
          admitted_text y mo d h mi s us "2023-01-02 15:04:60.000000")
  /\ is_timestamp_source (VUint8 1) = false
  /\ sql.timestampWithTimeZoneType.Convert (VUint8 1) = Fail ErrInvalidType.
Proof.
  assert (Hv : valid_fields 2024 2 29 23 59 59 999999).
  { unfold valid_fields. repeat split; vm_compute; discriminate. }
  assert (Ha : admitted_text 2023 1 2 5 4 5 42 "2023-01-02  5:04:05,+00042").
  { unfold admitted_text.
    repeat (split; [ vm_compute; split; discriminate | ]).
    exists 1%nat, "5", ",+00042".
    split; [ right; split; [ vm_compute; discriminate | reflexivity ] | ].
    split; [ | reflexivity ].
    exists ","%char. split; [ now right | ].
    right. left. split; [ vm_compute; split; discriminate | reflexivity ]. }
  destruct Timestamp_Convert_sources
    as (_ & Htext & _ & Hadm & Hbad & Hother).
  split; [ exact Hv | ].
  split; [ exact (Htext 2024 2 29 23 59 59 999999 Hv) | ].
  split; [ exact Ha | ].
  split.
  { apply (proj2 (Hadm _ _)). exists 2023, 1, 2, 5, 4, 5, 42.
    split; [ exact Ha | reflexivity ]. }
  split; [ apply (proj1 (Hbad _)); reflexivity | ].
  split; [ reflexivity | ].
  apply Hother. reflexivity.
Defined.

(** ** Instances of the further properties *)

Lemma Convert_result_canonical_witness :
  In sql.Integer (@sql.builtin utc_host)
  /\ sql.Convert sql.Integer (VString "42") = Ret (VInt32 42)
  /\ sql.Check sql.Integer (VInt32 42) = Ret true
  /\ sql.Convert sql.Integer (VInt32 42) = Ret (VInt32 42).
Proof.
  assert (HT : In sql.Integer (@sql.builtin utc_host)) by (simpl; tauto).
  split; [ exact HT | ]. split; [ reflexivity | ].
  apply (@Convert_result_canonical utc_host sql.Integer (VString "42")
           (VInt32 42) HT).
  reflexivity.
Defined.

Lemma Default_canonical_except_Float_witness :
  In (@sql.Blob utc_host) (@sql.builtin utc_host)
  /\ (@sql.Blob utc_host <> @sql.Float utc_host ->
      sql.Check (@sql.Blob utc_host) (sql.Default (@sql.Blob utc_host))
      = Ret true)
  /\ (@sql.Blob utc_host = @sql.Float utc_host ->
      sql.Check (@sql.Blob utc_host) (sql.Default (@sql.Blob utc_host))
      = Ret false).
Proof.
  assert (HT : In (@sql.Blob utc_host) (@sql.builtin utc_host))
    by (simpl; tauto).
  split; [ exact HT | ].
  exact (@Default_canonical_except_Float utc_host sql.Blob HT).
Defined.

Lemma SQL_returns_iff_Convert_returns_witness :
  In (@sql.String utc_host) (@converting_types utc_host)
  /\ sql.SQL (@sql.String utc_host) (VFaulty "*time.Time")
     = Panic (MethodPanic "*time.Time")
  /\ sql.SQL (@sql.String utc_host) (VInt 1) = Panic (PanicError ErrInvalidType)
  /\ panics (sql.Convert (@sql.String utc_host) (VFaulty "*time.Time")).
Proof.
  assert (HT : In (@sql.String utc_host) (@converting_types utc_host))
    by (simpl; tauto).
  split; [ exact HT | ].
  pose proof (@SQL_returns_iff_Convert_returns utc_host sql.String
                (VFaulty "*time.Time") HT) as [_ [_ [_ [_ [Hp Hc]]]]].
  pose proof (@SQL_returns_iff_Convert_returns utc_host sql.String
                (VInt 1) HT) as [_ [_ [_ [He _]]]].
  split; [ apply Hp; reflexivity | ].
  split; [ apply He; reflexivity | ].
  apply Hc. split; [ left; reflexivity | eexists; reflexivity ].
Defined.

Lemma Native_driver_values_witness :
  In sql.Integer (@sql.builtin utc_host)
  /\ sql.Check sql.Integer (VInt32 (-5)) = Ret true
  /\ wf_value (VInt32 (-5))
  /\ sql.Native sql.Integer (VInt32 (-5)) = Ret (VInt64 (-5)).
Proof.
  assert (HT : In sql.Integer (@sql.builtin utc_host)) by (simpl; tauto).
  assert (Hwf : wf_value (VInt32 (-5))) by (unfold wf_value, in_signed; lia).
  split; [ exact HT | ]. split; [ reflexivity | ]. split; [ exact Hwf | ].
  destruct (@Native_driver_values utc_host sql.Integer HT) as (_ & _ & _ & H).
  exact (H (VInt32 (-5)) eq_refl Hwf).
Defined.

Lemma Integer_Convert_sized_witness :
  wf_value (VUint32 4000000000)
  /\ int_value (VUint32 4000000000) = Some 4000000000
  /\ is_int (VUint32 4000000000) = false
  /\ ~ in_signed 32 4000000000
  /\ fails_with_overflow (sql.Convert sql.Integer (VUint32 4000000000)).
Proof.
  assert (Hwf : wf_value (VUint32 4000000000))
    by (unfold wf_value, in_unsigned; lia).
  assert (Hout : ~ in_signed 32 4000000000) by (unfold in_signed; lia).
  split; [ exact Hwf | ]. split; [ reflexivity | ]. split; [ reflexivity | ].
  split; [ exact Hout | ].
  exact (proj2 (Integer_Convert_sized (VUint32 4000000000) 4000000000
                  Hwf eq_refl eq_refl) Hout).
Defined.

Lemma Integer_SQL_Convert_round_trip_witness :
  in_signed 32 (-17)
  /\ exists bytes,
       sql.SQL sql.Integer (VInt32 (-17))
       = Ret (sqltypes.mkValue query.Int32 bytes)
       /\ sql.Convert sql.Integer (VString (string_of_list_byte bytes))
          = Ret (VInt32 (-17)).
Proof.
  assert (Hn : in_signed 32 (-17)) by (unfold in_signed; lia).
  split; [ exact Hn | ].
  exact (proj1 (Integer_SQL_Convert_round_trip (-17)) Hn).
Defined.

Lemma SQL_distinguishes_values_witness :
  In (@sql.String utc_host) (@exact_wire_types utc_host)
  /\ sql.SQL (@sql.String utc_host) (VString "a")
     = sql.SQL (@sql.String utc_host) (VString "a")
  /\ VString "a" = VString "a".
Proof.
  assert (HT : In (@sql.String utc_host) (@exact_wire_types utc_host))
    by (simpl; tauto).
  split; [ exact HT | ]. split; [ reflexivity | ].
  apply (@SQL_distinguishes_values utc_host sql.String (VString "a")
           (VString "a") HT); try reflexivity; exact I.
Defined.

Lemma Timestamp_of_seconds_keeps_order_witness :
  - 2 ^ 63 <= 0 < 2 ^ 63 - time.unixToInternal
  /\ - 2 ^ 63 <= 86400 < 2 ^ 63 - time.unixToInternal
  /\ exists x y,
       sql.timestampWithTimeZoneType.Convert (VInt64 0) = Ret x
       /\ sql.timestampWithTimeZoneType.Convert (VInt64 86400) = Ret y
       /\ sql.timestampWithTimeZoneType.Compare x y
          = sql.bigIntegerType.Compare (VInt64 0) (VInt64 86400).
Proof.
  assert (Ha : - 2 ^ 63 <= 0 < 2 ^ 63 - time.unixToInternal)
    by (unfold time.unixToInternal; lia).
  assert (Hb : - 2 ^ 63 <= 86400 < 2 ^ 63 - time.unixToInternal)
    by (unfold time.unixToInternal; lia).
  split; [ exact Ha | ]. split; [ exact Hb | ].
  exact (proj1 (Timestamp_of_seconds_keeps_order 0 86400 Ha Hb)).
Defined.


Lemma Column_Check_spec_witness :
  let c := sql.Column.mk "n" sql.Null VNil false in
  In (sql.Column.Type_ c) (@sql.builtin utc_host)
  /\ sql.Column.Check c VNil = Ret false
  /\ sql.Column.Check c (VInt32 1) = Ret false.
Proof.
  cbv zeta.
  assert (HT : In (sql.Column.Type_ (sql.Column.mk "n" sql.Null VNil false))
                  (@sql.builtin utc_host)) by (simpl; tauto).
  split; [ exact HT | ].
  split.
  - exact (proj2 (@Column_Check_spec utc_host _ VNil HT) eq_refl eq_refl).
  - exact (proj2 (@Column_Check_spec utc_host _ (VInt32 1) HT) eq_refl eq_refl).
Defined.

Lemma CheckRow_verdict_witness :
  let s := [sql.Column.mk "id" sql.Integer VNil false] in
  @typed_by_catalogue utc_host s
  /\ ((List.length s <> List.length [VInt64 1]
       /\ sql.Schema.CheckRow s [VInt64 1]
          = Fail (ErrExpectedValues (List.length s) (List.length [VInt64 1])))
      \/ (Forall2 passes s [VInt64 1]
          /\ sql.Schema.CheckRow s [VInt64 1] = Ret tt)
      \/ (exists s1 c s2 vs1 v vs2,
            s = s1 ++ c :: s2 /\ [VInt64 1] = vs1 ++ v :: vs2
            /\ Forall2 passes s1 vs1 /\ sql.Column.Check c v = Ret false
            /\ sql.Schema.CheckRow s [VInt64 1]
               = match reflect.TypeOf v with
                 | Some typ => Fail (ErrUnexpectedType (List.length s1) typ)
                 | None => Panic NilDereference
                 end)).
Proof.
  cbv zeta.
  assert (Hty : @typed_by_catalogue utc_host
                  [sql.Column.mk "id" sql.Integer VNil false]).
  { constructor; [ simpl; tauto | constructor ]. }
  split; [ exact Hty | ].
  exact (@CheckRow_verdict utc_host _ [VInt64 1] Hty).
Defined.

Lemma CheckRow_of_converted_witness :
  let s := [sql.Column.mk "id" sql.Integer VNil false;
            sql.Column.mk "gap" sql.Null VNil true] in
  @typed_by_catalogue utc_host s
  /\ sql.Convert sql.Integer (VString "42") = Ret (VInt32 42)
  /\ sql.Convert sql.Null VNil = Ret VNil
  /\ sql.Schema.CheckRow s [VInt32 42; VNil] = Ret tt.
Proof.
  cbv zeta.
  assert (Hty : @typed_by_catalogue utc_host
                  [sql.Column.mk "id" sql.Integer VNil false;
                   sql.Column.mk "gap" sql.Null VNil true]).
  { constructor; [ simpl; tauto | ].
    constructor; [ simpl; tauto | constructor ]. }
  split; [ exact Hty | ]. split; [ reflexivity | ]. split; [ reflexivity | ].
  apply (@CheckRow_of_converted utc_host _ [VInt32 42; VNil] Hty).
  - constructor; [ intros H; discriminate H | ].
    constructor; [ intros _; reflexivity | constructor ].
  - constructor; [ exists (VString "42"); reflexivity | ].
    constructor; [ exists VNil; reflexivity | constructor ].
Defined.

Lemma SQL_carries_type_tag_witness :
  In sql.BigInteger (@sql.builtin utc_host)
  /\ sql.SQL sql.BigInteger (VInt64 12)
     = Ret (sqltypes.NewInt64 12)
  /\ sqltypes.typ (sqltypes.NewInt64 12) = sql.Type_tag sql.BigInteger.
Proof.
  assert (HT : In sql.BigInteger (@sql.builtin utc_host)) by (simpl; tauto).
  split; [ exact HT | ]. split; [ reflexivity | ].
  exact (proj1 (@SQL_carries_type_tag utc_host) sql.BigInteger (VInt64 12)
           (sqltypes.NewInt64 12) HT eq_refl).
Defined.

Lemma BigInteger_Convert_preserves_value_witness :
  wf_value (VUint 9223372036854775807)
  /\ int_value (VUint 9223372036854775807) = Some 9223372036854775807
  /\ 9223372036854775807 < 2 ^ 63
  /\ sql.Convert sql.BigInteger (VUint 9223372036854775807)
     = Ret (VInt64 9223372036854775807)
  /\ strconv.Atoi "-9223372036854775808" = Some (-9223372036854775808)
  /\ sql.Convert sql.BigInteger (VString "-9223372036854775808")
     = Ret (VInt64 (-9223372036854775808)).
Proof.
  assert (Hwf : wf_value (VUint 9223372036854775807))
    by (unfold wf_value, in_unsigned, intSize; lia).
  assert (Hlt : 9223372036854775807 < 2 ^ 63) by lia.
  destruct BigInteger_Convert_preserves_value as [Hint Htext].
  split; [ exact Hwf | ]. split; [ reflexivity | ]. split; [ exact Hlt | ].
  split; [ exact (Hint _ _ Hwf eq_refl Hlt) | ].
  split; [ reflexivity | ].
  apply Htext. reflexivity.
Defined.

Lemma Blob_Convert_follows_String_witness :
  sql.Convert (@sql.String utc_host) (VOther "net.IP" (Some "10.0.0.1"))
  = Ret (VString "10.0.0.1")
  /\ sql.Convert (@sql.Blob utc_host) (VOther "net.IP" (Some "10.0.0.1"))
     = Ret (VBytes (list_byte_of_string "10.0.0.1")).
Proof.
  split; [ reflexivity | ].
  apply (proj1 (@Blob_Convert_follows_String utc_host
                  (VOther "net.IP" (Some "10.0.0.1")))).
  reflexivity.
Defined.
